(** * image-ai: the screenshot analysis pipeline of [ImageAnalyzer]

    A shallow embedding of [backend/app/services/image_analyzer.py] together
    with the parts of [analysis_models.py] and [prompt_generator.py] that the
    analysis result is made of.

    Conventions of the embedding:
    - Python [int] is [Z]; Python [float] is an exact rational [Q] (no
      rounding error in [+], [*], [/]); a comparison with a float literal is
      the comparison with the rational the literal denotes.
    - Python [str] is [string], one [ascii] per character.
    - A [dict] whose keys are fixed by the code is an association list in
      insertion order.
    - A call that may raise returns [result]; [try: ... except Exception:] is
      [try_except].
    - What OpenCV, scikit-learn, Tesseract, the system clock and the string
      hash seed answer is not computed here: it is read from a record [Env]. *)

From Stdlib Require Import ZArith QArith Qround List String Ascii Bool Lia.
From Stdlib Require Import Sorted Permutation DecimalString Lqa.
From Stdlib Require DecimalZ DecimalPos Finite.
Import ListNotations.


(** ** Exceptions and fallible computations *)

Inductive exn : Type :=
| ValueError (msg : string)
| IndexError
| ZeroDivisionError
| LibraryError (origin : string).

Inductive result (A : Type) : Type :=
| Ok (a : A)
| Raise (e : exn).

Arguments Ok {A} a.
Arguments Raise {A} e.

Definition bind {A B} (c : result A) (k : A -> result B) : result B :=
  match c with
  | Ok a => k a
  | Raise e => Raise e
  end.

Notation "x <- c ;; k" := (bind c (fun x => k))
  (at level 61, c at next level, right associativity).
Notation "' pat <- c ;; k" := (bind c (fun x => match x with pat => k end))
  (at level 61, pat pattern, c at next level, right associativity).

(** [try: body  except Exception: return default] *)
Definition try_except {A} (body : result A) (default : A) : A :=
  match body with
  | Ok a => a
  | Raise _ => default
  end.

Definition raises {A} (c : result A) : bool :=
  match c with
  | Ok _ => false
  | Raise _ => true
  end.

(** [for x in xs: state = body x state], stopping at the first exception. *)
Fixpoint for_each {A S} (xs : list A) (s : S) (body : A -> S -> result S)
  : result S :=
  match xs with
  | [] => Ok s
  | x :: xs' => s' <- body x s ;; for_each xs' s' body
  end.

(** [enumerate(xs)] *)
Fixpoint enumerate_from {A} (i : nat) (xs : list A) : list (nat * A) :=
  match xs with
  | [] => []
  | x :: xs' => (i, x) :: enumerate_from (S i) xs'
  end.

Definition enumerate {A} (xs : list A) : list (nat * A) := enumerate_from 0 xs.

(** [xs[i]] for [i >= 0] *)
Definition getitem {A} (xs : list A) (i : nat) : result A :=
  match nth_error xs i with
  | Some x => Ok x
  | None => Raise IndexError
  end.

(** ** Numbers *)

Definition Qlt_bool (a b : Q) : bool := negb (Qle_bool b a).

(** [a / b] on two ints: true division, [ZeroDivisionError] on [b = 0]. *)
Definition py_truediv (a b : Z) : result Q :=
  if (b =? 0)%Z then Raise ZeroDivisionError
  else Ok (inject_Z a / inject_Z b).

(** [int(x)] on a float: truncation toward zero. *)
Definition py_int (x : Q) : Z := Z.quot (Qnum x) (Zpos (Qden x)).

(** Rounding to the nearest integer, ties to the even one: [np.round], and
    [round] on the exact value of its argument. *)
Definition round_half_even (x : Q) : Z :=
  let n := Qfloor x in
  let frac := x - inject_Z n in
  if Qlt_bool frac (1 # 2) then n
  else if Qlt_bool (1 # 2) frac then (n + 1)%Z
  else if Z.even n then n else (n + 1)%Z.

(** [round(x, 2)] *)
Definition py_round2 (x : Q) : Q := round_half_even (x * 100) # 100.

(** [sum(xs)] on floats *)
Definition py_sum (xs : list Q) : Q := fold_left Qplus xs 0.

(** ** Strings *)

Local Open Scope string_scope.

(** [str(n)] for an int *)
Definition str_of_Z (n : Z) : string := NilZero.string_of_int (Z.to_int n).
Definition str_of_nat (n : nat) : string := str_of_Z (Z.of_nat n).

Definition hex_digit (d : Z) : ascii :=
  if (d <? 10)%Z then ascii_of_N (Z.to_N (48 + d))
  else ascii_of_N (Z.to_N (87 + d)).

Fixpoint hex_digits (fuel : nat) (n : Z) (acc : string) : string :=
  match fuel with
  | O => acc
  | S fuel' =>
      let acc' := String (hex_digit (n mod 16)) acc in
      if (n / 16 =? 0)%Z then acc' else hex_digits fuel' (n / 16) acc'
  end.

Definition hex_of_nonneg (n : Z) : string :=
  hex_digits (S (Z.to_nat (Z.log2 n))) n EmptyString.

Fixpoint zero_pad (width : nat) (s : string) : string :=
  match width with
  | O => s
  | S w' => if (String.length s <? width)%nat then zero_pad w' ("0" ++ s) else s
  end.

(** ["{:02x}".format(n)] *)
Definition format_02x (n : Z) : string :=
  if (n <? 0)%Z then "-" ++ zero_pad 1 (hex_of_nonneg (- n))
  else zero_pad 2 (hex_of_nonneg n).

(** ["#{:02x}{:02x}{:02x}".format(r, g, b)] *)
Definition format_hex (r g b : Z) : string :=
  "#" ++ format_02x r ++ format_02x g ++ format_02x b.

(** The characters [str.strip] and [str.split] treat as whitespace. *)
Definition is_space (c : ascii) : bool :=
  let n := N_of_ascii c in
  ((9 <=? n) && (n <=? 13) || (28 <=? n) && (n <=? 32))%N.

Fixpoint lstrip (s : string) : string :=
  match s with
  | String c s' => if is_space c then lstrip s' else s
  | EmptyString => EmptyString
  end.

Fixpoint rstrip (s : string) : string :=
  match s with
  | String c s' =>
      match rstrip s' with
      | EmptyString => if is_space c then EmptyString else String c EmptyString
      | t => String c t
      end
  | EmptyString => EmptyString
  end.

(** [s.strip()] *)
Definition strip (s : string) : string := rstrip (lstrip s).

(** [s[:n]] *)
Fixpoint str_take (n : nat) (s : string) : string :=
  match n, s with
  | S n', String c s' => String c (str_take n' s')
  | _, _ => EmptyString
  end.

(** [len(s.split())]: the number of maximal runs of non-whitespace. *)
Fixpoint count_words (in_word : bool) (s : string) : nat :=
  match s with
  | EmptyString => O
  | String c s' =>
      if is_space c then count_words false s'
      else if in_word then count_words true s'
      else S (count_words true s')
  end.

(** [sep.join(xs)] *)
Fixpoint join (sep : string) (xs : list string) : string :=
  match xs with
  | [] => EmptyString
  | [x] => x
  | x :: xs' => x ++ sep ++ join sep xs'
  end.

(** ** Sequences *)

(** Python index normalisation of a slice bound against a length. *)
Definition slice_bound (i len : Z) : Z :=
  if (i <? 0)%Z then Z.max 0 (i + len) else Z.min i len.

(** [xs[lo:hi]] *)
Definition slice {A} (lo hi : Z) (xs : list A) : list A :=
  let len := Z.of_nat (List.length xs) in
  let lo' := slice_bound lo len in
  let hi' := slice_bound hi len in
  firstn (Z.to_nat (hi' - lo')) (skipn (Z.to_nat lo') xs).

(** [d[k] = v] on an insertion-ordered dict *)
Fixpoint dict_set {V} (d : list (string * V)) (k : string) (v : V)
  : list (string * V) :=
  match d with
  | [] => [(k, v)]
  | (k', v') :: d' =>
      if String.eqb k' k then (k', v) :: d' else (k', v') :: dict_set d' k v
  end.


(** [xs.append(x)] *)
Definition py_append {A} (xs : list A) (x : A) : list A := (xs ++ [x])%list.

(** ** The data model ([analysis_models.py]) *)

Inductive ElementType : Type :=
| HEADER | NAVBAR | SIDEBAR | FOOTER | BUTTON | INPUT
| FORM | CARD | IMAGE | TEXT | ICON | CONTAINER.

Definition ElementType_value (t : ElementType) : string :=
  match t with
  | HEADER => "header" | NAVBAR => "navbar" | SIDEBAR => "sidebar"
  | FOOTER => "footer" | BUTTON => "button" | INPUT => "input"
  | FORM => "form" | CARD => "card" | IMAGE => "image"
  | TEXT => "text" | ICON => "icon" | CONTAINER => "container"
  end.

Inductive LayoutType : Type :=
| FLEXBOX | GRID | BLOCK | INLINE | ABSOLUTE | RELATIVE.

Definition LayoutType_value (t : LayoutType) : string :=
  match t with
  | FLEXBOX => "flexbox" | GRID => "grid" | BLOCK => "block"
  | INLINE => "inline" | ABSOLUTE => "absolute" | RELATIVE => "relative"
  end.

(** Truth value of a [str]: non-empty. [LayoutType] is a [str] enum. *)
Definition str_truthy (s : string) : bool :=
  match s with
  | EmptyString => false
  | String _ _ => true
  end.

Definition RGB : Type := (Z * Z * Z)%type.

Record ColorInfo : Type := {
  hex_code : string;
  rgb : RGB;
  usage_context : string;
  color_element_type : string;
  confidence : Q
}.

Record Typography : Type := {
  font_family : string;
  font_size : string;
  font_weight : string;
  color : string;
  text_content : string;
  typo_element_type : string;
  typo_alignment : string;
  line_height : option string;
  letter_spacing : option string
}.

Record InteractiveElement : Type := {
  element_type : ElementType;
  position : list (string * Z);
  dimensions : list (string * Z);
  styling : list (string * string);
  states : option (list (string * string));
  elem_text_content : option string
}.

Record Asset : Type := {
  asset_type : string;
  asset_dimensions : list (string * Z);
  asset_position : list (string * Z);
  alt_text_intent : option string;
  file_format : option string
}.

Record LayoutStructure : Type := {
  layout_type : LayoutType;
  grid_structure : option string;
  flexbox_properties : option (list (string * string));
  spacing : list (string * string);
  alignment : string;
  responsive_hints : option (list string)
}.

Record GlobalStyles : Type := {
  borders : list (string * string);
  shadows : list (string * string);
  border_radius : list (string * string);
  breakpoints : option (list (string * string));
  css_variables : option (list (string * string))
}.

Record StyleGuide : Type := {
  primary_colors : list string;
  secondary_colors : list string;
  font_stack : list string;
  spacing_scale : list string;
  design_tokens : list (string * string)
}.

(** The [metadata] dict of a generated prompt, key by key. *)
Record PromptMetadata : Type := {
  analysis_confidence : Q;
  processing_time_seconds : Q;
  detected_colors : nat;
  detected_text_elements : nat;
  detected_interactive_elements : nat;
  detected_assets : nat;
  layout_system : string;
  prompt_word_count : nat;
  prompt_character_count : nat;
  accuracy_level : string;
  recreation_difficulty : string
}.

Record GeneratedPrompt : Type := {
  title : string;
  description : string;
  full_prompt : string;
  sections : list (string * string);
  metadata : PromptMetadata
}.

(** The [image_info] dict. *)
Record ImageInfo : Type := {
  info_filename : string;
  info_width : Z;
  info_height : Z;
  info_channels : Z;
  info_format : string
}.

Record AnalysisResponse : Type := {
  layout : LayoutStructure;
  colors : list ColorInfo;
  typography : list Typography;
  interactive_elements : list InteractiveElement;
  assets : list Asset;
  global_styles : GlobalStyles;
  style_guide : StyleGuide;
  component_labels : list (string * string);
  generated_prompt : option GeneratedPrompt;
  image_info : ImageInfo;
  processing_time : Q;
  confidence_score : Q;
  warnings : list string
}.

(** ** Images and what the libraries report about them *)

(** A decoded image: rows of pixels, three channels each
    ([cv2.IMREAD_COLOR]). *)
Definition Image : Type := list (list RGB).

(** [image.shape[:2]] *)
Definition shape (image : Image) : Z * Z :=
  (Z.of_nat (List.length image), Z.of_nat (List.length (hd [] image))).

(** [cv2.cvtColor(image, cv2.COLOR_BGR2RGB)] *)
Definition cvtColor_BGR2RGB (image : Image) : Image :=
  map (map (fun '(b, g, r) => (r, g, b))) image.

(** A contour, by what [cv2.contourArea], [cv2.approxPolyDP] (tolerance 2% of
    [cv2.arcLength]) and [cv2.boundingRect] report about it. *)
Record Contour : Type := {
  contourArea : Q;
  approx_vertices : nat;
  boundingRect : Z * Z * Z * Z
}.

(** The dict of [pytesseract.image_to_data]. *)
Record OcrData : Type := {
  ocr_text : list string;
  ocr_left : list Z;
  ocr_top : list Z;
  ocr_width : list Z;
  ocr_height : list Z
}.

Inductive Orientation : Type := Horizontal | Vertical.

(** Everything the pipeline reads from outside itself. *)
Record Env : Type := {
  (** [cv2.imdecode(np.frombuffer(data, np.uint8), cv2.IMREAD_COLOR)] *)
  cv2_imdecode : list Byte.byte -> result (option Image);
  (** grayscale, [cv2.Canny(gray, 50, 150)], external contours *)
  cv2_edge_contours : Image -> result (list Contour);
  (** grayscale, Canny, opening with a 40x1 or 1x40 kernel,
      [cv2.HoughLinesP] with threshold 100, length 100, gap 10 *)
  cv2_hough_lines : Orientation -> Image -> result (option (list (Z * Z * Z * Z)));
  (** [KMeans(n_clusters, random_state, n_init).fit(pixels)]: the centers and
      the label of each pixel *)
  sklearn_kmeans : nat -> Z -> nat -> list RGB -> result (list (Q * Q * Q) * list nat);
  (** [pytesseract.image_to_data] *)
  tesseract_image_to_data : Image -> result OcrData;
  (** grayscale, [cv2.adaptiveThreshold] (Gaussian, block 11, offset 2),
      external contours *)
  cv2_threshold_contours : Image -> result (list Contour);
  (** [cv2.HoughCircles] with minDist 30, radius 10..100 *)
  cv2_hough_circles : Image -> result (option (list (Q * Q * Q)));
  (** the markdown templates of [PromptGenerator], each a function of the
      parts of the response it reads: [_generate_overview],
      [_generate_layout_section], [_generate_colors_section],
      [_generate_typography_section], [_generate_components_section],
      [_generate_styling_section], [_generate_implementation_section],
      [_generate_assets_section] *)
  template_overview :
    ImageInfo -> LayoutStructure -> list ColorInfo -> list Typography ->
    list InteractiveElement -> Q -> Q -> string;
  template_layout : LayoutStructure -> string;
  template_colors : list ColorInfo -> string;
  template_typography : list Typography -> string;
  template_components : list InteractiveElement -> string;
  template_styling : GlobalStyles -> StyleGuide -> string;
  template_implementation : ImageInfo -> LayoutStructure -> Q -> string;
  template_assets : list Asset -> string;
  (** the two readings of [time.time()] *)
  clock_start : Q;
  clock_end : Q;
  (** the order in which this process iterates over a [set] of strings *)
  str_hash : string -> Z
}.

(** ** Binary64 rounding

    The one place of the pipeline where the rounding of a float product
    changes an integer result at everyday inputs is [int(font_size * 1.4)]:
    the double nearest to 1.4 lies below it, so [45 * 1.4] is
    [62.99999999999999]. There the product is rounded as the machine does. *)

(** The double nearest to [x], for [x >= 1]. *)
Definition fl64 (x : Q) : Q :=
  let e := Z.log2 (Qfloor x) in
  if (e <=? 52)%Z then
    inject_Z (round_half_even (x * inject_Z (2 ^ (52 - e))))
    / inject_Z (2 ^ (52 - e))
  else
    inject_Z (round_half_even (x / inject_Z (2 ^ (e - 52))) * 2 ^ (e - 52)).

(** The value of the literal [1.4]: [0x1.6666666666666p+0]. *)
Definition float_1_4 : Q := 3152519739159347 # 2251799813685248.

(** ** Stage: image loader *)

Definition _load_image (E : Env) (image_data : list Byte.byte) : option Image :=
  try_except
    (image <- cv2_imdecode E image_data ;;
     Ok (match image with
         | Some im => Some (cvtColor_BGR2RGB im)
         | None => None
         end))
    None.

(** ** Stage: screenshot classifier *)

Definition is_rectangular_region (width height : Z) (contour : Contour) : bool :=
  (approx_vertices contour =? 4)%nat
  && Qlt_bool (inject_Z (width * height) * (1 # 100)) (contourArea contour).

Definition _is_website_screenshot (E : Env) (image : Image) : bool :=
  try_except
    (let '(height, width) := shape image in
     aspect_ratio <- py_truediv width height ;;
     contours <- cv2_edge_contours E image ;;
     let rectangular_regions :=
       fold_left
         (fun n contour =>
            if is_rectangular_region width height contour then (n + 1)%Z else n)
         contours 0%Z in
     Ok (Qle_bool (1 # 2) aspect_ratio && Qle_bool aspect_ratio 3
         && (3 <=? rectangular_regions)%Z
         && (300 <=? width)%Z && (200 <=? height)%Z))
    true.

(** ** Stage: layout analyzer *)

Definition hough_count (lines : option (list (Z * Z * Z * Z))) : Z :=
  match lines with
  | Some ls => Z.of_nat (List.length ls)
  | None => 0%Z
  end.

Definition layout_failure_default : LayoutStructure :=
  {| layout_type := FLEXBOX;
     grid_structure := None;
     flexbox_properties := None;
     spacing := [("padding", "unknown"); ("margin", "unknown"); ("gap", "unknown")];
     alignment := "unknown";
     responsive_hints := None |}.

Definition _analyze_layout (E : Env) (image : Image) : LayoutStructure :=
  try_except
    (let '(height, width) := shape image in
     h_lines <- cv2_hough_lines E Horizontal image ;;
     v_lines <- cv2_hough_lines E Vertical image ;;
     let h_count := hough_count h_lines in
     let v_count := hough_count v_lines in
     let '(layout_type, grid_structure) :=
       if (2 <=? h_count)%Z && (2 <=? v_count)%Z then
         (GRID,
          Some ("Estimated " ++ str_of_Z (v_count + 1) ++ " columns, "
                ++ str_of_Z (h_count + 1) ++ " rows"))
       else (FLEXBOX, None) in
     Ok {| layout_type := layout_type;
           grid_structure := grid_structure;
           flexbox_properties := None;
           spacing := [("padding", "16px (estimated)");
                       ("margin", "12px (estimated)");
                       ("gap", "8px (estimated)")];
           alignment := "left-aligned (estimated)";
           responsive_hints :=
             Some (if (768 <? width)%Z then ["Desktop layout detected"]
                   else ["Mobile layout detected"]) |})
    layout_failure_default.

(** ** Stage: color extractor *)

Definition _determine_color_usage (rgb : RGB) (percentage : Q) : string :=
  let '(r, g, b) := rgb in
  if Qlt_bool (3 # 10) percentage then "Background"
  else if (r <? 100)%Z && (g <? 100)%Z && (b <? 100)%Z then "Text"
  else
    let saturation := (Z.max (Z.max r g) b - Z.min (Z.min r g) b)%Z in
    if Qle_bool (1 # 10) percentage && Qle_bool percentage (3 # 10)
       && (50 <? saturation)%Z
    then "Primary/Accent"
    else if (saturation <? 30)%Z then "Border/Divider"
    else "UI Element".

(** [np.unique(labels, return_counts=True)]: the distinct labels in
    increasing order, each with its number of occurrences. *)
Definition np_unique_counts (labels : list nat) : list (nat * nat) :=
  filter (fun vc => (0 <? snd vc)%nat)
    (map (fun v => (v, count_occ Nat.eq_dec labels v))
       (seq 0 (S (list_max labels)))).

Definition make_color (center : RGB) (percentage : Q) : ColorInfo :=
  let '(r, g, b) := center in
  {| hex_code := format_hex r g b;
     rgb := (r, g, b);
     usage_context := _determine_color_usage center percentage;
     color_element_type := "detected";
     confidence := percentage |}.

(** Insertion into a list sorted by decreasing confidence, after the entries
    of equal confidence. *)
Fixpoint insert_desc (x : ColorInfo) (sorted : list ColorInfo) : list ColorInfo :=
  match sorted with
  | [] => [x]
  | y :: ys =>
      if Qle_bool (confidence x) (confidence y) then y :: insert_desc x ys
      else x :: y :: ys
  end.

(** [colors.sort(key=lambda x: x.confidence, reverse=True)]: stable. *)
Definition sort_by_confidence_desc (colors : list ColorInfo) : list ColorInfo :=
  fold_left (fun acc x => insert_desc x acc) colors [].

(** [counts / len(labels)]: the share of the labels that each label that
    occurs has, as an exact quotient (the code stores its nearest double). *)
Definition color_percentages (labels : list nat) : list Q :=
  map (fun c => inject_Z (Z.of_nat c) / inject_Z (Z.of_nat (List.length labels)))
    (map snd (np_unique_counts labels)).

Definition astype_int (center : Q * Q * Q) : RGB :=
  let '(r, g, b) := center in (py_int r, py_int g, py_int b).

(** The loop of [_extract_colors] over [zip(centers, color_percentages)]. *)
Definition color_samples (cluster_centers : list (Q * Q * Q)) (labels : list nat)
  : list ColorInfo :=
  fold_left
    (fun colors '(center, percentage) =>
       py_append colors (make_color center percentage))
    (combine (map astype_int cluster_centers) (color_percentages labels))
    [].

Definition _extract_colors (E : Env) (image : Image) : list ColorInfo :=
  try_except
    (let pixels := List.concat image in
     let n_colors := 8%nat in
     '(cluster_centers, labels) <- sklearn_kmeans E n_colors 42 10 pixels ;;
     let colors := color_samples cluster_centers labels in
     let colors := sort_by_confidence_desc colors in
     Ok (firstn 6 colors))
    [].

(** ** Stage: typography extractor *)

(** [image[y:y+h, x:x+w].reshape(-1, 3)] *)
Definition region_pixels (image : Image) (x y w h : Z) : list RGB :=
  List.concat (map (slice x (x + w)) (slice y (y + h) image)).

Definition channel_mean (channel : RGB -> Z) (px : list RGB) : Q :=
  inject_Z (fold_left Z.add (map channel px) 0%Z)
  / inject_Z (Z.of_nat (List.length px)).

(** [np.mean(px, axis=0)] formatted as a hex code with [int] on each channel.
    On an empty region the mean is NaN and [int] raises. *)
Definition mean_color_hex (px : list RGB) : result string :=
  match px with
  | [] => Raise (ValueError "cannot convert float NaN to integer")
  | _ =>
      Ok (format_hex
            (py_int (channel_mean (fun p => fst (fst p)) px))
            (py_int (channel_mean (fun p => snd (fst p)) px))
            (py_int (channel_mean (fun p => snd p) px)))
  end.

(** [max(12, int(height * 0.8))] *)
Definition estimate_font_size (height : Z) : Z :=
  Z.max 12 (py_int (inject_Z height * (8 # 10))).

Definition classify_text (font_size : Z) : string * string :=
  if (24 <? font_size)%Z then ("heading", "bold")
  else if (18 <? font_size)%Z then ("subheading", "semi-bold")
  else ("body", "normal").

(** The text color of a token: the mean color of its box when the box lies
    inside the image and is not empty, black otherwise. *)
Definition sample_text_color (image : Image) (x y w h : Z) : result string :=
  if (0 <=? x)%Z && (0 <=? y)%Z
     && (x + w <=? snd (shape image))%Z && (y + h <=? fst (shape image))%Z
  then
    let text_region := region_pixels image x y w h in
    match text_region with
    | [] => Ok "#000000"
    | _ => mean_color_hex text_region
    end
  else Ok "#000000".

(** One iteration of the loop of [_analyze_typography]. *)
Definition typography_step (image : Image) (data : OcrData)
    (entry : nat * string) (typography_elements : list Typography)
  : result (list Typography) :=
  let '(i, text) := entry in
  if str_truthy (strip text) then
    height <- getitem (ocr_height data) i ;;
    let font_size := estimate_font_size height in
    let '(element_type, font_weight) := classify_text font_size in
    x <- getitem (ocr_left data) i ;;
    y <- getitem (ocr_top data) i ;;
    w <- getitem (ocr_width data) i ;;
    h <- getitem (ocr_height data) i ;;
    text_color <- sample_text_color image x y w h ;;
    Ok (py_append typography_elements
          {| font_family := "System font (estimated)";
             font_size := str_of_Z font_size ++ "px";
             font_weight := font_weight;
             color := text_color;
             text_content := str_take 100 (strip text);
             typo_element_type := element_type;
             typo_alignment := "left";
             line_height :=
               Some (str_of_Z (py_int (fl64 (inject_Z font_size * float_1_4)))
                     ++ "px");
             letter_spacing := None |})
  else Ok typography_elements.

Definition _analyze_typography (E : Env) (image : Image) : list Typography :=
  try_except
    (data <- tesseract_image_to_data E image ;;
     typography_elements <-
       for_each (enumerate (ocr_text data)) [] (typography_step image data) ;;
     Ok (firstn 10 typography_elements))
    [].

(** ** Stage: interactive element detector *)

Definition classify_element (aspect_ratio : Q) (h : Z) : ElementType :=
  if Qle_bool (15 # 10) aspect_ratio && Qle_bool aspect_ratio 6
     && (20 <=? h)%Z && (h <=? 100)%Z
  then BUTTON
  else if Qlt_bool 3 aspect_ratio && (h <=? 50)%Z then INPUT
  else CONTAINER.

Definition area_in_range (width height : Z) (area : Q) : bool :=
  Qlt_bool 500 area && Qlt_bool area (inject_Z (width * height) * (1 # 10)).

(** One iteration of the loop of [_detect_interactive_elements]. *)
Definition element_step (image : Image) (width height : Z)
    (contour : Contour) (interactive_elements : list InteractiveElement)
  : result (list InteractiveElement) :=
  let area := contourArea contour in
  if area_in_range width height area then
    let '(x, y, w, h) := boundingRect contour in
    aspect_ratio <- py_truediv w h ;;
    let element_type := classify_element aspect_ratio h in
    bg_color <- mean_color_hex (region_pixels image x y w h) ;;
    Ok (py_append interactive_elements
          {| element_type := element_type;
             position := [("x", x); ("y", y)];
             dimensions := [("width", w); ("height", h)];
             styling := [("background_color", bg_color);
                         ("border_radius", "4px (estimated)");
                         ("padding", "8px 16px (estimated)")];
             states := None;
             elem_text_content := None |})
  else Ok interactive_elements.

Definition _detect_interactive_elements (E : Env) (image : Image)
  : list InteractiveElement :=
  try_except
    (let '(height, width) := shape image in
     contours <- cv2_threshold_contours E image ;;
     interactive_elements <-
       for_each contours [] (element_step image width height) ;;
     Ok (firstn 15 interactive_elements))
    [].

(** ** Stage: asset cataloger *)

Definition icon_asset (circle : Q * Q * Q) : Asset :=
  let '(cx, cy, cr) := circle in
  let x := round_half_even cx in
  let y := round_half_even cy in
  let r := round_half_even cr in
  {| asset_type := "icon";
     asset_dimensions := [("width", r * 2); ("height", r * 2)]%Z;
     asset_position := [("x", x - r); ("y", y - r)]%Z;
     alt_text_intent := Some "Circular icon/logo";
     file_format := None |}.

(** One iteration of the contour loop of [_catalog_assets]. *)
Definition asset_step (contour : Contour) (assets : list Asset)
  : result (list Asset) :=
  let area := contourArea contour in
  if Qlt_bool 2000 area then
    let '(x, y, w, h) := boundingRect contour in
    aspect_ratio <- py_truediv w h ;;
    if Qle_bool (1 # 2) aspect_ratio && Qle_bool aspect_ratio 3
       && (50 <? w)%Z && (50 <? h)%Z
    then
      Ok (py_append assets
            {| asset_type := "image";
               asset_dimensions := [("width", w); ("height", h)];
               asset_position := [("x", x); ("y", y)];
               alt_text_intent := Some "Content image";
               file_format := None |})
    else Ok assets
  else Ok assets.

Definition _catalog_assets (E : Env) (image : Image) : list Asset :=
  try_except
    (circles <- cv2_hough_circles E image ;;
     let assets :=
       match circles with
       | Some cs =>
           fold_left (fun assets c => py_append assets (icon_asset c)) cs []
       | None => []
       end in
     contours <- cv2_edge_contours E image ;;
     assets <- for_each contours assets asset_step ;;
     Ok (firstn 10 assets))
    [].

(** ** Stage: global styles *)

Definition _analyze_global_styles (E : Env) (image : Image) : GlobalStyles :=
  try_except
    (Ok {| borders := [("default", "1px solid #e0e0e0");
                       ("focus", "2px solid #2196f3")];
           shadows := [("card", "0 2px 4px rgba(0,0,0,0.1)");
                       ("button", "0 1px 2px rgba(0,0,0,0.1)")];
           border_radius := [("small", "4px"); ("medium", "8px");
                             ("large", "12px")];
           breakpoints := Some [("mobile", "768px"); ("tablet", "1024px");
                                ("desktop", "1200px")];
           css_variables := None |})
    {| borders := []; shadows := []; border_radius := [];
       breakpoints := None; css_variables := None |}.

(** ** Stage: style guide synthesis *)

Fixpoint insert_by_hash (hash : string -> Z) (x : string) (sorted : list string)
  : list string :=
  match sorted with
  | [] => [x]
  | y :: ys =>
      if (hash y <=? hash x)%Z then y :: insert_by_hash hash x ys
      else x :: y :: ys
  end.

(** [list(set(xs))]: the distinct strings, in the order the hash of this
    process puts them. *)
Definition py_list_of_set (hash : string -> Z) (xs : list string) : list string :=
  fold_left (fun acc x => insert_by_hash hash x acc) (nodup string_dec xs) [].

Definition _synthesize_style_guide (E : Env) (colors : list ColorInfo)
    (typography : list Typography) : StyleGuide :=
  try_except
    (let primary_colors :=
       map hex_code
         (filter (fun c => Qlt_bool (1 # 10) (confidence c)) (slice 0 3 colors)) in
     let secondary_colors := map hex_code (slice 3 6 colors) in
     let fonts := py_list_of_set (str_hash E) (map font_family typography) in
     let spacing_scale :=
       ["4px"; "8px"; "12px"; "16px"; "24px"; "32px"; "48px"; "64px"] in
     Ok {| primary_colors := primary_colors;
           secondary_colors := secondary_colors;
           font_stack := slice 0 3 fonts;
           spacing_scale := spacing_scale;
           design_tokens :=
             [("primary", hd "#2196f3" primary_colors);
              ("secondary", hd "#757575" secondary_colors);
              ("base_font_size", "16px");
              ("line_height", "1.5")] |})
    {| primary_colors := ["#2196f3"];
       secondary_colors := ["#757575"];
       font_stack := ["Arial"; "sans-serif"];
       spacing_scale := ["8px"; "16px"; "24px"];
       design_tokens := [] |}.

(** ** Stage: component labeler *)

Definition label_step
    (st : list (string * string) * Z * Z) (entry : nat * InteractiveElement)
  : list (string * string) * Z * Z :=
  let '(labels, button_count, input_count) := st in
  let '(i, element) := entry in
  let key := "element_" ++ str_of_nat i in
  match element_type element with
  | BUTTON =>
      let button_count := (button_count + 1)%Z in
      (dict_set labels key ("Button " ++ str_of_Z button_count),
       button_count, input_count)
  | INPUT =>
      let input_count := (input_count + 1)%Z in
      (dict_set labels key ("Input Field " ++ str_of_Z input_count),
       button_count, input_count)
  | _ =>
      (dict_set labels key ("Container " ++ str_of_nat (i + 1)),
       button_count, input_count)
  end.

Definition _label_components (E : Env)
    (interactive_elements : list InteractiveElement) : list (string * string) :=
  try_except
    (Ok (fst (fst (fold_left label_step (enumerate interactive_elements)
                     ([], 0%Z, 0%Z)))))
    [].

(** ** Stage: confidence scorer *)

(** Truth value of a list: non-empty. *)
Definition list_truthy {A} (xs : list A) : bool :=
  match xs with
  | [] => false
  | _ :: _ => true
  end.

Definition py_len {A} (xs : list A) : Q := inject_Z (Z.of_nat (List.length xs)).

Definition _calculate_confidence (layout : LayoutStructure)
    (colors : list ColorInfo) (typography : list Typography)
    (elements : list InteractiveElement) : Q :=
  try_except
    (let confidence_factors := [] in
     let confidence_factors :=
       if str_truthy (LayoutType_value (layout_type layout))
       then py_append confidence_factors (8 # 10) else confidence_factors in
     let confidence_factors :=
       if list_truthy colors then
         let avg_color_confidence :=
           py_sum (map confidence colors) / py_len colors in
         py_append confidence_factors avg_color_confidence
       else confidence_factors in
     let confidence_factors :=
       if list_truthy typography
       then py_append confidence_factors (7 # 10) else confidence_factors in
     let confidence_factors :=
       if list_truthy elements
       then py_append confidence_factors (6 # 10) else confidence_factors in
     Ok (if list_truthy confidence_factors
         then py_sum confidence_factors / py_len confidence_factors
         else 1 # 2))
    (1 # 2).

(** The list [confidence_factors] once the four tests have run, and
    [sum(xs) / len(xs)] on it: the scorer in closed form. *)
Definition collected_factors (layout_kind : bool) (color_confidences : list Q)
    (typography_truthy elements_truthy : bool) : list Q :=
  ((if layout_kind then [8 # 10] else [])
   ++ (match color_confidences with
       | [] => []
       | _ => [py_sum color_confidences / py_len color_confidences]
       end)
   ++ (if typography_truthy then [7 # 10] else [])
   ++ (if elements_truthy then [6 # 10] else []))%list.

Definition py_mean (xs : list Q) : Q := py_sum xs / py_len xs.

(** ** The prompt generator ([prompt_generator.py]) *)

Definition newline : string := String (ascii_of_nat 10) EmptyString.

(** [_combine_sections] *)
Definition _combine_sections (sections : list (string * string)) : string :=
  join (newline ++ newline)
    (filter (fun section => str_truthy (strip section)) (map snd sections)).

Definition generate_full_prompt (E : Env) (analysis : AnalysisResponse)
  : GeneratedPrompt :=
  let sections :=
    [ ("overview",
       template_overview E (image_info analysis) (layout analysis)
         (colors analysis) (typography analysis) (interactive_elements analysis)
         (confidence_score analysis) (processing_time analysis));
      ("layout", template_layout E (layout analysis));
      ("colors", template_colors E (colors analysis));
      ("typography", template_typography E (typography analysis));
      ("components", template_components E (interactive_elements analysis));
      ("styling",
       template_styling E (global_styles analysis) (style_guide analysis));
      ("implementation",
       template_implementation E (image_info analysis) (layout analysis)
         (confidence_score analysis));
      ("assets",
       if list_truthy (assets analysis)
       then template_assets E (assets analysis) else EmptyString) ] in
  let full_prompt := _combine_sections sections in
  {| title := "🎯 PIXEL-PERFECT RECREATION: "
              ++ info_filename (image_info analysis);
     description :=
       "100% accurate recreation prompt generated from AI image analysis. Contains "
       ++ str_of_nat (List.length (colors analysis)) ++ " exact colors, "
       ++ str_of_nat (List.length (typography analysis))
       ++ " OCR-detected text elements, and "
       ++ str_of_nat (List.length (interactive_elements analysis))
       ++ " interactive components with precise positioning data.";
     full_prompt := full_prompt;
     sections := sections;
     metadata :=
       {| analysis_confidence := confidence_score analysis;
          processing_time_seconds := processing_time analysis;
          detected_colors := List.length (colors analysis);
          detected_text_elements := List.length (typography analysis);
          detected_interactive_elements :=
            List.length (interactive_elements analysis);
          detected_assets :=
            if list_truthy (assets analysis)
            then List.length (assets analysis) else 0%nat;
          layout_system := LayoutType_value (layout_type (layout analysis));
          prompt_word_count := count_words false full_prompt;
          prompt_character_count := String.length full_prompt;
          accuracy_level := "pixel-perfect";
          recreation_difficulty :=
            if Qlt_bool (8 # 10) (confidence_score analysis) then "high"
            else if Qlt_bool (6 # 10) (confidence_score analysis) then "medium"
            else "challenging" |} |}.

(** ** The pipeline *)

Definition screenshot_warning : string :=
  "Image may not be a website/app screenshot".

(** [response.generated_prompt = prompt] *)
Definition set_generated_prompt (response : AnalysisResponse)
    (prompt : option GeneratedPrompt) : AnalysisResponse :=
  {| layout := layout response;
     colors := colors response;
     typography := typography response;
     interactive_elements := interactive_elements response;
     assets := assets response;
     global_styles := global_styles response;
     style_guide := style_guide response;
     component_labels := component_labels response;
     generated_prompt := prompt;
     image_info := image_info response;
     processing_time := processing_time response;
     confidence_score := confidence_score response;
     warnings := warnings response |}.

Definition analyze_image (E : Env) (image_data : list Byte.byte)
    (filename : string) : result AnalysisResponse :=
  let start_time := clock_start E in
  let warnings := [] in
  match _load_image E image_data with
  | None => Raise (ValueError "Could not load image")
  | Some image =>
      let warnings :=
        if negb (_is_website_screenshot E image)
        then py_append warnings screenshot_warning else warnings in
      let layout := _analyze_layout E image in
      let colors := _extract_colors E image in
      let typography := _analyze_typography E image in
      let interactive_elements := _detect_interactive_elements E image in
      let assets := _catalog_assets E image in
      let global_styles := _analyze_global_styles E image in
      let style_guide := _synthesize_style_guide E colors typography in
      let component_labels := _label_components E interactive_elements in
      let processing_time := clock_end E - start_time in
      let confidence_score :=
        _calculate_confidence layout colors typography interactive_elements in
      let response :=
        {| layout := layout;
           colors := colors;
           typography := typography;
           interactive_elements := interactive_elements;
           assets := assets;
           global_styles := global_styles;
           style_guide := style_guide;
           component_labels := component_labels;
           generated_prompt := None;
           image_info :=
             {| info_filename := filename;
                info_width := snd (shape image);
                info_height := fst (shape image);
                info_channels := 3;
                info_format := "detected_from_content" |};
           processing_time := py_round2 processing_time;
           confidence_score := py_round2 confidence_score;
           warnings := warnings |} in
      Ok (set_generated_prompt response (Some (generate_full_prompt E response)))
  end.

(** ** More of the prompt generator: how the sections group their input *)

(** Placeholder for [xs[0]] on a list known to be non-empty. *)
Definition no_color_info : ColorInfo :=
  {| hex_code := EmptyString; rgb := (0, 0, 0)%Z; usage_context := EmptyString;
     color_element_type := EmptyString; confidence := 0 |}.


(** [c.lower()] on one character. *)
Definition ascii_lower (c : ascii) : ascii :=
  let n := N_of_ascii c in
  if ((65 <=? n) && (n <=? 90))%N then ascii_of_N (n + 32) else c.

(** [s.lower()] *)
Fixpoint py_lower (s : string) : string :=
  match s with
  | EmptyString => EmptyString
  | String c s' => String (ascii_lower c) (py_lower s')
  end.

(** [needle in hay] on strings *)
Fixpoint py_contains (needle hay : string) : bool :=
  String.prefix needle hay
  || match hay with
     | EmptyString => false
     | String _ hay' => py_contains needle hay'
     end.

(** The lists [_generate_colors_section] builds before it fills its
    template: the colors re-sorted by confidence and grouped by usage. *)
Record ColorGroups : Type := {
  sorted_colors : list ColorInfo;
  group_primary : list ColorInfo;
  group_background : list ColorInfo;
  group_text : list ColorInfo;
  group_accent : list ColorInfo;
  group_border : list ColorInfo
}.

Definition usage_mentions (word : string) (c : ColorInfo) : bool :=
  py_contains word (py_lower (usage_context c)).

Definition color_groups (colors : list ColorInfo) : ColorGroups :=
  let sorted_colors := sort_by_confidence_desc colors in
  {| sorted_colors := sorted_colors;
     group_primary := filter (usage_mentions "primary") sorted_colors;
     group_background := filter (usage_mentions "background") sorted_colors;
     group_text := filter (usage_mentions "text") sorted_colors;
     group_accent :=
       filter (fun c => usage_mentions "accent" c || usage_mentions "button" c)
         sorted_colors;
     group_border :=
       filter (fun c => usage_mentions "border" c || usage_mentions "divider" c)
         sorted_colors |}.

(** The three quick-reference variables of the colors section:
    [--primary-bg], [--primary-text], [--accent-color]. The section has none
    when there are no colors. *)
Definition color_quick_reference (colors : list ColorInfo)
  : option (string * string * string) :=
  if negb (list_truthy colors) then None
  else
    let g := color_groups colors in
    Some
      (match group_background g with
       | c :: _ => hex_code c
       | [] => hex_code (hd no_color_info (sorted_colors g))
       end,
       match group_text g with
       | c :: _ => hex_code c
       | [] => "#000000"
       end,
       match group_accent g with
       | c :: _ => hex_code c
       | [] =>
           match group_primary g with
           | c :: _ => hex_code c
           | [] =>
               match sorted_colors g with
               | _ :: c :: _ => hex_code c
               | _ => "#0066cc"
               end
           end
       end).

(** The lists [_generate_typography_section] builds: the records grouped by
    what their element type mentions. *)
Record TypographyGroups : Type := {
  group_headings : list Typography;
  group_subheadings : list Typography;
  group_body_text : list Typography;
  group_buttons : list Typography;
  group_links : list Typography;
  group_labels : list Typography
}.

Definition type_mentions (word : string) (t : Typography) : bool :=
  py_contains word (py_lower (typo_element_type t)).

Definition typography_groups (typography : list Typography) : TypographyGroups :=
  {| group_headings :=
       filter (fun t => type_mentions "heading" t || type_mentions "h1" t
                        || type_mentions "h2" t || type_mentions "h3" t)
         typography;
     group_subheadings := filter (type_mentions "subheading") typography;
     group_body_text :=
       filter (fun t => type_mentions "text" t || type_mentions "paragraph" t
                        || type_mentions "body" t)
         typography;
     group_buttons := filter (type_mentions "button") typography;
     group_links := filter (type_mentions "link") typography;
     group_labels :=
       filter (fun t => type_mentions "label" t || type_mentions "caption" t)
         typography |}.

(** Equality of element records, field by field, as the models compare. *)
Definition InteractiveElement_eq_dec (a b : InteractiveElement) : {a = b} + {a <> b}.
Proof.
  repeat decide equality; try apply string_dec; try apply Z.eq_dec.
Defined.

Definition element_in (e : InteractiveElement) (pool : list InteractiveElement) : bool :=
  existsb (fun x => if InteractiveElement_eq_dec x e then true else false) pool.

(** The lists [_generate_components_section] builds: the elements grouped by
    kind, and those that are in none of the groups. *)
Record ComponentGroups : Type := {
  group_button_elements : list InteractiveElement;
  group_forms : list InteractiveElement;
  group_navigation : list InteractiveElement;
  group_images : list InteractiveElement;
  group_containers : list InteractiveElement;
  group_other : list InteractiveElement
}.

Definition has_kind (kinds : list ElementType) (e : InteractiveElement) : bool :=
  existsb (fun k => String.eqb (ElementType_value k)
                      (ElementType_value (element_type e))) kinds.

Definition component_groups (elements : list InteractiveElement) : ComponentGroups :=
  let buttons := filter (has_kind [BUTTON]) elements in
  let forms := filter (has_kind [INPUT; FORM]) elements in
  let navigation := filter (has_kind [NAVBAR]) elements in
  let images := filter (has_kind [IMAGE]) elements in
  let containers := filter (has_kind [CONTAINER]) elements in
  {| group_button_elements := buttons;
     group_forms := forms;
     group_navigation := navigation;
     group_images := images;
     group_containers := containers;
     group_other :=
       filter
         (fun e => negb (element_in e
                           (buttons ++ forms ++ navigation ++ images
                            ++ containers)%list))
         elements |}.

(** ** The request layer ([main.py]) *)

(** An uploaded file: its declared content type, its name and what reading
    it gives. *)
Record UploadFile : Type := {
  upload_content_type : option string;
  upload_filename : string;
  upload_read : result (list Byte.byte)
}.

(** What the endpoint body can raise: an [HTTPException] of its own or any
    other exception. *)
Inductive raised : Type :=
| HTTPException (status_code : Z) (detail : string)
| OtherException (e : exn).

(** The outcome of a request: the response model, or the [HTTPException]
    that leaves the handler. *)
Inductive http_outcome : Type :=
| Responded (body : AnalysisResponse)
| Rejected (status_code : Z) (detail : string).

(** [str(e)] of the exceptions of the model; the text of a library error is
    the library's. *)
Definition exn_str (e : exn) : string :=
  match e with
  | ValueError msg => msg
  | IndexError => "list index out of range"
  | ZeroDivisionError => "division by zero"
  | LibraryError origin => origin
  end.

(** The [try] block of the [/api/analyze] handler. *)
Definition analyze_endpoint_body (E : Env) (file : UploadFile)
  : raised + AnalysisResponse :=
  if match upload_content_type file with
     | None => true
     | Some ct => negb (str_truthy ct) || negb (String.prefix "image/" ct)
     end
  then
    inl (HTTPException 400%Z
           "Invalid file type. Please upload an image file (PNG, JPG, SVG).")
  else
    match upload_read file with
    | Raise e => inl (OtherException e)
    | Ok content =>
        match analyze_image E content (upload_filename file) with
        | Raise e => inl (OtherException e)
        | Ok analysis_result => inr analysis_result
        end
    end.

(** The [/api/analyze] handler. [http_str] is [str] on an [HTTPException],
    which the web framework defines. *)
Definition analyze_endpoint (http_str : Z -> string -> string) (E : Env)
    (file : UploadFile) : http_outcome :=
  match analyze_endpoint_body E file with
  | inr analysis_result => Responded analysis_result
  | inl e =>
      Rejected 500%Z
        ("Error analyzing image: "
         ++ match e with
            | HTTPException status_code detail => http_str status_code detail
            | OtherException e' => exn_str e'
            end)
  end.

(** ** The statements of the specification, in its own words *)

(** "Evaluating the rules in precedence order and taking the first that
    applies": the label of the first rule whose condition holds, the default
    when none does. *)
Inductive first_applicable {A : Type} (default : A)
  : list (Prop * A) -> A -> Prop :=
| fa_none : first_applicable default [] default
| fa_here (c : Prop) (l : A) (rest : list (Prop * A)) :
    c -> first_applicable default ((c, l) :: rest) l
| fa_later (c : Prop) (l l' : A) (rest : list (Prop * A)) :
    ~ c -> first_applicable default rest l' ->
    first_applicable default ((c, l) :: rest) l'.


(** "Sorted by non-increasing confidence": every sample comes before the
    samples of smaller or equal confidence. *)
Definition conf_ge (a b : ColorInfo) : Prop := confidence b <= confidence a.

(** The lines a line detection found: those of its answer, none when it
    answers [None]. Their number is the detected line count. *)
Definition lines_found (answer : option (list (Z * Z * Z * Z)))
  : list (Z * Z * Z * Z) :=
  match answer with
  | Some lines => lines
  | None => []
  end.

(** The proportion of the pixels that carry label [v]. *)
Definition cluster_proportion (labels : list nat) (v : nat) : Q :=
  inject_Z (Z.of_nat (count_occ Nat.eq_dec labels v))
  / inject_Z (Z.of_nat (List.length labels)).



(** No cluster with an index up to [i] is empty: each of the labels
    [0], ..., [i] is carried by a pixel. *)
Definition clusters_nonempty_up_to (labels : list nat) (i : nat) : Prop :=
  forall j, (j <= i)%nat -> In j labels.


(** The kind rules of the Interactive Element Detector, in the order of the
    specification (container is the default). *)
Definition element_rules (w h : Z) : list (Prop * ElementType) :=
  let aspect := inject_Z w / inject_Z h in
  [ ((15 # 10) <= aspect /\ aspect <= 6 /\ (20 <= h)%Z /\ (h <= 100)%Z, BUTTON);
    (3 < aspect /\ (h <= 50)%Z, INPUT) ].

(** "Area strictly between 500 and 10% of the total image area". *)
Definition area_between (width height : Z) (area : Q) : Prop :=
  500 < area /\ area < inject_Z (width * height) * (1 # 10).

(** What the record emitted for a contour must say. *)
Definition element_of_contour (c : Contour) (e : InteractiveElement) : Prop :=
  let '(x, y, w, h) := boundingRect c in
  first_applicable CONTAINER (element_rules w h) (element_type e)
  /\ position e = [("x", x); ("y", y)]
  /\ dimensions e = [("width", w); ("height", h)].

(** A bounding rectangle as OpenCV reports it: of positive height and
    covering at least one pixel of the image. *)
Definition rect_in_image (image : Image) (c : Contour) : Prop :=
  let '(x, y, w, h) := boundingRect c in
  h <> 0%Z /\ region_pixels image x y w h <> [].

(** The size classes of the Typography Extractor on an integer font size
    (body, normal weight is the default). *)
Definition text_rules (size : Z) : list (Prop * (string * string)) :=
  [ ((24 < size)%Z, ("heading", "bold"));
    ((18 < size /\ size <= 24)%Z, ("subheading", "semi-bold")) ].

(** The font-size estimate as the specification words it: max(12, 0.8 h),
    and its size classes on that number. *)
Definition claimed_font_size (h : Z) : Q :=
  let x := (8 # 10) * inject_Z h in
  if Qle_bool 12 x then x else 12.

Definition claimed_text_rules (size : Q) : list (Prop * (string * string)) :=
  [ (24 < size, ("heading", "bold"));
    (18 < size /\ size <= 24, ("subheading", "semi-bold")) ].

(** What the record emitted for an OCR token of height [h] says. *)
Definition record_of_token (token : string * Z) (t : Typography) : Prop :=
  let '(text, h) := token in
  let size := Z.max 12 (Z.quot (8 * h) 10) in
  font_size t = str_of_Z size ++ "px"
  /\ first_applicable ("body", "normal") (text_rules size)
       (typo_element_type t, font_weight t)
  /\ text_content t = str_take 100 (strip text)
  /\ (String.length (text_content t) <= 100)%nat.

(** A token survives the filter when its text is not blank. *)
Definition survives (token : string * Z) : bool := str_truthy (strip (fst token)).

(** The lists of an OCR answer run in parallel, one entry per token. *)
Definition ocr_aligned (data : OcrData) : Prop :=
  List.length (ocr_left data) = List.length (ocr_text data)
  /\ List.length (ocr_top data) = List.length (ocr_text data)
  /\ List.length (ocr_width data) = List.length (ocr_text data)
  /\ List.length (ocr_height data) = List.length (ocr_text data).

(** A text made of whitespace only (the empty text included). *)
Fixpoint blank (s : string) : bool :=
  match s with
  | EmptyString => true
  | String c s' => is_space c && blank s'
  end.

(** A large quadrilateral region: a contour whose polygon approximation has
    4 vertices and whose area is above 1% of the image area. *)
Definition is_large_quadrilateral (width height : Z) (c : Contour) : Prop :=
  approx_vertices c = 4%nat
  /\ inject_Z (width * height) * (1 # 100) < contourArea c.

(** The fields of a response other than the warnings are the outputs of the
    stages on the decoded image. *)
Definition fields_from_stages (E : Env) (image : Image) (filename : string)
    (resp : AnalysisResponse) : Prop :=
  layout resp = _analyze_layout E image
  /\ colors resp = _extract_colors E image
  /\ typography resp = _analyze_typography E image
  /\ interactive_elements resp = _detect_interactive_elements E image
  /\ assets resp = _catalog_assets E image
  /\ global_styles resp = _analyze_global_styles E image
  /\ style_guide resp
     = _synthesize_style_guide E (_extract_colors E image)
         (_analyze_typography E image)
  /\ component_labels resp
     = _label_components E (_detect_interactive_elements E image)
  /\ image_info resp
     = {| info_filename := filename;
          info_width := snd (shape image);
          info_height := fst (shape image);
          info_channels := 3;
          info_format := "detected_from_content" |}
  /\ processing_time resp = py_round2 (clock_end E - clock_start E)
  /\ confidence_score resp
     = py_round2
         (_calculate_confidence (_analyze_layout E image)
            (_extract_colors E image) (_analyze_typography E image)
            (_detect_interactive_elements E image)).

(** Two runs see the same libraries: the decoder, the detectors, the
    clustering (for equal arguments, the seed among them), OCR and the
    templates answer alike. The clock readings and the string hash are free
    to differ. *)
Definition same_libraries (E1 E2 : Env) : Prop :=
  (forall d, cv2_imdecode E1 d = cv2_imdecode E2 d)
  /\ (forall im, cv2_edge_contours E1 im = cv2_edge_contours E2 im)
  /\ (forall o im, cv2_hough_lines E1 o im = cv2_hough_lines E2 o im)
  /\ (forall k seed n px,
        sklearn_kmeans E1 k seed n px = sklearn_kmeans E2 k seed n px)
  /\ (forall im, tesseract_image_to_data E1 im = tesseract_image_to_data E2 im)
  /\ (forall im, cv2_threshold_contours E1 im = cv2_threshold_contours E2 im)
  /\ (forall im, cv2_hough_circles E1 im = cv2_hough_circles E2 im)
  /\ (forall a b c d e f g,
        template_overview E1 a b c d e f g = template_overview E2 a b c d e f g)
  /\ (forall a, template_layout E1 a = template_layout E2 a)
  /\ (forall a, template_colors E1 a = template_colors E2 a)
  /\ (forall a, template_typography E1 a = template_typography E2 a)
  /\ (forall a, template_components E1 a = template_components E2 a)
  /\ (forall a b, template_styling E1 a b = template_styling E2 a b)
  /\ (forall a b c,
        template_implementation E1 a b c = template_implementation E2 a b c)
  /\ (forall a, template_assets E1 a = template_assets E2 a).

(** A response with its processing time blanked: what two runs are compared
    on when "every field except processing_time" must agree. *)
Definition without_time (resp : AnalysisResponse) : AnalysisResponse :=
  {| layout := layout resp;
     colors := colors resp;
     typography := typography resp;
     interactive_elements := interactive_elements resp;
     assets := assets resp;
     global_styles := global_styles resp;
     style_guide := style_guide resp;
     component_labels := component_labels resp;
     generated_prompt := generated_prompt resp;
     image_info := image_info resp;
     processing_time := 0;
     confidence_score := confidence_score resp;
     warnings := warnings resp |}.

(** A response with its processing time and its generated prompt blanked. *)
Definition without_time_and_prompt (resp : AnalysisResponse) : AnalysisResponse :=
  set_generated_prompt (without_time resp) None.

(** A layout descriptor whose spacing entries and alignment are "unknown". *)
Definition unknown_spacing (l : LayoutStructure) : Prop :=
  Forall (fun kv => snd kv = "unknown") (spacing l) /\ alignment l = "unknown".

(** Every record names the one font family the extractor knows. *)
Definition system_font (ts : list Typography) : Prop :=
  Forall (fun t => font_family t = "System font (estimated)") ts.

(** Reading a hex code back: the value of a hex digit, of a pair of digits,
    and of a whole ["#rrggbb"]. *)
Definition hex_value (c : ascii) : option Z :=
  let n := Z.of_N (N_of_ascii c) in
  if ((48 <=? n) && (n <=? 57))%Z then Some (n - 48)%Z
  else if ((97 <=? n) && (n <=? 102))%Z then Some (n - 87)%Z
  else None.

Definition hex_pair (hi lo : ascii) : option Z :=
  match hex_value hi, hex_value lo with
  | Some h, Some l => Some (16 * h + l)%Z
  | _, _ => None
  end.

Definition parse_hex_code (s : string) : option RGB :=
  match s with
  | String "#" (String r1 (String r2 (String g1 (String g2
      (String b1 (String b2 EmptyString)))))) =>
      match hex_pair r1 r2, hex_pair g1 g2, hex_pair b1 b2 with
      | Some r, Some g, Some b => Some (r, g, b)
      | _, _, _ => None
      end
  | _ => None
  end.

(** A channel value that fits in eight bits. *)
Definition is_channel (n : Z) : Prop := (0 <= n <= 255)%Z.

(** The sum of a list of rationals, from the right. *)
Definition Qsum (xs : list Q) : Q := fold_right Qplus 0 xs.

(** The unweighted arithmetic mean: the sum of the values over their
    number. *)
Definition mean (xs : list Q) : Q :=
  Qsum xs / inject_Z (Z.of_nat (List.length xs)).

(** The factors of the Confidence Scorer that apply, in the order of the
    specification: 0.8 when a layout kind was produced, the mean of the
    color confidences when there are any, 0.7 when there are [n_typography]
    typography records with [n_typography] not zero, 0.6 when there are
    [n_elements] interactive elements with [n_elements] not zero. *)
Definition applicable_factors (layout_kind_produced : bool)
    (color_confidences : list Q) (n_typography n_elements : nat) : list Q :=
  ((if layout_kind_produced then [8 # 10] else [])
   ++ (match color_confidences with
       | [] => []
       | _ :: _ => [mean color_confidences]
       end)
   ++ (match n_typography with O => [] | S _ => [7 # 10] end)
   ++ (match n_elements with O => [] | S _ => [6 # 10] end))%list.

(** A pixel, and an image, whose channels fit in eight bits. *)
Definition pixel_8bit (p : RGB) : Prop :=
  is_channel (fst (fst p)) /\ is_channel (snd (fst p)) /\ is_channel (snd p).

Definition image_8bit (image : Image) : Prop := Forall (Forall pixel_8bit) image.

(** A hex code of three eight-bit channels. *)
Definition well_formed_hex (hex : string) : Prop :=
  exists r g b,
    is_channel r /\ is_channel g /\ is_channel b /\ hex = format_hex r g b.

(** The element types the typography extractor gives, the kinds the element
    detector gives. *)
Definition extractor_text_classes (ts : list Typography) : Prop :=
  Forall (fun t => In (typo_element_type t) ["heading"; "subheading"; "body"]) ts.

Definition detector_kinds (es : list InteractiveElement) : Prop :=
  Forall (fun e => In (element_type e) [BUTTON; INPUT; CONTAINER]) es.

(** An image candidate of the Asset Cataloger: area above 2000, aspect ratio
    between 0.5 and 3, both sides above 50. *)
Definition image_candidate (c : Contour) : Prop :=
  let '(x, y, w, h) := boundingRect c in
  2000 < contourArea c
  /\ (1 # 2) <= inject_Z w / inject_Z h /\ inject_Z w / inject_Z h <= 3
  /\ (50 < w)%Z /\ (50 < h)%Z.

Definition is_image_candidate (c : Contour) : bool :=
  let '(x, y, w, h) := boundingRect c in
  Qlt_bool 2000 (contourArea c)
  && Qle_bool (1 # 2) (inject_Z w / inject_Z h)
  && Qle_bool (inject_Z w / inject_Z h) 3
  && (50 <? w)%Z && (50 <? h)%Z.

(** The asset recorded for an image candidate: its bounding rectangle. *)
Definition asset_of_contour (c : Contour) (a : Asset) : Prop :=
  let '(x, y, w, h) := boundingRect c in
  asset_type a = "image"
  /\ asset_dimensions a = [("width", w); ("height", h)]
  /\ asset_position a = [("x", x); ("y", y)].

(** The asset recorded for a circle: the square that encloses the circle
    with center and radius rounded to integers. *)
Definition asset_of_circle (circle : Q * Q * Q) (a : Asset) : Prop :=
  let '(cx, cy, cr) := circle in
  let r := round_half_even cr in
  asset_type a = "icon"
  /\ asset_dimensions a = [("width", 2 * r); ("height", 2 * r)]%Z
  /\ asset_position a
     = [("x", round_half_even cx - r); ("y", round_half_even cy - r)]%Z.

(** A bounding rectangle of non-zero height. *)
Definition rect_has_height (c : Contour) : Prop := snd (boundingRect c) <> 0%Z.

Definition circles_found (circles : option (list (Q * Q * Q))) : list (Q * Q * Q) :=
  match circles with
  | Some cs => cs
  | None => []
  end.

(** How many of the elements are buttons, inputs. *)
Definition count_buttons (es : list InteractiveElement) : Z :=
  Z.of_nat (List.length
              (filter (fun e => match element_type e with BUTTON => true | _ => false end)
                 es)).

Definition count_inputs (es : list InteractiveElement) : Z :=
  Z.of_nat (List.length
              (filter (fun e => match element_type e with INPUT => true | _ => false end)
                 es)).

(** The label of the element at position [i]: buttons and inputs are
    numbered among themselves, anything else by its position. *)
Definition label_key (i : nat) : string := "element_" ++ str_of_nat i.

Definition expected_label (elements : list InteractiveElement) (i : nat)
    (e : InteractiveElement) : string :=
  match element_type e with
  | BUTTON => "Button " ++ str_of_Z (count_buttons (firstn (S i) elements))
  | INPUT => "Input Field " ++ str_of_Z (count_inputs (firstn (S i) elements))
  | _ => "Container " ++ str_of_nat (i + 1)
  end.

Definition expected_labels (elements : list InteractiveElement)
    (upto : list InteractiveElement) : list (string * string) :=
  map (fun ie => (label_key (fst ie), expected_label elements (fst ie) (snd ie)))
    (enumerate upto).

(** Reading a decimal numeral back. *)
Definition parse_int (s : string) : option Z :=
  option_map Z.of_int (NilZero.int_of_string s).

(** Replacing the answer of the circle search in an environment. *)
Definition with_circles (E : Env) (found : result (option (list (Q * Q * Q)))) : Env :=
  {| cv2_imdecode := cv2_imdecode E;
     cv2_edge_contours := cv2_edge_contours E;
     cv2_hough_lines := cv2_hough_lines E;
     sklearn_kmeans := sklearn_kmeans E;
     tesseract_image_to_data := tesseract_image_to_data E;
     cv2_threshold_contours := cv2_threshold_contours E;
     cv2_hough_circles := fun _ => found;
     template_overview := template_overview E;
     template_layout := template_layout E;
     template_colors := template_colors E;
     template_typography := template_typography E;
     template_components := template_components E;
     template_styling := template_styling E;
     template_implementation := template_implementation E;
     template_assets := template_assets E;
     clock_start := clock_start E;
     clock_end := clock_end E;
     str_hash := str_hash E |}.

(** The upload passes the type check of the handler: it declares a content
    type that starts with [image/]. *)
Definition declares_image (file : UploadFile) : Prop :=
  exists ct, upload_content_type file = Some ct /\ String.prefix "image/" ct = true.

(** [str] of an [HTTPException] as the web framework prints it. *)
Definition starlette_str (status_code : Z) (detail : string) : string :=
  str_of_Z status_code ++ ": " ++ detail.

(** What every typography record looks like, whatever OCR answered. *)
Definition typography_record_ok (t : Typography) : Prop :=
  font_family t = "System font (estimated)"
  /\ typo_alignment t = "left"
  /\ letter_spacing t = None
  /\ (exists size, (12 <= size)%Z /\ font_size t = str_of_Z size ++ "px"
                   /\ (typo_element_type t, font_weight t) = classify_text size)
  /\ (exists c rest, text_content t = String c rest /\ is_space c = false)
  /\ (String.length (text_content t) <= 100)%nat
  /\ well_formed_hex (color t).

(** What every element record looks like. *)
Definition element_record_ok (e : InteractiveElement) : Prop :=
  In (element_type e) [BUTTON; INPUT; CONTAINER]
  /\ map fst (position e) = ["x"; "y"]
  /\ map fst (dimensions e) = ["width"; "height"]
  /\ (exists hex,
        well_formed_hex hex
        /\ styling e = [("background_color", hex);
                        ("border_radius", "4px (estimated)");
                        ("padding", "8px 16px (estimated)")])
  /\ states e = None /\ elem_text_content e = None.

(** ** Concrete environments used to exercise the statements *)

Definition flat_image (rows cols : nat) (c : RGB) : Image :=
  repeat (repeat c cols) rows.

(** An environment in which every library call raises. *)
Definition failing_env : Env :=
  {| cv2_imdecode := fun _ => Raise (LibraryError "cv2.error");
     cv2_edge_contours := fun _ => Raise (LibraryError "cv2.error");
     cv2_hough_lines := fun _ _ => Raise (LibraryError "cv2.error");
     sklearn_kmeans := fun _ _ _ _ => Raise (ValueError "n_samples < n_clusters");
     tesseract_image_to_data := fun _ => Raise (LibraryError "TesseractNotFoundError");
     cv2_threshold_contours := fun _ => Raise (LibraryError "cv2.error");
     cv2_hough_circles := fun _ => Raise (LibraryError "cv2.error");
     template_overview := fun _ _ _ _ _ _ _ => "# overview";
     template_layout := fun _ => "## layout";
     template_colors := fun _ => "## colors";
     template_typography := fun _ => "## typography";
     template_components := fun _ => "## components";
     template_styling := fun _ _ => "## styling";
     template_implementation := fun _ _ _ => "## implementation";
     template_assets := fun _ => "## assets";
     clock_start := 0;
     clock_end := 1 # 4;
     str_hash := fun _ => 0%Z |}.

(** Replacing the answer of one library in an environment. *)
Definition with_decoder (E : Env) (f : list Byte.byte -> result (option Image)) : Env :=
  {| cv2_imdecode := f;
     cv2_edge_contours := cv2_edge_contours E;
     cv2_hough_lines := cv2_hough_lines E;
     sklearn_kmeans := sklearn_kmeans E;
     tesseract_image_to_data := tesseract_image_to_data E;
     cv2_threshold_contours := cv2_threshold_contours E;
     cv2_hough_circles := cv2_hough_circles E;
     template_overview := template_overview E;
     template_layout := template_layout E;
     template_colors := template_colors E;
     template_typography := template_typography E;
     template_components := template_components E;
     template_styling := template_styling E;
     template_implementation := template_implementation E;
     template_assets := template_assets E;
     clock_start := clock_start E;
     clock_end := clock_end E;
     str_hash := str_hash E |}.

Definition with_edge_contours (E : Env) (found : result (list Contour)) : Env :=
  {| cv2_imdecode := cv2_imdecode E;
     cv2_edge_contours := fun _ => found;
     cv2_hough_lines := cv2_hough_lines E;
     sklearn_kmeans := sklearn_kmeans E;
     tesseract_image_to_data := tesseract_image_to_data E;
     cv2_threshold_contours := cv2_threshold_contours E;
     cv2_hough_circles := cv2_hough_circles E;
     template_overview := template_overview E;
     template_layout := template_layout E;
     template_colors := template_colors E;
     template_typography := template_typography E;
     template_components := template_components E;
     template_styling := template_styling E;
     template_implementation := template_implementation E;
     template_assets := template_assets E;
     clock_start := clock_start E;
     clock_end := clock_end E;
     str_hash := str_hash E |}.

Definition with_kmeans (E : Env)
    (found : result (list (Q * Q * Q) * list nat)) : Env :=
  {| cv2_imdecode := cv2_imdecode E;
     cv2_edge_contours := cv2_edge_contours E;
     cv2_hough_lines := cv2_hough_lines E;
     sklearn_kmeans := fun _ _ _ _ => found;
     tesseract_image_to_data := tesseract_image_to_data E;
     cv2_threshold_contours := cv2_threshold_contours E;
     cv2_hough_circles := cv2_hough_circles E;
     template_overview := template_overview E;
     template_layout := template_layout E;
     template_colors := template_colors E;
     template_typography := template_typography E;
     template_components := template_components E;
     template_styling := template_styling E;
     template_implementation := template_implementation E;
     template_assets := template_assets E;
     clock_start := clock_start E;
     clock_end := clock_end E;
     str_hash := str_hash E |}.

Definition with_ocr (E : Env) (found : result OcrData) : Env :=
  {| cv2_imdecode := cv2_imdecode E;
     cv2_edge_contours := cv2_edge_contours E;
     cv2_hough_lines := cv2_hough_lines E;
     sklearn_kmeans := sklearn_kmeans E;
     tesseract_image_to_data := fun _ => found;
     cv2_threshold_contours := cv2_threshold_contours E;
     cv2_hough_circles := cv2_hough_circles E;
     template_overview := template_overview E;
     template_layout := template_layout E;
     template_colors := template_colors E;
     template_typography := template_typography E;
     template_components := template_components E;
     template_styling := template_styling E;
     template_implementation := template_implementation E;
     template_assets := template_assets E;
     clock_start := clock_start E;
     clock_end := clock_end E;
     str_hash := str_hash E |}.

Definition with_threshold_contours (E : Env) (found : result (list Contour)) : Env :=
  {| cv2_imdecode := cv2_imdecode E;
     cv2_edge_contours := cv2_edge_contours E;
     cv2_hough_lines := cv2_hough_lines E;
     sklearn_kmeans := sklearn_kmeans E;
     tesseract_image_to_data := tesseract_image_to_data E;
     cv2_threshold_contours := fun _ => found;
     cv2_hough_circles := cv2_hough_circles E;
     template_overview := template_overview E;
     template_layout := template_layout E;
     template_colors := template_colors E;
     template_typography := template_typography E;
     template_components := template_components E;
     template_styling := template_styling E;
     template_implementation := template_implementation E;
     template_assets := template_assets E;
     clock_start := clock_start E;
     clock_end := clock_end E;
     str_hash := str_hash E |}.

(** The same libraries in another run: other clock readings, another hash. *)
Definition in_run (E : Env) (t0 t1 : Q) (hash : string -> Z) : Env :=
  {| cv2_imdecode := cv2_imdecode E;
     cv2_edge_contours := cv2_edge_contours E;
     cv2_hough_lines := cv2_hough_lines E;
     sklearn_kmeans := sklearn_kmeans E;
     tesseract_image_to_data := tesseract_image_to_data E;
     cv2_threshold_contours := cv2_threshold_contours E;
     cv2_hough_circles := cv2_hough_circles E;
     template_overview := template_overview E;
     template_layout := template_layout E;
     template_colors := template_colors E;
     template_typography := template_typography E;
     template_components := template_components E;
     template_styling := template_styling E;
     template_implementation := template_implementation E;
     template_assets := template_assets E;
     clock_start := t0;
     clock_end := t1;
     str_hash := hash |}.

(** A 3x4 image and a clustering of its twelve pixels into eight clusters. *)
Definition palette_image : Image := flat_image 3 4 (250, 250, 250)%Z.

Definition palette_centers : list (Q * Q * Q) :=
  [ (250, 250, 250); (20, 30, 40); (200 + (1 # 2), 40, 40); (120, 125, 130);
    (90, 180, 240); (10, 10, 10); (255, 255, 255); (60, 200, 60) ].

Definition palette_labels : list nat :=
  [0; 0; 0; 0; 1; 1; 2; 3; 4; 5; 6; 7]%nat.

Definition palette_env : Env :=
  with_kmeans failing_env (Ok (palette_centers, palette_labels)).





Definition no_color : ColorInfo :=
  {| hex_code := EmptyString; rgb := (0, 0, 0)%Z; usage_context := EmptyString;
     color_element_type := EmptyString; confidence := 0 |}.

Definition palette_second : ColorInfo :=
  Eval vm_compute in nth 1 (_extract_colors palette_env palette_image) no_color.


(** An 80x100 image with five contours found by the adaptive threshold. *)
Definition widget_image : Image := flat_image 80 100 (200, 210, 220)%Z.

Definition widget_contours : list Contour :=
  [ {| contourArea := 600; approx_vertices := 4; boundingRect := (10, 10, 60, 20)%Z |};
    {| contourArea := 100; approx_vertices := 4; boundingRect := (1, 1, 10, 10)%Z |};
    {| contourArea := 700; approx_vertices := 6; boundingRect := (5, 40, 90, 10)%Z |};
    {| contourArea := 750; approx_vertices := 4; boundingRect := (0, 0, 25, 30)%Z |};
    {| contourArea := 800; approx_vertices := 4; boundingRect := (0, 0, 40, 20)%Z |} ].

Definition widget_env : Env :=
  with_threshold_contours
    (with_decoder failing_env (fun _ => Ok (Some widget_image)))
    (Ok widget_contours).

(** The same contours and one more whose bounding rectangle has height 0. *)
Definition flat_contour_env : Env :=
  with_threshold_contours widget_env
    (Ok (widget_contours ++
         [ {| contourArea := 650; approx_vertices := 4;
              boundingRect := (0, 0, 30, 0)%Z |} ])%list).

(** A 40x60 image on which OCR finds four tokens, one of them blank. *)
Definition ocr_image : Image := flat_image 40 60 (30, 30, 30)%Z.

Definition long_text : string :=
  "0123456789012345678901234567890123456789012345678901234567890123456789"
  ++ "0123456789012345678901234567890123456789012345678901234567890123456789".

Definition ocr_answer : OcrData :=
  {| ocr_text := ["Sign in"; "   "; " Welcome back "; long_text];
     ocr_left := [2; 0; 5; 1]%Z;
     ocr_top := [3; 0; 5; 20]%Z;
     ocr_width := [20; 0; 50; 58]%Z;
     ocr_height := [31; 10; 12; 23]%Z |}.

Definition ocr_env : Env :=
  with_ocr (with_decoder failing_env (fun _ => Ok (Some ocr_image)))
    (Ok ocr_answer).

(** An OCR answer whose height list is one entry short. *)
Definition ragged_ocr_env : Env :=
  with_ocr ocr_env
    (Ok {| ocr_text := ocr_text ocr_answer;
           ocr_left := ocr_left ocr_answer;
           ocr_top := ocr_top ocr_answer;
           ocr_width := ocr_width ocr_answer;
           ocr_height := [31; 10; 12]%Z |}).

(** A 200x300 dashboard screenshot and what the libraries find in it. *)
Definition dashboard_bgr : Image := flat_image 200 300 (250, 245, 240)%Z.
Definition dashboard_image : Image := cvtColor_BGR2RGB dashboard_bgr.

Definition dashboard_edges : list Contour :=
  [ {| contourArea := 12000; approx_vertices := 4; boundingRect := (0, 0, 300, 40)%Z |};
    {| contourArea := 9000; approx_vertices := 4; boundingRect := (10, 50, 90, 100)%Z |};
    {| contourArea := 9000 + (1 # 2); approx_vertices := 4;
       boundingRect := (110, 50, 90, 100)%Z |};
    {| contourArea := 300; approx_vertices := 3; boundingRect := (250, 180, 20, 20)%Z |} ].

Definition dashboard_env : Env :=
  {| cv2_imdecode :=
       fun data =>
         match data with
         | [] => Raise (LibraryError "cv2.error")
         | b :: _ => if Byte.eqb b Byte.x89 then Ok (Some dashboard_bgr) else Ok None
         end;
     cv2_edge_contours := fun _ => Ok dashboard_edges;
     cv2_hough_lines :=
       fun o _ =>
         match o with
         | Horizontal => Ok (Some [(0, 40, 300, 40); (0, 150, 300, 150)]%Z)
         | Vertical =>
             Ok (Some [(100, 0, 100, 200); (200, 0, 200, 200); (5, 0, 5, 200)]%Z)
         end;
     sklearn_kmeans := fun _ _ _ _ => Ok (palette_centers, palette_labels);
     tesseract_image_to_data := fun _ => Ok ocr_answer;
     cv2_threshold_contours := fun _ => Ok widget_contours;
     cv2_hough_circles :=
       fun _ => Ok (Some [(50 + (1 # 2), 60 + (2 # 5), 12 + (1 # 2))]);
     template_overview :=
       fun info _ colors _ _ score seconds =>
         "# " ++ info_filename info ++ " " ++ str_of_nat (List.length colors)
         ++ " colors, confidence " ++ str_of_Z (Qnum score) ++ "/"
         ++ str_of_Z (Zpos (Qden score)) ++ ", time " ++ str_of_Z (Qnum seconds)
         ++ "/" ++ str_of_Z (Zpos (Qden seconds));
     template_layout := fun l => "## " ++ LayoutType_value (layout_type l);
     template_colors := fun cs => join ", " (map hex_code cs);
     template_typography := fun ts => join ", " (map text_content ts);
     template_components :=
       fun es => join ", " (map (fun e => ElementType_value (element_type e)) es);
     template_styling := fun _ g => join ", " (font_stack g);
     template_implementation := fun _ _ _ => "   ";
     template_assets := fun a => join ", " (map asset_type a);
     clock_start := 100;
     clock_end := 100 + (1234 # 1000);
     str_hash := fun s => Z.of_nat (String.length s) |}.

(** The same screenshot analysed by a slower run of another process. *)
Definition dashboard_env_later : Env :=
  in_run dashboard_env 500 (500 + (2 # 1))
    (fun s => (- Z.of_nat (String.length s))%Z).

(** The screenshot decodes, and every later library call raises. *)
Definition degraded_env : Env :=
  with_decoder failing_env (cv2_imdecode dashboard_env).

(** The screenshot decodes, the edge search finds no contour at all, and
    every other library call raises. *)
Definition plain_env : Env := with_edge_contours degraded_env (Ok []).

(** A 2000x400 banner. *)
Definition banner_image : Image := flat_image 400 2000 (0, 0, 0)%Z.

Definition png_bytes : list Byte.byte := [Byte.x89; Byte.x50; Byte.x4e; Byte.x47].

(** The dashboard with eleven circles found in it. *)
Definition eleven_circles : list (Q * Q * Q) :=
  map (fun k => (inject_Z (Z.of_nat (20 + 25 * k)), 100, 12)) (seq 0 11).

Definition icons_env : Env := with_circles dashboard_env (Ok (Some eleven_circles)).

(** Three uploads: a screenshot, a text file, and bytes that are no image
    sent as one. *)
Definition png_upload : UploadFile :=
  {| upload_content_type := Some "image/png";
     upload_filename := "shot.png";
     upload_read := Ok png_bytes |}.

Definition text_upload : UploadFile :=
  {| upload_content_type := Some "text/plain";
     upload_filename := "notes.txt";
     upload_read := Ok png_bytes |}.

Definition noise_upload : UploadFile :=
  {| upload_content_type := Some "image/svg+xml";
     upload_filename := "logo.svg";
     upload_read := Ok [Byte.x3c; Byte.x73] |}.

(** * Properties *)

(** ** Basic facts *)

Lemma Qlt_bool_iff (a b : Q) : Qlt_bool a b = true <-> a < b.
Proof.
  unfold Qlt_bool. rewrite negb_true_iff. split.
  - intros H. apply Qnot_le_lt. intros Hle.
    apply Qle_bool_iff in Hle. congruence.
  - intros H. destruct (Qle_bool b a) eqn:Hb; [|reflexivity].
    apply Qle_bool_iff in Hb. exfalso. exact (Qlt_not_le _ _ H Hb).
Qed.

Lemma Qlt_bool_false_iff (a b : Q) : Qlt_bool a b = false <-> ~ a < b.
Proof.
  rewrite <- Qlt_bool_iff. destruct (Qlt_bool a b); split; intros; congruence.
Qed.

Lemma Qle_bool_false_iff (a b : Q) : Qle_bool a b = false <-> ~ a <= b.
Proof.
  rewrite <- Qle_bool_iff. destruct (Qle_bool a b); split; intros; congruence.
Qed.

(** ** Color usage rules *)


Lemma first_applicable_functional {A} (default : A) (rules : list (Prop * A))
    (l1 l2 : A) :
  first_applicable default rules l1 -> first_applicable default rules l2 -> l1 = l2.
Proof.
  induction 1; inversion 1; subst; try reflexivity; try contradiction; auto.
Qed.

(** ** The color loop and [np.unique] *)

Lemma color_samples_eq (cluster_centers : list (Q * Q * Q)) (labels : list nat) :
  color_samples cluster_centers labels
  = map (fun cp => make_color (fst cp) (snd cp))
      (combine (map astype_int cluster_centers) (color_percentages labels)).
Proof.
  unfold color_samples.
  generalize (combine (map astype_int cluster_centers) (color_percentages labels)).
  intros zs. change (@nil ColorInfo) with (@nil ColorInfo ++ [])%list at 1.
  rewrite app_nil_r.
  assert (G : forall init,
             fold_left (fun colors '(center, percentage) =>
                          py_append colors (make_color center percentage)) zs init
             = (init ++ map (fun cp => make_color (fst cp) (snd cp)) zs)%list).
  { induction zs as [|[c p] zs IH]; intros init; simpl.
    - now rewrite app_nil_r.
    - rewrite IH. unfold py_append. now rewrite <- app_assoc. }
  apply G.
Qed.

Lemma np_unique_counts_spec (labels : list nat) (v n : nat) :
  In (v, n) (np_unique_counts labels) ->
  n = count_occ Nat.eq_dec labels v /\ In v labels.
Proof.
  unfold np_unique_counts. rewrite filter_In, in_map_iff.
  intros [[w [Hw _]] Hpos]. inversion Hw; subst. simpl in Hpos.
  split; [reflexivity|].
  apply Nat.ltb_lt in Hpos. now apply (count_occ_In Nat.eq_dec).
Qed.


Lemma color_percentages_nth (labels : list nat) (i : nat) (p : Q) :
  nth_error (color_percentages labels) i = Some p ->
  exists v, nth_error (map fst (np_unique_counts labels)) i = Some v
            /\ In v labels /\ p = cluster_proportion labels v.
Proof.
  unfold color_percentages. rewrite map_map. intros H.
  rewrite nth_error_map in H.
  destruct (nth_error (np_unique_counts labels) i) as [[v n]|] eqn:Hn;
    [|discriminate].
  simpl in H. inversion H; subst. exists v.
  rewrite nth_error_map, Hn. simpl.
  apply nth_error_In in Hn. apply np_unique_counts_spec in Hn.
  destruct Hn as [-> Hv]. repeat split; auto.
Qed.

(** ** Sorting by decreasing confidence *)

Lemma insert_desc_perm (x : ColorInfo) (l : list ColorInfo) :
  Permutation (insert_desc x l) (x :: l).
Proof.
  induction l as [|y l IH]; simpl; [reflexivity|].
  destruct (Qle_bool (confidence x) (confidence y)); [|reflexivity].
  rewrite IH. apply perm_swap.
Qed.

Lemma sort_fold_perm (xs acc : list ColorInfo) :
  Permutation (fold_left (fun acc x => insert_desc x acc) xs acc) (xs ++ acc).
Proof.
  revert acc. induction xs as [|x xs IH]; intros acc; simpl; [reflexivity|].
  rewrite IH, insert_desc_perm. symmetry. apply Permutation_middle.
Qed.

Lemma sort_by_confidence_desc_perm (xs : list ColorInfo) :
  Permutation (sort_by_confidence_desc xs) xs.
Proof.
  unfold sort_by_confidence_desc. rewrite sort_fold_perm. now rewrite app_nil_r.
Qed.

Lemma insert_desc_sorted (x : ColorInfo) (l : list ColorInfo) :
  StronglySorted conf_ge l -> StronglySorted conf_ge (insert_desc x l).
Proof.
  induction 1 as [|y l Hs IH Hall]; simpl.
  - constructor; constructor.
  - destruct (Qle_bool (confidence x) (confidence y)) eqn:Hle.
    + apply Qle_bool_iff in Hle. constructor; [exact IH|].
      rewrite Forall_forall in *. intros z Hz.
      apply (Permutation_in _ (insert_desc_perm x l)) in Hz.
      destruct Hz as [<-|Hz]; [exact Hle|now apply Hall].
    + apply Qle_bool_false_iff in Hle. apply Qnot_le_lt in Hle.
      constructor; [now constructor|].
      constructor; [unfold conf_ge; now apply Qlt_le_weak|].
      rewrite Forall_forall in *. intros z Hz. unfold conf_ge.
      apply Qle_trans with (confidence y); [now apply Hall|now apply Qlt_le_weak].
Qed.

Lemma sort_by_confidence_desc_sorted (xs : list ColorInfo) :
  StronglySorted conf_ge (sort_by_confidence_desc xs).
Proof.
  unfold sort_by_confidence_desc.
  assert (G : forall acc, StronglySorted conf_ge acc ->
                StronglySorted conf_ge
                  (fold_left (fun acc x => insert_desc x acc) xs acc)).
  { induction xs as [|x xs IH]; intros acc Hacc; simpl; [exact Hacc|].
    apply IH. now apply insert_desc_sorted. }
  apply G. constructor.
Qed.


Lemma in_firstn {A} (n : nat) (l : list A) (x : A) :
  In x (firstn n l) -> In x l.
Proof.
  intros H. rewrite <- (firstn_skipn n l). apply in_or_app. now left.
Qed.

Lemma firstn_sorted {A} (R : A -> A -> Prop) (n : nat) (l : list A) :
  StronglySorted R l -> StronglySorted R (firstn n l).
Proof.
  intros H. revert n. induction H as [|x l Hs IH Hall]; intros [|n]; simpl;
    try constructor.
  - apply IH.
  - rewrite Forall_forall in *. intros z Hz. apply Hall.
    now apply (in_firstn n l).
Qed.

(** ** C3: color usage rules and sample confidence *)

Lemma in_extract_colors (E : Env) (image : Image) (s : ColorInfo) :
  In s (_extract_colors E image) ->
  exists cluster_centers labels,
    sklearn_kmeans E 8 42 10 (List.concat image) = Ok (cluster_centers, labels)
    /\ In s (color_samples cluster_centers labels).
Proof.
  unfold _extract_colors.
  destruct (sklearn_kmeans E 8 42 10 (List.concat image)) as [[cs ls]|e];
    cbn [bind try_except]; [|contradiction].
  intros H. exists cs, ls. split; [reflexivity|].
  apply in_firstn in H.
  exact (Permutation_in _ (sort_by_confidence_desc_perm _) H).
Qed.





(** In the palette no cluster is empty, and the second sample carries the
    proportion of its own cluster, cluster 1. *)
Example palette_second_own_proportion :
  clusters_nonempty_up_to palette_labels 1
  /\ nth_error palette_centers 1 = Some (20, 30, 40)
  /\ rgb palette_second = (20, 30, 40)%Z
  /\ confidence palette_second = cluster_proportion palette_labels 1
  /\ usage_context palette_second = "Text".
Proof.
  split.
  { intros j Hj. destruct j as [|[|j]]; [cbn; auto|cbn; auto 10|lia]. }
  repeat split; vm_compute; reflexivity.
Qed.


(** ** C7: the confidence score *)

Lemma layout_kind_always_truthy (t : LayoutType) :
  str_truthy (LayoutType_value t) = true.
Proof. destruct t; reflexivity. Qed.

Lemma _calculate_confidence_eq
    (layout : LayoutStructure) (colors : list ColorInfo)
    (typography : list Typography) (elements : list InteractiveElement) :
  _calculate_confidence layout colors typography elements
  = match collected_factors
            (str_truthy (LayoutType_value (layout_type layout)))
            (map confidence colors) (list_truthy typography)
            (list_truthy elements) with
    | [] => 1 # 2
    | factors => py_mean factors
    end.
Proof.
  unfold _calculate_confidence, collected_factors, py_mean, py_len, py_append.
  rewrite layout_kind_always_truthy.
  destruct colors as [|c cs], typography as [|t ts], elements as [|e es];
    cbn [try_except list_truthy app map List.length];
    rewrite ?length_map; reflexivity.
Qed.

Lemma py_sum_Qsum (xs : list Q) : py_sum xs == Qsum xs.
Proof.
  unfold py_sum.
  assert (G : forall a, fold_left Qplus xs a == a + Qsum xs).
  { induction xs as [|x xs IH]; intros a; cbn [fold_left Qsum fold_right].
    - ring.
    - rewrite IH. fold (Qsum xs). ring. }
  rewrite G. ring.
Qed.

Lemma py_mean_mean (xs : list Q) : py_mean xs == mean xs.
Proof.
  unfold py_mean, mean, py_len. now rewrite py_sum_Qsum.
Qed.

Lemma list_truthy_length {A} (xs : list A) :
  list_truthy xs = match List.length xs with O => false | S _ => true end.
Proof. destruct xs; reflexivity. Qed.

(** The factors the scorer collects are the applicable ones, up to the
    value of the color mean, and have the same mean. *)
Lemma collected_factors_mean (b : bool) (cs : list Q) (nt ne : nat) :
  match collected_factors b cs
          (match nt with O => false | S _ => true end)
          (match ne with O => false | S _ => true end) with
  | [] => 1 # 2
  | factors => py_mean factors
  end
  == match applicable_factors b cs nt ne with
     | [] => 1 # 2
     | factors => mean factors
     end.
Proof.
  unfold collected_factors, applicable_factors.
  destruct cs as [|c cs'].
  { destruct b, nt as [|nt], ne as [|ne]; vm_compute; reflexivity. }
  pose proof (py_mean_mean (c :: cs')) as Hc. unfold py_mean in Hc.
  revert Hc.
  generalize (py_sum (c :: cs') / py_len (c :: cs')), (mean (c :: cs')).
  intros avg avg' Hc.
  destruct b, nt as [|nt], ne as [|ne];
    cbn [app]; unfold py_mean, mean, py_sum, py_len;
    cbn [fold_left Qsum fold_right List.length Z.of_nat Pos.of_succ_nat
         Pos.succ inject_Z];
    try change (inject_Z 1) with (1 # 1); try change (inject_Z 2) with (2 # 1);
    try change (inject_Z 3) with (3 # 1); try change (inject_Z 4) with (4 # 1);
    rewrite Hc; field.
Qed.

(** C7. The overall confidence is the unweighted arithmetic mean of exactly
    the applicable factors: 0.8 for the layout kind (every layout kind is a
    non-empty string, so this factor always applies), the mean of the color
    confidences when there are colors, 0.7 when there is typography, 0.6 when
    there are interactive elements; 0.5 when no factor applies. With an empty
    typography list the mean is taken over the remaining factors only, which
    differs from the mean with a zero among them. *)
Theorem confidence_is_mean_of_applicable_factors
    (layout : LayoutStructure) (colors : list ColorInfo)
    (typography : list Typography) (elements : list InteractiveElement) :
  _calculate_confidence layout colors typography elements
  == match applicable_factors
             (str_truthy (LayoutType_value (layout_type layout)))
             (map confidence colors) (List.length typography)
             (List.length elements) with
     | [] => 1 # 2
     | factors => mean factors
     end
  /\ str_truthy (LayoutType_value (layout_type layout)) = true
  /\ _calculate_confidence layout colors [] elements
     == mean (applicable_factors true (map confidence colors) 0
                (List.length elements))
  /\ ~ _calculate_confidence layout [] [] elements
       == mean (0 :: applicable_factors true [] 0 (List.length elements))
  /\ _calculate_confidence layout [] [] [] == 8 # 10.
Proof.
  assert (Heq : forall cs ts es,
             _calculate_confidence layout cs ts es
             == match applicable_factors true (map confidence cs)
                        (List.length ts) (List.length es) with
                | [] => 1 # 2
                | factors => mean factors
                end).
  { intros cs ts es.
    rewrite _calculate_confidence_eq, layout_kind_always_truthy.
    rewrite !list_truthy_length. apply collected_factors_mean. }
  split; [rewrite layout_kind_always_truthy; apply Heq|].
  split; [apply layout_kind_always_truthy|].
  split.
  { rewrite Heq. cbn [List.length]. unfold applicable_factors. cbn [app].
    destruct (map confidence colors); reflexivity. }
  split.
  { rewrite Heq. destruct elements as [|e es]; vm_compute; discriminate. }
  rewrite Heq. vm_compute. reflexivity.
Qed.

Example typography_factor_is_omitted :
  forall layout e,
    _calculate_confidence layout [] [] [e] == 7 # 10
    /\ ~ _calculate_confidence layout [] [] [e] == (8 # 10) / 3 + (6 # 10) / 3.
Proof.
  intros layout e. rewrite _calculate_confidence_eq, layout_kind_always_truthy.
  vm_compute. split; [reflexivity|discriminate].
Qed.

(** ** C4: the layout decision *)

Lemma hough_count_lines_found (answer : option (list (Z * Z * Z * Z))) :
  hough_count answer = Z.of_nat (List.length (lines_found answer)).
Proof. destruct answer; reflexivity. Qed.

(** C4. When both line detections answer, the layout is grid exactly when
    at least two horizontal and at least two vertical lines were found (the
    counts being the numbers of lines in the detections' answers, zero for
    an answer of [None]), the grid structure then reads "Estimated (vertical+1) columns,
    (horizontal+1) rows", otherwise the layout is flexbox without a grid
    structure; the responsive hint is the desktop one exactly when the width
    exceeds 768 and the mobile one otherwise. When a line detection raises,
    the result is the flexbox descriptor with unknown spacing and
    alignment. *)
Theorem layout_decision (E : Env) (image : Image) :
  match cv2_hough_lines E Horizontal image, cv2_hough_lines E Vertical image with
  | Ok h_lines, Ok v_lines =>
      let h := Z.of_nat (List.length (lines_found h_lines)) in
      let v := Z.of_nat (List.length (lines_found v_lines)) in
      let l := _analyze_layout E image in
      (layout_type l = GRID <-> (2 <= h /\ 2 <= v)%Z)
      /\ (layout_type l = GRID ->
          grid_structure l
          = Some ("Estimated " ++ str_of_Z (v + 1) ++ " columns, "
                  ++ str_of_Z (h + 1) ++ " rows"))
      /\ (layout_type l <> GRID ->
          layout_type l = FLEXBOX /\ grid_structure l = None)
      /\ (responsive_hints l = Some ["Desktop layout detected"]
          <-> (768 < snd (shape image))%Z)
      /\ (responsive_hints l = Some ["Mobile layout detected"]
          <-> ~ (768 < snd (shape image))%Z)
  | _, _ =>
      let l := _analyze_layout E image in
      layout_type l = FLEXBOX /\ grid_structure l = None /\ unknown_spacing l
  end.
Proof.
  unfold _analyze_layout.
  destruct (shape image) as [height width] eqn:Hshape.
  assert (Hdef : layout_type layout_failure_default = FLEXBOX
                 /\ grid_structure layout_failure_default = None
                 /\ unknown_spacing layout_failure_default).
  { repeat split; try reflexivity. repeat constructor. }
  destruct (cv2_hough_lines E Horizontal image) as [h_lines|e];
    [|exact Hdef].
  destruct (cv2_hough_lines E Vertical image) as [v_lines|e];
    [|exact Hdef].
  cbn [bind try_except snd]. rewrite <- !hough_count_lines_found.
  destruct ((2 <=? hough_count h_lines)%Z && (2 <=? hough_count v_lines)%Z)
    eqn:Hgrid; cbn [layout_type grid_structure responsive_hints].
  - rewrite andb_true_iff, !Z.leb_le in Hgrid.
    split; [tauto|]. split; [reflexivity|].
    split; [intros H; exfalso; apply H; reflexivity|].
    destruct (768 <? width)%Z eqn:Hw;
      [apply Z.ltb_lt in Hw|apply Z.ltb_ge in Hw];
      (split; split; intros H; try reflexivity; try lia; try discriminate).
  - assert (Hn : ~ (2 <= hough_count h_lines /\ 2 <= hough_count v_lines)%Z).
    { intros [H1 H2]. apply Z.leb_le in H1, H2. rewrite H1, H2 in Hgrid.
      discriminate. }
    split; [split; [discriminate|tauto]|]. split; [discriminate|].
    split; [auto|].
    destruct (768 <? width)%Z eqn:Hw;
      [apply Z.ltb_lt in Hw|apply Z.ltb_ge in Hw];
      (split; split; intros H; try reflexivity; try lia; try discriminate).
Qed.

(** ** C5: interactive elements *)

Lemma area_in_range_iff (width height : Z) (area : Q) :
  area_in_range width height area = true <-> area_between width height area.
Proof.
  unfold area_in_range, area_between.
  now rewrite andb_true_iff, !Qlt_bool_iff.
Qed.

Lemma classify_element_first_applicable (w h : Z) :
  first_applicable CONTAINER (element_rules w h)
    (classify_element (inject_Z w / inject_Z h) h).
Proof.
  unfold element_rules, classify_element.
  set (aspect := inject_Z w / inject_Z h).
  destruct (Qle_bool (15 # 10) aspect && Qle_bool aspect 6
            && (20 <=? h)%Z && (h <=? 100)%Z) eqn:H1.
  { apply fa_here.
    rewrite !andb_true_iff, !Qle_bool_iff, !Z.leb_le in H1. tauto. }
  apply fa_later.
  { intros [Ha [Hb [Hc Hd]]]. apply Qle_bool_iff in Ha, Hb.
    apply Z.leb_le in Hc, Hd. rewrite Ha, Hb, Hc, Hd in H1. discriminate. }
  destruct (Qlt_bool 3 aspect && (h <=? 50)%Z) eqn:H2.
  { apply fa_here. rewrite andb_true_iff, Qlt_bool_iff, Z.leb_le in H2. tauto. }
  apply fa_later; [|apply fa_none].
  intros [Ha Hb]. apply Qlt_bool_iff in Ha. apply Z.leb_le in Hb.
  rewrite Ha, Hb in H2. discriminate.
Qed.

Lemma mean_color_hex_nonempty (px : list RGB) :
  px <> [] -> exists hex, mean_color_hex px = Ok hex.
Proof.
  destruct px; [congruence|]. intros _. eexists. reflexivity.
Qed.

Lemma element_loop (image : Image) (width height : Z) (contours : list Contour) :
  Forall (rect_in_image image) contours ->
  forall acc, exists emitted,
    for_each contours acc (element_step image width height)
    = Ok (acc ++ emitted)%list
    /\ Forall2 element_of_contour
         (filter (fun c => area_in_range width height (contourArea c)) contours)
         emitted.
Proof.
  induction 1 as [|c contours Hc Hall IH]; intros acc.
  - exists []. rewrite app_nil_r. split; [reflexivity|constructor].
  - cbn [for_each filter]. unfold element_step at 1.
    destruct (area_in_range width height (contourArea c)) eqn:Harea.
    + unfold rect_in_image in Hc.
      destruct (boundingRect c) as [[[x y] w] h] eqn:Hrect.
      destruct Hc as [Hh Hregion].
      unfold py_truediv. apply Z.eqb_neq in Hh. rewrite Hh.
      destruct (mean_color_hex_nonempty _ Hregion) as [hex Hhex].
      cbn [bind]. rewrite Hhex. cbn [bind].
      match goal with
      | |- context [py_append acc ?e] => set (elem := e)
      end.
      destruct (IH (py_append acc elem)) as [emitted [Hrun Hrel]].
      exists (elem :: emitted). split.
      * rewrite Hrun. unfold py_append. now rewrite <- app_assoc.
      * constructor; [|exact Hrel].
        unfold element_of_contour. rewrite Hrect. subst elem. simpl.
        split; [apply classify_element_first_applicable|]. split; reflexivity.
    + cbn [bind]. apply IH.
Qed.

(** C5. When the contour search answers with well-formed bounding
    rectangles, the detector emits one record for exactly the contours whose
    area lies strictly between 500 and a tenth of the image area, in contour
    order; the record carries the rectangle and the kind chosen by the first
    rule that applies (button, then input, container otherwise), and at most
    the first 15 records are returned. *)
Theorem interactive_elements_spec (E : Env) (image : Image)
    (contours : list Contour)
    (Hfound : cv2_threshold_contours E image = Ok contours)
    (Hrects : Forall (rect_in_image image) contours) :
  exists emitted,
    Forall2 element_of_contour
      (filter (fun c => area_in_range (snd (shape image)) (fst (shape image))
                          (contourArea c)) contours)
      emitted
    /\ _detect_interactive_elements E image = firstn 15 emitted
    /\ (List.length (_detect_interactive_elements E image) <= 15)%nat
    /\ (forall c, area_in_range (snd (shape image)) (fst (shape image))
                    (contourArea c) = true
                  <-> area_between (snd (shape image)) (fst (shape image))
                        (contourArea c)).
Proof.
  destruct (element_loop image (snd (shape image)) (fst (shape image))
              contours Hrects []) as [emitted [Hrun Hrel]].
  exists emitted. split; [exact Hrel|].
  assert (Heq : _detect_interactive_elements E image = firstn 15 emitted).
  { unfold _detect_interactive_elements.
    destruct (shape image) as [height width]. cbn [fst snd] in *.
    rewrite Hfound. cbn [bind]. rewrite Hrun. reflexivity. }
  split; [exact Heq|]. split.
  - rewrite Heq. apply firstn_le_length.
  - intros c. apply area_in_range_iff.
Qed.

Lemma interactive_elements_spec_witness :
  exists emitted,
    Forall2 element_of_contour
      (filter (fun c => area_in_range (snd (shape widget_image))
                          (fst (shape widget_image)) (contourArea c))
         widget_contours)
      emitted
    /\ _detect_interactive_elements widget_env widget_image = firstn 15 emitted
    /\ (List.length (_detect_interactive_elements widget_env widget_image) <= 15)%nat
    /\ (forall c, area_in_range (snd (shape widget_image))
                    (fst (shape widget_image)) (contourArea c) = true
                  <-> area_between (snd (shape widget_image))
                        (fst (shape widget_image)) (contourArea c)).
Proof.
  apply (interactive_elements_spec widget_env widget_image widget_contours).
  - reflexivity.
  - repeat constructor; vm_compute; discriminate.
Defined.

Example widget_elements_kinds :
  map element_type (_detect_interactive_elements widget_env widget_image)
  = [BUTTON; INPUT; CONTAINER].
Proof. vm_compute. reflexivity. Qed.

(** ** C6: typography records *)

Lemma estimate_font_size_eq (h : Z) :
  estimate_font_size h = Z.max 12 (Z.quot (8 * h) 10).
Proof.
  unfold estimate_font_size, py_int. simpl. now rewrite (Z.mul_comm h 8).
Qed.

Lemma classify_text_first_applicable (size : Z) :
  first_applicable ("body", "normal") (text_rules size) (classify_text size).
Proof.
  unfold text_rules, classify_text.
  destruct (24 <? size)%Z eqn:H1.
  { apply fa_here. now apply Z.ltb_lt. }
  apply Z.ltb_ge in H1. apply fa_later; [lia|].
  destruct (18 <? size)%Z eqn:H2.
  { apply fa_here. apply Z.ltb_lt in H2. lia. }
  apply Z.ltb_ge in H2. apply fa_later; [lia|apply fa_none].
Qed.

Lemma str_take_length (n : nat) (s : string) :
  (String.length (str_take n s) <= n)%nat.
Proof.
  revert s. induction n as [|n IH]; intros [|c s]; simpl; try lia.
  specialize (IH s). lia.
Qed.

Lemma lstrip_empty_iff (s : string) : lstrip s = EmptyString <-> blank s = true.
Proof.
  induction s as [|c s IH]; simpl; [tauto|].
  destruct (is_space c); simpl; [exact IH|]. split; discriminate.
Qed.

Lemma lstrip_head (s : string) (c : ascii) (t : string) :
  lstrip s = String c t -> is_space c = false.
Proof.
  induction s as [|d s IH]; simpl; [discriminate|].
  destruct (is_space d) eqn:Hd; [exact IH|].
  intros H. inversion H; subst. exact Hd.
Qed.

Lemma strip_empty_iff (s : string) : strip s = EmptyString <-> blank s = true.
Proof.
  unfold strip. rewrite <- lstrip_empty_iff.
  destruct (lstrip s) as [|c t] eqn:Hl; [simpl; tauto|].
  apply lstrip_head in Hl. simpl. rewrite Hl.
  split; [|discriminate].
  destruct (rstrip t); discriminate.
Qed.

Lemma survives_iff (token : string * Z) :
  survives token = true <-> blank (fst token) = false.
Proof.
  unfold survives. pose proof (strip_empty_iff (fst token)) as H.
  destruct (strip (fst token)), (blank (fst token)); simpl; split; intros;
    try reflexivity; try discriminate.
  - destruct H as [H _]. specialize (H eq_refl). discriminate.
  - destruct H as [_ H]. specialize (H eq_refl). discriminate.
Qed.

Lemma sample_text_color_total (image : Image) (x y w h : Z) :
  exists hex, sample_text_color image x y w h = Ok hex.
Proof.
  unfold sample_text_color.
  destruct ((0 <=? x)%Z && (0 <=? y)%Z && (x + w <=? snd (shape image))%Z
            && (y + h <=? fst (shape image))%Z); [|eexists; reflexivity].
  cbv zeta. destruct (region_pixels image x y w h) eqn:Hr;
    [eexists; reflexivity|].
  apply mean_color_hex_nonempty. discriminate.
Qed.

Lemma getitem_lt {A} (xs : list A) (i : nat) :
  (i < List.length xs)%nat -> exists x, nth_error xs i = Some x /\ getitem xs i = Ok x.
Proof.
  intros H. unfold getitem.
  destruct (nth_error xs i) as [x|] eqn:Hx; [eauto|].
  apply nth_error_None in Hx. lia.
Qed.

Lemma skipn_cons_nth {A} (xs : list A) (i : nat) (x : A) :
  nth_error xs i = Some x -> skipn i xs = x :: skipn (S i) xs.
Proof.
  revert i. induction xs as [|y xs IH]; intros [|i]; simpl; try discriminate.
  - intros H. now inversion H.
  - intros H. now apply IH.
Qed.

Lemma typography_loop (image : Image) (data : OcrData) (texts : list string) :
  forall (i : nat) (acc : list Typography),
    (i + List.length texts <= List.length (ocr_left data))%nat ->
    (i + List.length texts <= List.length (ocr_top data))%nat ->
    (i + List.length texts <= List.length (ocr_width data))%nat ->
    (i + List.length texts <= List.length (ocr_height data))%nat ->
    exists emitted,
      for_each (enumerate_from i texts) acc (typography_step image data)
      = Ok (acc ++ emitted)%list
      /\ Forall2 record_of_token
           (filter survives (combine texts (skipn i (ocr_height data))))
           emitted.
Proof.
  induction texts as [|text texts IH]; intros i acc Hl Ht Hw Hh.
  - exists []. rewrite app_nil_r. split; [reflexivity|constructor].
  - cbn [List.length] in *.
    destruct (getitem_lt (ocr_height data) i ltac:(lia)) as [h [Hnth Hget]].
    destruct (getitem_lt (ocr_left data) i ltac:(lia)) as [x [_ Hgx]].
    destruct (getitem_lt (ocr_top data) i ltac:(lia)) as [y [_ Hgy]].
    destruct (getitem_lt (ocr_width data) i ltac:(lia)) as [w [_ Hgw]].
    rewrite (skipn_cons_nth _ _ _ Hnth).
    cbn [enumerate_from for_each combine filter]. unfold typography_step at 1.
    unfold survives at 1. cbn [fst].
    destruct (str_truthy (strip text)) eqn:Hkeep.
    + rewrite Hget, Hgx, Hgy, Hgw. cbn [bind].
      destruct (sample_text_color_total image x y w h) as [hex Hhex].
      destruct (classify_text (estimate_font_size h)) as [kind weight] eqn:Hk.
      rewrite Hhex. cbn [bind].
      match goal with
      | |- context [py_append acc ?t] => set (rec := t)
      end.
      destruct (IH (S i) (py_append acc rec)) as [emitted [Hrun Hrel]];
        try lia.
      exists (rec :: emitted). split.
      * rewrite Hrun. unfold py_append. now rewrite <- app_assoc.
      * constructor; [|exact Hrel].
        unfold record_of_token. subst rec.
        cbn [font_size typo_element_type font_weight text_content].
        rewrite <- estimate_font_size_eq.
        split; [reflexivity|]. split.
        { rewrite <- Hk. apply classify_text_first_applicable. }
        split; [reflexivity|apply str_take_length].
    + cbn [bind]. apply IH; lia.
Qed.

(** C6 (amended). When OCR answers with parallel lists, the extractor emits
    one record for exactly the tokens whose text is not blank, in scan order.
    For a token of box height [h] the font size is max(12, 0.8 h) with the
    product truncated to an integer; the record is heading/bold above 24,
    subheading/semi-bold above 18 and up to 24, body/normal otherwise; its
    text is the stripped text cut to 100 characters; and at most the first 10
    records are returned. *)
Theorem typography_records_spec (E : Env) (image : Image) (data : OcrData)
    (Hocr : tesseract_image_to_data E image = Ok data)
    (Haligned : ocr_aligned data) :
  exists emitted,
    Forall2 record_of_token
      (filter survives (combine (ocr_text data) (ocr_height data))) emitted
    /\ _analyze_typography E image = firstn 10 emitted
    /\ (List.length (_analyze_typography E image) <= 10)%nat
    /\ (forall token, survives token = true <-> blank (fst token) = false).
Proof.
  destruct Haligned as [Hl [Ht [Hw Hh]]].
  destruct (typography_loop image data (ocr_text data) 0 [])
    as [emitted [Hrun Hrel]]; try (simpl; lia).
  exists emitted. split; [exact Hrel|].
  assert (Heq : _analyze_typography E image = firstn 10 emitted).
  { unfold _analyze_typography, enumerate. rewrite Hocr. cbn [bind].
    rewrite Hrun. reflexivity. }
  split; [exact Heq|]. split.
  - rewrite Heq. apply firstn_le_length.
  - apply survives_iff.
Qed.

Lemma typography_records_spec_witness :
  exists emitted,
    Forall2 record_of_token
      (filter survives (combine (ocr_text ocr_answer) (ocr_height ocr_answer)))
      emitted
    /\ _analyze_typography ocr_env ocr_image = firstn 10 emitted
    /\ (List.length (_analyze_typography ocr_env ocr_image) <= 10)%nat
    /\ (forall token, survives token = true <-> blank (fst token) = false).
Proof.
  apply (typography_records_spec ocr_env ocr_image ocr_answer).
  - reflexivity.
  - repeat split.
Defined.

(** C6 as worded fails on a token of height 31: the specification's estimate
    is 24.8 pixels, a heading; the extractor records 24px, a subheading. *)
Lemma typography_font_size_counterexample :
  exists t,
    nth_error (_analyze_typography ocr_env ocr_image) 0 = Some t
    /\ nth_error (ocr_height ocr_answer) 0 = Some 31%Z
    /\ font_size t = "24px"
    /\ (typo_element_type t, font_weight t) = ("subheading", "semi-bold")
    /\ claimed_font_size 31 == 248 # 10
    /\ ~ inject_Z 24 == claimed_font_size 31
    /\ first_applicable ("body", "normal")
         (claimed_text_rules (claimed_font_size 31)) ("heading", "bold")
    /\ ~ first_applicable ("body", "normal")
           (claimed_text_rules (claimed_font_size 31))
           (typo_element_type t, font_weight t).
Proof.
  eexists. split; [vm_compute; reflexivity|].
  cbn [font_size typo_element_type font_weight].
  assert (Hh : first_applicable ("body", "normal")
                 (claimed_text_rules (claimed_font_size 31)) ("heading", "bold")).
  { apply fa_here. vm_compute. reflexivity. }
  repeat split; try reflexivity; try exact Hh.
  - vm_compute. discriminate.
  - intros H. pose proof (first_applicable_functional _ _ _ _ H Hh) as Heq.
    discriminate.
Qed.

Example ocr_records :
  map (fun t => (font_size t, typo_element_type t, text_content t, line_height t))
    (_analyze_typography ocr_env ocr_image)
  = [ ("24px", "subheading", "Sign in", Some "33px");
      ("12px", "body", "Welcome back", Some "16px");
      ("18px", "body", str_take 100 long_text, Some "25px") ].
Proof. vm_compute. reflexivity. Qed.

Example line_height_follows_the_double :
  py_int (fl64 (inject_Z 45 * float_1_4)) = 62%Z
  /\ py_int (fl64 (inject_Z 50 * float_1_4)) = 70%Z
  /\ py_int (fl64 (inject_Z 85 * float_1_4)) = 118%Z
  /\ py_int (fl64 (inject_Z 12 * float_1_4)) = 16%Z.
Proof. vm_compute. repeat split. Qed.

(** ** C8: the screenshot classifier *)

Lemma count_regions_fold (width height : Z) (contours : list Contour) (n : Z) :
  fold_left
    (fun n contour =>
       if is_rectangular_region width height contour then (n + 1)%Z else n)
    contours n
  = (n + Z.of_nat
           (List.length (filter (is_rectangular_region width height) contours)))%Z.
Proof.
  revert n. induction contours as [|c cs IH]; intros n; cbn [fold_left filter].
  - simpl. lia.
  - rewrite IH. destruct (is_rectangular_region width height c);
      cbn [List.length]; lia.
Qed.

Lemma is_rectangular_region_iff (width height : Z) (c : Contour) :
  is_rectangular_region width height c = true
  <-> is_large_quadrilateral width height c.
Proof.
  unfold is_rectangular_region, is_large_quadrilateral.
  now rewrite andb_true_iff, Nat.eqb_eq, Qlt_bool_iff.
Qed.

Lemma analyze_image_decoded (E : Env) (data : list Byte.byte) (filename : string)
    (image : Image) :
  _load_image E data = Some image ->
  exists resp,
    analyze_image E data filename = Ok resp
    /\ fields_from_stages E image filename resp
    /\ warnings resp
       = (if _is_website_screenshot E image then [] else [screenshot_warning])
    /\ generated_prompt resp
       = Some (generate_full_prompt E (set_generated_prompt resp None)).
Proof.
  intros Hload. unfold analyze_image. rewrite Hload.
  eexists. split; [reflexivity|].
  split; [unfold fields_from_stages; cbn; repeat split|].
  split; [|reflexivity].
  cbn [warnings set_generated_prompt].
  destruct (_is_website_screenshot E image); reflexivity.
Qed.

Lemma analyze_image_undecoded (E : Env) (data : list Byte.byte) (filename : string) :
  _load_image E data = None ->
  analyze_image E data filename = Raise (ValueError "Could not load image").
Proof.
  intros Hload. unfold analyze_image. now rewrite Hload.
Qed.

(** C8. When the edge contours are found, the classifier answers true
    exactly when the aspect ratio width/height lies in [0.5, 3], at least 3
    contours are large quadrilaterals, the width is at least 300 and the
    height at least 200; when the contour search (or the division) raises it
    answers true. Whatever it answers, the analysis of a decoded image
    completes: the answer decides the warnings list and nothing else, every
    other field being the output of its stage. *)
Theorem screenshot_classifier_spec (E : Env) (image : Image) :
  match py_truediv (snd (shape image)) (fst (shape image)),
        cv2_edge_contours E image with
  | Ok aspect_ratio, Ok contours =>
      aspect_ratio
      = inject_Z (snd (shape image)) / inject_Z (fst (shape image))
      /\ (_is_website_screenshot E image = true
          <-> (1 # 2) <= aspect_ratio /\ aspect_ratio <= 3
              /\ (3 <= List.length
                         (filter (is_rectangular_region (snd (shape image))
                                    (fst (shape image))) contours))%nat
              /\ (300 <= snd (shape image))%Z /\ (200 <= fst (shape image))%Z)
      /\ (forall c, is_rectangular_region (snd (shape image))
                      (fst (shape image)) c = true
                    <-> is_large_quadrilateral (snd (shape image))
                          (fst (shape image)) c)
  | _, _ => _is_website_screenshot E image = true
  end
  /\ (forall data filename,
        _load_image E data = Some image ->
        exists resp,
          analyze_image E data filename = Ok resp
          /\ fields_from_stages E image filename resp
          /\ warnings resp
             = (if _is_website_screenshot E image then []
                else [screenshot_warning])).
Proof.
  split.
  - unfold _is_website_screenshot.
    destruct (shape image) as [height width]. cbn [fst snd].
    unfold py_truediv. destruct (height =? 0)%Z eqn:Hz; [reflexivity|].
    destruct (cv2_edge_contours E image) as [contours|e]; [|reflexivity].
    cbn [bind try_except].
    split; [reflexivity|]. split; [|intros c; apply is_rectangular_region_iff].
    rewrite count_regions_fold.
    rewrite !andb_true_iff, !Qle_bool_iff, !Z.leb_le.
    split; intros H; repeat split; try tauto; lia.
  - intros data filename Hload.
    destruct (analyze_image_decoded E data filename image Hload)
      as [resp [Hrun [Hfields [Hwarn _]]]].
    exists resp. auto.
Qed.

Example dashboard_is_a_screenshot :
  _is_website_screenshot dashboard_env dashboard_image = true.
Proof. vm_compute. reflexivity. Qed.

Example banner_is_not_a_screenshot :
  snd (shape banner_image) = 2000%Z /\ fst (shape banner_image) = 400%Z
  /\ _is_website_screenshot dashboard_env banner_image = false.
Proof. vm_compute. repeat split. Qed.

Example classifier_fails_open :
  _is_website_screenshot degraded_env banner_image = true.
Proof. vm_compute. reflexivity. Qed.


(** ** C10: the warnings list *)

(** C10. The warnings list of a completed analysis has at most one entry;
    any entry is the fixed screenshot warning; the list holds that warning
    exactly when the classifier answered false on the decoded image and is
    empty exactly when it answered true, whatever the extraction stages
    did. *)
Theorem warnings_only_from_classifier (E : Env) (data : list Byte.byte)
    (filename : string) (resp : AnalysisResponse)
    (Hrun : analyze_image E data filename = Ok resp) :
  (List.length (warnings resp) <= 1)%nat
  /\ (forall w, In w (warnings resp)
                -> w = "Image may not be a website/app screenshot")
  /\ exists image,
      _load_image E data = Some image
      /\ (warnings resp = ["Image may not be a website/app screenshot"]
          <-> _is_website_screenshot E image = false)
      /\ (warnings resp = [] <-> _is_website_screenshot E image = true).
Proof.
  destruct (_load_image E data) as [image|] eqn:Hload.
  - destruct (analyze_image_decoded E data filename image Hload)
      as [resp' [Hrun' [_ [Hwarn _]]]].
    rewrite Hrun in Hrun'. inversion Hrun'; subst resp'. clear Hrun'.
    rewrite Hwarn.
    assert (Hex : exists image0,
               Some image = Some image0
               /\ ((if _is_website_screenshot E image then []
                    else [screenshot_warning])
                   = ["Image may not be a website/app screenshot"]
                   <-> _is_website_screenshot E image0 = false)
               /\ ((if _is_website_screenshot E image then []
                    else [screenshot_warning]) = []
                   <-> _is_website_screenshot E image0 = true)).
    { exists image. split; [reflexivity|].
      destruct (_is_website_screenshot E image);
        split; split; intros H; try reflexivity; discriminate. }
    destruct (_is_website_screenshot E image); cbn [List.length].
    + split; [lia|]. split; [intros w []|exact Hex].
    + split; [lia|]. split; [intros w [<-|[]]; reflexivity|exact Hex].
  - rewrite (analyze_image_undecoded E data filename Hload) in Hrun.
    discriminate.
Qed.

Lemma warnings_only_from_classifier_witness :
  exists resp,
    analyze_image degraded_env png_bytes "shot.png" = Ok resp
    /\ colors resp = [] /\ typography resp = []
    /\ interactive_elements resp = [] /\ assets resp = []
    /\ layout resp = layout_failure_default
    /\ (List.length (warnings resp) <= 1)%nat
    /\ (forall w, In w (warnings resp)
                  -> w = "Image may not be a website/app screenshot")
    /\ exists image,
        _load_image degraded_env png_bytes = Some image
        /\ (warnings resp = ["Image may not be a website/app screenshot"]
            <-> _is_website_screenshot degraded_env image = false)
        /\ (warnings resp = []
            <-> _is_website_screenshot degraded_env image = true).
Proof.
  eexists. split; [vm_compute; reflexivity|].
  do 5 (split; [reflexivity|]).
  apply (warnings_only_from_classifier degraded_env png_bytes "shot.png").
  vm_compute. reflexivity.
Defined.

Example plain_run_is_warned :
  match analyze_image plain_env png_bytes "plain.png" with
  | Ok resp =>
      warnings resp = ["Image may not be a website/app screenshot"]
      /\ colors resp = [] /\ layout resp = layout_failure_default
  | Raise _ => False
  end.
Proof. vm_compute. repeat split. Qed.

(** ** C1: failure only on decode *)

Lemma _load_image_none_iff (E : Env) (data : list Byte.byte) :
  _load_image E data = None
  <-> raises (cv2_imdecode E data) = true \/ cv2_imdecode E data = Ok None.
Proof.
  unfold _load_image.
  destruct (cv2_imdecode E data) as [[im|]|e]; cbn [bind try_except raises].
  - split; [discriminate|]. intros [H|H]; discriminate.
  - split; auto.
  - split; auto.
Qed.

(** C1. [analyze_image] raises exactly when the image loader returns no
    image, which happens exactly when the decoder raises or answers that the
    bytes are no image; the error is the loader's [ValueError]. Once an image
    is decoded the analysis returns a response whose fields are the outputs
    of the stages, and a stage whose library call raises contributes its
    default: true for the classifier, the flexbox/unknown descriptor for the
    layout, the empty list for colors, typography, interactive elements and
    assets. *)
Theorem analyze_image_fails_only_on_decode (E : Env) (data : list Byte.byte)
    (filename : string) :
  (raises (analyze_image E data filename) = true <-> _load_image E data = None)
  /\ (_load_image E data = None
      <-> raises (cv2_imdecode E data) = true \/ cv2_imdecode E data = Ok None)
  /\ match _load_image E data with
     | None =>
         analyze_image E data filename
         = Raise (ValueError "Could not load image")
     | Some image =>
         exists resp,
           analyze_image E data filename = Ok resp
           /\ fields_from_stages E image filename resp
     end
  /\ (forall image,
        (raises (cv2_edge_contours E image) = true ->
         _is_website_screenshot E image = true /\ _catalog_assets E image = [])
        /\ (raises (cv2_hough_lines E Horizontal image) = true
            \/ raises (cv2_hough_lines E Vertical image) = true ->
            _analyze_layout E image = layout_failure_default)
        /\ (raises (sklearn_kmeans E 8 42 10 (List.concat image)) = true ->
            _extract_colors E image = [])
        /\ (raises (tesseract_image_to_data E image) = true ->
            _analyze_typography E image = [])
        /\ (raises (cv2_threshold_contours E image) = true ->
            _detect_interactive_elements E image = [])
        /\ (raises (cv2_hough_circles E image) = true ->
            _catalog_assets E image = [])).
Proof.
  split; [|split; [apply _load_image_none_iff|split]].
  - destruct (_load_image E data) as [image|] eqn:Hload.
    + destruct (analyze_image_decoded E data filename image Hload)
        as [resp [Hrun _]].
      rewrite Hrun. cbn [raises]. split; discriminate.
    + rewrite (analyze_image_undecoded E data filename Hload).
      cbn [raises]. tauto.
  - destruct (_load_image E data) as [image|] eqn:Hload.
    + destruct (analyze_image_decoded E data filename image Hload)
        as [resp [Hrun [Hfields _]]].
      exists resp. auto.
    + now apply analyze_image_undecoded.
  - intros image.
    split.
    { intros H. split.
      - unfold _is_website_screenshot. destruct (shape image) as [h w].
        destruct (py_truediv w h); [|reflexivity].
        destruct (cv2_edge_contours E image); [discriminate|reflexivity].
      - unfold _catalog_assets.
        destruct (cv2_hough_circles E image); [|reflexivity].
        destruct (cv2_edge_contours E image); [discriminate|reflexivity]. }
    split.
    { intros H. unfold _analyze_layout. destruct (shape image) as [h w].
      destruct (cv2_hough_lines E Horizontal image); [|reflexivity].
      destruct (cv2_hough_lines E Vertical image); [|reflexivity].
      destruct H as [H|H]; discriminate. }
    split.
    { intros H. unfold _extract_colors.
      destruct (sklearn_kmeans E 8 42 10 (List.concat image));
        [discriminate|reflexivity]. }
    split.
    { intros H. unfold _analyze_typography.
      destruct (tesseract_image_to_data E image); [discriminate|reflexivity]. }
    split.
    { intros H. unfold _detect_interactive_elements.
      destruct (shape image) as [h w].
      destruct (cv2_threshold_contours E image); [discriminate|reflexivity]. }
    intros H. unfold _catalog_assets.
    destruct (cv2_hough_circles E image); [discriminate|reflexivity].
Qed.

Example analyze_image_on_garbage_bytes :
  analyze_image dashboard_env [] "empty.png"
  = Raise (ValueError "Could not load image")
  /\ analyze_image dashboard_env [Byte.x00; Byte.x01] "noise.bin"
     = Raise (ValueError "Could not load image").
Proof. split; reflexivity. Qed.

(** A failure inside a stage's own loop is absorbed like a library failure:
    a contour of height zero (division by zero), an OCR answer whose lists
    are not parallel (index out of range). *)
Example loop_failures_are_absorbed :
  _detect_interactive_elements flat_contour_env widget_image = []
  /\ _analyze_typography ragged_ocr_env ocr_image = [].
Proof. vm_compute. split; reflexivity. Qed.

(** ** C2: bounds on the assembled result *)

Lemma _extract_colors_length (E : Env) (image : Image) :
  (List.length (_extract_colors E image) <= 6)%nat.
Proof.
  unfold _extract_colors.
  destruct (sklearn_kmeans E 8 42 10 (List.concat image)) as [[cs ls]|e];
    cbn [bind try_except]; [apply firstn_le_length|simpl; lia].
Qed.

Lemma _extract_colors_sorted (E : Env) (image : Image) :
  StronglySorted conf_ge (_extract_colors E image).
Proof.
  unfold _extract_colors.
  destruct (sklearn_kmeans E 8 42 10 (List.concat image)) as [[cs ls]|e];
    cbn [bind try_except]; [|constructor].
  apply firstn_sorted. apply sort_by_confidence_desc_sorted.
Qed.

Lemma _analyze_typography_length (E : Env) (image : Image) :
  (List.length (_analyze_typography E image) <= 10)%nat.
Proof.
  unfold _analyze_typography.
  destruct (tesseract_image_to_data E image) as [data|e];
    cbn [bind try_except]; [|simpl; lia].
  destruct (for_each _ _ _); cbn [bind try_except];
    [apply firstn_le_length|simpl; lia].
Qed.

Lemma _detect_interactive_elements_length (E : Env) (image : Image) :
  (List.length (_detect_interactive_elements E image) <= 15)%nat.
Proof.
  unfold _detect_interactive_elements. destruct (shape image) as [h w].
  destruct (cv2_threshold_contours E image) as [contours|e];
    cbn [bind try_except]; [|simpl; lia].
  destruct (for_each _ _ _); cbn [bind try_except];
    [apply firstn_le_length|simpl; lia].
Qed.

Lemma _catalog_assets_length (E : Env) (image : Image) :
  (List.length (_catalog_assets E image) <= 10)%nat.
Proof.
  unfold _catalog_assets.
  destruct (cv2_hough_circles E image) as [circles|e];
    cbn [bind try_except]; [|simpl; lia].
  destruct (cv2_edge_contours E image) as [contours|e];
    cbn [bind try_except]; [|simpl; lia].
  destruct (for_each _ _ _); cbn [bind try_except];
    [apply firstn_le_length|simpl; lia].
Qed.

Lemma cluster_proportion_range (labels : list nat) (v : nat) :
  In v labels ->
  0 <= cluster_proportion labels v /\ cluster_proportion labels v <= 1.
Proof.
  intros Hin. unfold cluster_proportion.
  pose proof (count_occ_bound Nat.eq_dec v labels) as Hle.
  assert (Hpos : (0 < List.length labels)%nat).
  { destruct labels; [contradiction|simpl; lia]. }
  assert (Hq : 0 < inject_Z (Z.of_nat (List.length labels))).
  { change 0 with (inject_Z 0). rewrite <- Zlt_Qlt. lia. }
  split.
  - apply Qle_shift_div_l; [exact Hq|]. rewrite Qmult_0_l.
    change 0 with (inject_Z 0). rewrite <- Zle_Qle. lia.
  - apply Qle_shift_div_r; [exact Hq|]. rewrite Qmult_1_l.
    rewrite <- Zle_Qle. lia.
Qed.

Lemma _extract_colors_confidence_range (E : Env) (image : Image) (c : ColorInfo) :
  In c (_extract_colors E image) -> 0 <= confidence c /\ confidence c <= 1.
Proof.
  intros Hin. apply in_extract_colors in Hin.
  destruct Hin as [cs [ls [_ Hin]]].
  rewrite color_samples_eq in Hin. apply in_map_iff in Hin.
  destruct Hin as [[center p] [<- Hin]].
  apply in_combine_r in Hin. apply In_nth_error in Hin.
  destruct Hin as [i Hi]. apply color_percentages_nth in Hi.
  destruct Hi as [v [_ [Hv ->]]].
  destruct center as [[r g] b]. cbn [make_color fst snd confidence].
  now apply cluster_proportion_range.
Qed.

Lemma py_sum_range_from (xs : list Q) (a : Q) :
  (forall x, In x xs -> 0 <= x /\ x <= 1) ->
  a <= fold_left Qplus xs a
  /\ fold_left Qplus xs a <= a + py_len xs.
Proof.
  unfold py_len. revert a. induction xs as [|x xs IH]; intros a Hall.
  - cbn [fold_left List.length]. change (inject_Z (Z.of_nat 0)) with 0.
    split; lra.
  - cbn [fold_left List.length].
    destruct (Hall x (or_introl eq_refl)) as [H0 H1].
    destruct (IH (a + x) (fun y Hy => Hall y (or_intror Hy))) as [IH0 IH1].
    rewrite Nat2Z.inj_succ, <- Z.add_1_r, inject_Z_plus.
    change (inject_Z 1) with 1. split; lra.
Qed.

Lemma mean_range (xs : list Q) :
  xs <> [] ->
  (forall x, In x xs -> 0 <= x /\ x <= 1) ->
  0 <= py_sum xs / py_len xs /\ py_sum xs / py_len xs <= 1.
Proof.
  intros Hne Hall. destruct (py_sum_range_from xs 0 Hall) as [H0 H1].
  fold (py_sum xs) in H0, H1.
  assert (Hq : 0 < py_len xs).
  { unfold py_len. change 0 with (inject_Z 0). rewrite <- Zlt_Qlt.
    destruct xs; [congruence|simpl; lia]. }
  split.
  - apply Qle_shift_div_l; [exact Hq|]. lra.
  - apply Qle_shift_div_r; [exact Hq|]. lra.
Qed.

Lemma _calculate_confidence_range
    (layout : LayoutStructure) (colors : list ColorInfo)
    (typography : list Typography) (elements : list InteractiveElement) :
  (forall c, In c colors -> 0 <= confidence c /\ confidence c <= 1) ->
  0 <= _calculate_confidence layout colors typography elements
  /\ _calculate_confidence layout colors typography elements <= 1.
Proof.
  intros Hcolors. rewrite _calculate_confidence_eq, layout_kind_always_truthy.
  assert (Hconf : forall x, In x (map confidence colors) -> 0 <= x /\ x <= 1).
  { intros x Hx. apply in_map_iff in Hx. destruct Hx as [c [<- Hc]]. auto. }
  set (factors := collected_factors true (map confidence colors)
                    (list_truthy typography) (list_truthy elements)).
  assert (Hall : forall x, In x factors -> 0 <= x /\ x <= 1).
  { intros x Hx. unfold factors, collected_factors in Hx.
    repeat (apply in_app_or in Hx; destruct Hx as [Hx|Hx]).
    - destruct Hx as [<-|[]]. split; [discriminate|discriminate].
    - destruct (map confidence colors) as [|q qs] eqn:Hm; [contradiction|].
      destruct Hx as [<-|[]]. apply mean_range; [discriminate|exact Hconf].
    - destruct (list_truthy typography); [|contradiction].
      destruct Hx as [<-|[]]. split; discriminate.
    - destruct (list_truthy elements); [|contradiction].
      destruct Hx as [<-|[]]. split; discriminate. }
  assert (Hne : factors <> []).
  { unfold factors, collected_factors. discriminate. }
  destruct factors as [|f fs] eqn:Hf; [congruence|].
  unfold py_mean. apply mean_range; [discriminate|exact Hall].
Qed.

Lemma round_half_even_range (y : Q) :
  0 <= y -> y <= 100 -> (0 <= round_half_even y <= 100)%Z.
Proof.
  intros H0 H100. unfold round_half_even.
  pose proof (Qfloor_le y) as Hfl.
  assert (Hn0 : (0 <= Qfloor y)%Z).
  { change 0%Z with (Qfloor 0). now apply Qfloor_resp_le. }
  assert (Hn100 : (Qfloor y <= 100)%Z).
  { change 100%Z with (Qfloor 100). now apply Qfloor_resp_le. }
  destruct (Qlt_bool (y - inject_Z (Qfloor y)) (1 # 2)) eqn:Hlow; [lia|].
  apply Qlt_bool_false_iff in Hlow. apply Qnot_lt_le in Hlow.
  assert (Hlt : (Qfloor y < 100)%Z).
  { destruct (Z.lt_ge_cases (Qfloor y) 100) as [Hc|Hc]; [exact Hc|].
    exfalso. rewrite Zle_Qle in Hc. change (inject_Z 100) with 100 in Hc. lra. }
  destruct (Qlt_bool (1 # 2) (y - inject_Z (Qfloor y))); [lia|].
  destruct (Z.even (Qfloor y)); lia.
Qed.

Lemma py_round2_range (x : Q) :
  0 <= x -> x <= 1 -> 0 <= py_round2 x /\ py_round2 x <= 1.
Proof.
  intros H0 H1. unfold py_round2.
  destruct (round_half_even_range (x * 100)) as [Hr0 Hr1]; [lra|lra|].
  unfold Qle. cbn [Qnum Qden]. split; lia.
Qed.

(** C2. In the response of a completed analysis there are at most 6 colors,
    sorted by non-increasing confidence, at most 10 typography records, at
    most 15 interactive elements, at most 10 assets, and the confidence
    score lies between 0 and 1. *)
Theorem result_bounds (E : Env) (data : list Byte.byte) (filename : string)
    (resp : AnalysisResponse)
    (Hrun : analyze_image E data filename = Ok resp) :
  (List.length (colors resp) <= 6)%nat
  /\ StronglySorted (fun a b => confidence b <= confidence a) (colors resp)
  /\ (List.length (typography resp) <= 10)%nat
  /\ (List.length (interactive_elements resp) <= 15)%nat
  /\ (List.length (assets resp) <= 10)%nat
  /\ 0 <= confidence_score resp /\ confidence_score resp <= 1.
Proof.
  destruct (_load_image E data) as [image|] eqn:Hload.
  2:{ rewrite (analyze_image_undecoded E data filename Hload) in Hrun.
      discriminate. }
  destruct (analyze_image_decoded E data filename image Hload)
    as [resp' [Hrun' [Hfields _]]].
  rewrite Hrun in Hrun'. inversion Hrun'; subst resp'. clear Hrun'.
  destruct Hfields as [_ [Hc [Ht [He [Ha [_ [_ [_ [_ [_ Hs]]]]]]]]]].
  rewrite Hc, Ht, He, Ha, Hs.
  split; [apply _extract_colors_length|].
  split; [apply _extract_colors_sorted|].
  split; [apply _analyze_typography_length|].
  split; [apply _detect_interactive_elements_length|].
  split; [apply _catalog_assets_length|].
  apply py_round2_range; apply _calculate_confidence_range;
    apply _extract_colors_confidence_range.
Qed.

Lemma result_bounds_witness :
  exists resp,
    analyze_image dashboard_env png_bytes "shot.png" = Ok resp
    /\ List.length (colors resp) = 6%nat
    /\ confidence_score resp = 56 # 100
    /\ (List.length (colors resp) <= 6)%nat
    /\ StronglySorted (fun a b => confidence b <= confidence a) (colors resp)
    /\ (List.length (typography resp) <= 10)%nat
    /\ (List.length (interactive_elements resp) <= 15)%nat
    /\ (List.length (assets resp) <= 10)%nat
    /\ 0 <= confidence_score resp /\ confidence_score resp <= 1.
Proof.
  eexists. split; [vm_compute; reflexivity|].
  split; [reflexivity|]. split; [reflexivity|].
  apply (result_bounds dashboard_env png_bytes "shot.png").
  vm_compute. reflexivity.
Defined.

(** ** C9: determinism *)

Lemma for_each_invariant {A S} (P : S -> Prop) (body : A -> S -> result S)
    (xs : list A) :
  (forall x s s', P s -> body x s = Ok s' -> P s') ->
  forall s s', P s -> for_each xs s body = Ok s' -> P s'.
Proof.
  intros Hbody. induction xs as [|x xs IH]; intros s s' Hs Hrun.
  - inversion Hrun; subst. exact Hs.
  - cbn [for_each] in Hrun. destruct (body x s) as [s1|e] eqn:Hb;
      cbn [bind] in Hrun; [|discriminate].
    eapply IH; [|exact Hrun]. eapply Hbody; eauto.
Qed.

Lemma typography_step_system_font (image : Image) (data : OcrData)
    (entry : nat * string) (acc acc' : list Typography) :
  system_font acc -> typography_step image data entry acc = Ok acc' ->
  system_font acc'.
Proof.
  intros Hacc. unfold typography_step. destruct entry as [i text].
  destruct (str_truthy (strip text)); [|intros H; inversion H; subst; exact Hacc].
  destruct (getitem (ocr_height data) i) as [h|]; cbn [bind]; [|discriminate].
  destruct (classify_text (estimate_font_size h)) as [kind weight].
  destruct (getitem (ocr_left data) i) as [x|]; cbn [bind]; [|discriminate].
  destruct (getitem (ocr_top data) i) as [y|]; cbn [bind]; [|discriminate].
  destruct (getitem (ocr_width data) i) as [w|]; cbn [bind]; [|discriminate].
  destruct (sample_text_color image x y w h) as [hex|]; cbn [bind];
    [|discriminate].
  intros H. inversion H; subst. unfold py_append, system_font.
  apply Forall_app. split; [exact Hacc|]. constructor; [reflexivity|constructor].
Qed.

Lemma _analyze_typography_system_font (E : Env) (image : Image) :
  system_font (_analyze_typography E image).
Proof.
  unfold _analyze_typography.
  destruct (tesseract_image_to_data E image) as [data|e];
    cbn [bind try_except]; [|constructor].
  destruct (for_each (enumerate (ocr_text data)) [] (typography_step image data))
    as [ts|e] eqn:Hrun; cbn [bind try_except]; [|constructor].
  assert (Hts : system_font ts).
  { eapply (for_each_invariant system_font); [|constructor|exact Hrun].
    intros x s s'. apply typography_step_system_font. }
  unfold system_font in *. rewrite Forall_forall in *.
  intros t Ht. apply Hts. now apply (in_firstn 10 ts).
Qed.

Lemma nodup_all_equal (c : string) (xs : list string) :
  Forall (fun x => x = c) xs ->
  nodup string_dec xs = match xs with [] => [] | _ => [c] end.
Proof.
  induction 1 as [|x xs Hx Hall IH]; [reflexivity|]. subst x.
  cbn [nodup]. destruct (in_dec string_dec c xs) as [Hin|Hnin].
  - rewrite IH. destruct xs; [contradiction|reflexivity].
  - destruct xs as [|y ys]; [reflexivity|].
    exfalso. apply Hnin. inversion Hall; subst. now left.
Qed.

Lemma py_list_of_set_system_font (hash : string -> Z) (ts : list Typography) :
  system_font ts ->
  py_list_of_set hash (map font_family ts)
  = match ts with [] => [] | _ => ["System font (estimated)"] end.
Proof.
  intros Hts. unfold py_list_of_set.
  rewrite (nodup_all_equal "System font (estimated)").
  - destruct ts; reflexivity.
  - unfold system_font in Hts. rewrite Forall_forall in *.
    intros x Hx. apply in_map_iff in Hx. destruct Hx as [t [<- Ht]]. auto.
Qed.

Lemma _synthesize_style_guide_hash_free (E1 E2 : Env) (colors : list ColorInfo)
    (ts : list Typography) :
  system_font ts ->
  _synthesize_style_guide E1 colors ts = _synthesize_style_guide E2 colors ts.
Proof.
  intros Hts. unfold _synthesize_style_guide.
  now rewrite !py_list_of_set_system_font.
Qed.

Section TwoRuns.

Variables E1 E2 : Env.
Hypothesis Hlibs : same_libraries E1 E2.

Lemma same_load_image (data : list Byte.byte) :
  _load_image E1 data = _load_image E2 data.
Proof.
  unfold _load_image. destruct Hlibs as [H _]. now rewrite H.
Qed.

Lemma same_classification (image : Image) :
  _is_website_screenshot E1 image = _is_website_screenshot E2 image.
Proof.
  unfold _is_website_screenshot. destruct Hlibs as [_ [H _]]. now rewrite H.
Qed.

Lemma same_layout (image : Image) :
  _analyze_layout E1 image = _analyze_layout E2 image.
Proof.
  unfold _analyze_layout. destruct Hlibs as [_ [_ [H _]]]. now rewrite !H.
Qed.

Lemma same_colors (image : Image) :
  _extract_colors E1 image = _extract_colors E2 image.
Proof.
  unfold _extract_colors. destruct Hlibs as [_ [_ [_ [H _]]]]. now rewrite H.
Qed.

Lemma same_typography (image : Image) :
  _analyze_typography E1 image = _analyze_typography E2 image.
Proof.
  unfold _analyze_typography. destruct Hlibs as [_ [_ [_ [_ [H _]]]]].
  now rewrite H.
Qed.

Lemma same_elements (image : Image) :
  _detect_interactive_elements E1 image = _detect_interactive_elements E2 image.
Proof.
  unfold _detect_interactive_elements.
  destruct Hlibs as [_ [_ [_ [_ [_ [H _]]]]]]. now rewrite H.
Qed.

Lemma same_assets (image : Image) :
  _catalog_assets E1 image = _catalog_assets E2 image.
Proof.
  unfold _catalog_assets.
  destruct Hlibs as [_ [He [_ [_ [_ [_ [Hc _]]]]]]]. now rewrite Hc, He.
Qed.

Lemma same_prompt (analysis : AnalysisResponse) :
  generate_full_prompt E1 analysis = generate_full_prompt E2 analysis.
Proof.
  unfold generate_full_prompt.
  destruct Hlibs
    as [_ [_ [_ [_ [_ [_ [_ [H1 [H2 [H3 [H4 [H5 [H6 [H7 H8]]]]]]]]]]]]]].
  now rewrite H1, H2, H3, H4, H5, H6, H7, H8.
Qed.

Lemma same_fields (image : Image) (filename : string)
    (r1 r2 : AnalysisResponse) :
  fields_from_stages E1 image filename r1 ->
  fields_from_stages E2 image filename r2 ->
  warnings r1 = warnings r2 ->
  without_time_and_prompt r1 = without_time_and_prompt r2.
Proof.
  unfold fields_from_stages.
  intros [A1 [A2 [A3 [A4 [A5 [A6 [A7 [A8 [A9 [_ A11]]]]]]]]]]
         [B1 [B2 [B3 [B4 [B5 [B6 [B7 [B8 [B9 [_ B11]]]]]]]]]] Hw.
  unfold without_time_and_prompt, without_time, set_generated_prompt.
  cbn [layout colors typography interactive_elements assets global_styles
       style_guide component_labels generated_prompt image_info
       processing_time confidence_score warnings].
  rewrite A1, A2, A3, A4, A5, A6, A7, A8, A9, A11, Hw.
  rewrite B1, B2, B3, B4, B5, B6, B7, B8, B9, B11.
  rewrite !same_layout, !same_colors, !same_typography, !same_elements,
    !same_assets.
  rewrite (_synthesize_style_guide_hash_free E1 E2)
    by apply _analyze_typography_system_font.
  reflexivity.
Qed.

End TwoRuns.

Lemma response_eq_from_parts (r1 r2 : AnalysisResponse) :
  without_time_and_prompt r1 = without_time_and_prompt r2 ->
  processing_time r1 = processing_time r2 ->
  generated_prompt r1 = generated_prompt r2 ->
  r1 = r2.
Proof.
  destruct r1, r2. unfold without_time_and_prompt, without_time,
    set_generated_prompt. cbn. intros H Ht Hp. inversion H. subst.
  reflexivity.
Qed.

(** C9 (amended). Two runs of [analyze_image] on the same bytes and filename
    that see the same libraries, whatever their clocks and string hashes,
    either both raise the same error or both return a response, and the two
    responses agree on every field except [processing_time] and
    [generated_prompt]; the generated prompt depends on the run only through
    the processing time it quotes, so the responses are equal as soon as
    their processing times are. The Color Extractor, run twice on the same
    image, yields the same ordered list of hex codes. *)
Theorem analysis_deterministic_up_to_time (E1 E2 : Env)
    (Hlibs : same_libraries E1 E2) (data : list Byte.byte) (filename : string) :
  match analyze_image E1 data filename, analyze_image E2 data filename with
  | Ok r1, Ok r2 =>
      without_time_and_prompt r1 = without_time_and_prompt r2
      /\ (processing_time r1 = processing_time r2 -> r1 = r2)
  | Raise e1, Raise e2 => e1 = e2
  | _, _ => False
  end
  /\ (forall image,
        map hex_code (_extract_colors E1 image)
        = map hex_code (_extract_colors E2 image)).
Proof.
  split; [|intros image; now rewrite (same_colors E1 E2 Hlibs)].
  pose proof (same_load_image E1 E2 Hlibs data) as Hload.
  destruct (_load_image E1 data) as [image|] eqn:Hl1.
  - symmetry in Hload.
    destruct (analyze_image_decoded E1 data filename image Hl1)
      as [r1 [Hrun1 [Hf1 [Hw1 Hp1]]]].
    destruct (analyze_image_decoded E2 data filename image Hload)
      as [r2 [Hrun2 [Hf2 [Hw2 Hp2]]]].
    rewrite Hrun1, Hrun2.
    assert (Hw : warnings r1 = warnings r2).
    { rewrite Hw1, Hw2. now rewrite (same_classification E1 E2 Hlibs). }
    pose proof (same_fields E1 E2 Hlibs image filename r1 r2 Hf1 Hf2 Hw)
      as Hsame.
    split; [exact Hsame|].
    intros Htime. apply response_eq_from_parts; [exact Hsame|exact Htime|].
    rewrite Hp1, Hp2, (same_prompt E1 E2 Hlibs). do 2 f_equal.
    destruct r1, r2. unfold without_time_and_prompt, without_time,
      set_generated_prompt in *. cbn in *. inversion Hsame. subst.
    reflexivity.
  - symmetry in Hload.
    rewrite (analyze_image_undecoded E1 data filename Hl1).
    rewrite (analyze_image_undecoded E2 data filename Hload). reflexivity.
Qed.

Lemma dashboard_runs_same_libraries :
  same_libraries dashboard_env dashboard_env_later.
Proof.
  unfold same_libraries. repeat split; intros; reflexivity.
Qed.

Lemma analysis_deterministic_up_to_time_witness :
  match analyze_image dashboard_env png_bytes "shot.png",
        analyze_image dashboard_env_later png_bytes "shot.png" with
  | Ok r1, Ok r2 =>
      without_time_and_prompt r1 = without_time_and_prompt r2
      /\ (processing_time r1 = processing_time r2 -> r1 = r2)
  | Raise e1, Raise e2 => e1 = e2
  | _, _ => False
  end
  /\ (forall image,
        map hex_code (_extract_colors dashboard_env image)
        = map hex_code (_extract_colors dashboard_env_later image)).
Proof.
  exact (analysis_deterministic_up_to_time dashboard_env dashboard_env_later
           dashboard_runs_same_libraries png_bytes "shot.png").
Defined.

(** C9 as worded fails: two runs on the same bytes that see the same
    libraries but take 1.23 s and 2 s differ outside [processing_time], in
    the generated prompt, whose metadata and overview quote the time. *)
Lemma determinism_counterexample :
  same_libraries dashboard_env dashboard_env_later
  /\ exists r1 r2,
      analyze_image dashboard_env png_bytes "shot.png" = Ok r1
      /\ analyze_image dashboard_env_later png_bytes "shot.png" = Ok r2
      /\ without_time r1 <> without_time r2
      /\ option_map (fun g => processing_time_seconds (metadata g))
           (generated_prompt r1) = Some (123 # 100)
      /\ option_map (fun g => processing_time_seconds (metadata g))
           (generated_prompt r2) = Some (200 # 100).
Proof.
  split; [exact dashboard_runs_same_libraries|].
  eexists. eexists.
  split; [vm_compute; reflexivity|].
  split; [vm_compute; reflexivity|].
  split; [|split; reflexivity].
  intros H. apply (f_equal generated_prompt) in H. cbn in H.
  apply (f_equal (option_map (fun g => processing_time_seconds (metadata g)))) in H.
  cbn in H. discriminate.
Qed.

(** * Further properties of the code *)

(** ** The image loader *)

Lemma cvtColor_BGR2RGB_involutive (image : Image) :
  cvtColor_BGR2RGB (cvtColor_BGR2RGB image) = image.
Proof.
  unfold cvtColor_BGR2RGB. rewrite map_map.
  rewrite <- (map_id image) at 2. apply map_ext. intros row.
  rewrite map_map. rewrite <- (map_id row) at 2. apply map_ext.
  intros [[b g] r]. reflexivity.
Qed.

Lemma cvtColor_BGR2RGB_shape (image : Image) :
  shape (cvtColor_BGR2RGB image) = shape image.
Proof.
  unfold shape, cvtColor_BGR2RGB. rewrite length_map.
  destruct image as [|row rows]; [reflexivity|]. cbn [map hd].
  now rewrite length_map.
Qed.

(** X1. An image the loader returns is the image the decoder produced with
    its first and third channel exchanged: exchanging them again gives the
    decoder's image back, and height and width are the decoder's. *)
Theorem loaded_image_is_decoded_image (E : Env) (data : list Byte.byte)
    (image : Image) (Hload : _load_image E data = Some image) :
  exists raw,
    cv2_imdecode E data = Ok (Some raw)
    /\ image = cvtColor_BGR2RGB raw
    /\ cvtColor_BGR2RGB image = raw
    /\ shape image = shape raw
    /\ forall row col b g r,
         nth_error raw row = Some col -> In (b, g, r) col ->
         exists col', nth_error image row = Some col' /\ In (r, g, b) col'.
Proof.
  unfold _load_image in Hload.
  destruct (cv2_imdecode E data) as [[raw|]|e]; cbn [bind try_except] in Hload;
    try discriminate.
  inversion Hload; subst image. exists raw.
  split; [reflexivity|]. split; [reflexivity|].
  split; [apply cvtColor_BGR2RGB_involutive|].
  split; [apply cvtColor_BGR2RGB_shape|].
  intros row col b g r Hrow Hin. unfold cvtColor_BGR2RGB.
  exists (map (fun '(b, g, r) => (r, g, b)) col). split.
  - rewrite nth_error_map.
    exact (f_equal (option_map (map (fun '(b0, g0, r0) => (r0, g0, b0)))) Hrow).
  - apply in_map_iff. exists (b, g, r). auto.
Qed.

Lemma loaded_image_is_decoded_image_witness :
  exists raw,
    cv2_imdecode dashboard_env png_bytes = Ok (Some raw)
    /\ dashboard_image = cvtColor_BGR2RGB raw
    /\ cvtColor_BGR2RGB dashboard_image = raw
    /\ shape dashboard_image = shape raw
    /\ forall row col b g r,
         nth_error raw row = Some col -> In (b, g, r) col ->
         exists col', nth_error dashboard_image row = Some col'
                      /\ In (r, g, b) col'.
Proof.
  apply (loaded_image_is_decoded_image dashboard_env png_bytes dashboard_image).
  reflexivity.
Defined.

(** ** Hex codes *)

Lemma format_02x_channel (n : Z) :
  is_channel n ->
  exists hi lo,
    format_02x n = String hi (String lo EmptyString) /\ hex_pair hi lo = Some n.
Proof.
  intros [H0 H255].
  assert (Hall : forallb
                   (fun k =>
                      match format_02x (Z.of_nat k) with
                      | String hi (String lo EmptyString) =>
                          match hex_pair hi lo with
                          | Some v => (v =? Z.of_nat k)%Z
                          | None => false
                          end
                      | _ => false
                      end) (seq 0 256) = true).
  { vm_compute. reflexivity. }
  rewrite forallb_forall in Hall.
  specialize (Hall (Z.to_nat n)).
  rewrite Z2Nat.id in Hall by exact H0.
  assert (Hin : In (Z.to_nat n) (seq 0 256)) by (apply in_seq; lia).
  specialize (Hall Hin).
  destruct (format_02x n) as [|hi [|lo [|x rest]]]; try discriminate.
  exists hi, lo. split; [reflexivity|].
  destruct (hex_pair hi lo) as [v|]; [|discriminate].
  apply Z.eqb_eq in Hall. now subst.
Qed.

(** X2. For channel values between 0 and 255 the hex code is a [#] followed
    by six hex digits, and reading it back gives the three channels: distinct
    colors never share a hex code. *)
Theorem format_hex_round_trip (r g b : Z)
    (Hr : is_channel r) (Hg : is_channel g) (Hb : is_channel b) :
  String.length (format_hex r g b) = 7%nat
  /\ parse_hex_code (format_hex r g b) = Some (r, g, b)
  /\ forall r' g' b',
       is_channel r' -> is_channel g' -> is_channel b' ->
       format_hex r' g' b' = format_hex r g b -> (r', g', b') = (r, g, b).
Proof.
  assert (Hparse : forall x y z,
             is_channel x -> is_channel y -> is_channel z ->
             String.length (format_hex x y z) = 7%nat
             /\ parse_hex_code (format_hex x y z) = Some (x, y, z)).
  { intros x y z Hx Hy Hz. unfold format_hex.
    destruct (format_02x_channel x Hx) as [x1 [x2 [-> Hxv]]].
    destruct (format_02x_channel y Hy) as [y1 [y2 [-> Hyv]]].
    destruct (format_02x_channel z Hz) as [z1 [z2 [-> Hzv]]].
    cbn [append String.length parse_hex_code].
    split; [reflexivity|].
    change (Ascii.Ascii true true false false false true false false)
      with "#"%char.
    cbn. now rewrite Hxv, Hyv, Hzv. }
  destruct (Hparse r g b Hr Hg Hb) as [Hlen Hback].
  split; [exact Hlen|]. split; [exact Hback|].
  intros r' g' b' Hr' Hg' Hb' Heq.
  destruct (Hparse r' g' b' Hr' Hg' Hb') as [_ Hback'].
  rewrite Heq, Hback in Hback'. now inversion Hback'.
Qed.

Lemma format_hex_round_trip_witness :
  String.length (format_hex 255 0 171) = 7%nat
  /\ parse_hex_code (format_hex 255 0 171) = Some (255, 0, 171)%Z
  /\ forall r' g' b',
       is_channel r' -> is_channel g' -> is_channel b' ->
       format_hex r' g' b' = format_hex 255 0 171 ->
       (r', g', b') = (255, 0, 171)%Z.
Proof.
  apply (format_hex_round_trip 255 0 171); unfold is_channel; lia.
Defined.

(** ** The color extractor: whose share a sample carries *)

Lemma filter_map_fst_NoDup {A B} (keep : A * B -> bool) (l : list (A * B)) :
  NoDup (map fst l) -> NoDup (map fst (filter keep l)).
Proof.
  induction l as [|x l IH]; cbn [filter map]; intros H; [constructor|].
  inversion H as [|? ? Hnotin Hrest]; subst.
  destruct (keep x); [|now apply IH].
  cbn [map]. constructor; [|now apply IH].
  intros Hin. apply Hnotin. apply in_map_iff in Hin.
  destruct Hin as [y [Hy Hin]]. apply filter_In in Hin.
  apply in_map_iff. exists y. tauto.
Qed.

Lemma np_unique_counts_NoDup (labels : list nat) :
  NoDup (map fst (np_unique_counts labels)).
Proof.
  unfold np_unique_counts. apply filter_map_fst_NoDup.
  rewrite map_map. cbn [fst]. rewrite map_id. apply seq_NoDup.
Qed.

Lemma firstn_NoDup {A} (n : nat) (l : list A) : NoDup l -> NoDup (firstn n l).
Proof.
  intros H. rewrite <- (firstn_skipn n l) in H.
  now apply NoDup_app_remove_r in H.
Qed.

Lemma combine_snd_firstn {A B} (xs : list A) (ys : list B) :
  map snd (combine xs ys) = firstn (List.length xs) ys.
Proof.
  revert ys. induction xs as [|x xs IH]; intros [|y ys]; cbn; try reflexivity.
  now rewrite IH.
Qed.

Lemma combine_map_r {A B C} (k : B -> C) (xs : list A) (ys : list B) :
  combine xs (map k ys)
  = map (fun ab => (fst ab, k (snd ab))) (combine xs ys).
Proof.
  revert ys. induction xs as [|x xs IH]; intros [|y ys]; cbn; try reflexivity.
  now rewrite IH.
Qed.

(** The sample the loop appends for a center paired with the entry
    [(v, count)] of [np.unique]. *)
Lemma color_samples_of_unique (cluster_centers : list (Q * Q * Q))
    (labels : list nat) :
  color_samples cluster_centers labels
  = map (fun cu =>
           make_color (fst cu)
             (inject_Z (Z.of_nat (snd (snd cu)))
              / inject_Z (Z.of_nat (List.length labels))))
      (combine (map astype_int cluster_centers) (np_unique_counts labels)).
Proof.
  rewrite color_samples_eq. unfold color_percentages.
  rewrite map_map, combine_map_r, map_map. reflexivity.
Qed.

Lemma make_color_confidence (center : RGB) (p : Q) :
  confidence (make_color center p) = p.
Proof. destruct center as [[r g] b]. reflexivity. Qed.

(** X3. Whatever the clustering answers, the samples the extractor returns
    carry the pixel proportions of pairwise distinct non-empty clusters: no
    cluster's share is handed out twice. *)
Theorem color_confidences_are_distinct_shares (E : Env) (image : Image)
    (cluster_centers : list (Q * Q * Q)) (labels : list nat)
    (Hk : sklearn_kmeans E 8 42 10 (List.concat image)
          = Ok (cluster_centers, labels)) :
  exists clusters : list nat,
    NoDup clusters
    /\ Forall2 (fun s v => In v labels
                           /\ confidence s = cluster_proportion labels v)
         (_extract_colors E image) clusters.
Proof.
  unfold _extract_colors. rewrite Hk. cbn [bind try_except].
  set (sorted := sort_by_confidence_desc (color_samples cluster_centers labels)).
  set (pairs := combine (map astype_int cluster_centers)
                  (np_unique_counts labels)).
  set (sample := fun cu : RGB * (nat * nat) =>
                   make_color (fst cu)
                     (inject_Z (Z.of_nat (snd (snd cu)))
                      / inject_Z (Z.of_nat (List.length labels)))).
  assert (Hperm : Permutation (firstn 6 sorted ++ skipn 6 sorted)
                    (map sample pairs)).
  { rewrite firstn_skipn. unfold sorted, sample, pairs.
    rewrite <- color_samples_of_unique. apply sort_by_confidence_desc_perm. }
  apply Permutation_map_inv in Hperm. destruct Hperm as [l3 [Heq Hl3]].
  symmetry in Heq. apply map_eq_app in Heq.
  destruct Heq as [kept [rest [-> [Hkept _]]]].
  exists (map (fun cu : RGB * (nat * nat) => fst (snd cu)) kept). split.
  - assert (Hnd : NoDup (map (fun cu : RGB * (nat * nat) => fst (snd cu)) pairs)).
    { rewrite <- (map_map snd fst). unfold pairs.
      rewrite combine_snd_firstn, <- firstn_map.
      apply firstn_NoDup, np_unique_counts_NoDup. }
    apply (Permutation_NoDup
             (Permutation_map (fun cu : RGB * (nat * nat) => fst (snd cu)) Hl3))
      in Hnd.
    rewrite map_app in Hnd. now apply NoDup_app_remove_r in Hnd.
  - rewrite <- Hkept.
    assert (Hin : forall cu, In cu kept -> In (snd cu) (np_unique_counts labels)).
    { intros [c vn] Hcu. cbn [snd].
      apply (in_combine_r (map astype_int cluster_centers) _ c).
      fold pairs. apply (Permutation_in _ (Permutation_sym Hl3)).
      apply in_or_app. now left. }
    clear Hkept Hl3. induction kept as [|[c [v n]] kept IH]; cbn [map];
      constructor.
    + specialize (Hin _ (or_introl eq_refl)). cbn [snd fst] in *.
      apply np_unique_counts_spec in Hin. destruct Hin as [-> Hv].
      split; [exact Hv|]. unfold sample. now rewrite make_color_confidence.
    + apply IH. intros cu Hcu. apply Hin. now right.
Qed.

Lemma color_confidences_are_distinct_shares_witness :
  exists clusters : list nat,
    NoDup clusters
    /\ Forall2 (fun s v => In v palette_labels
                           /\ confidence s = cluster_proportion palette_labels v)
         (_extract_colors palette_env palette_image) clusters.
Proof.
  apply (color_confidences_are_distinct_shares palette_env palette_image
           palette_centers palette_labels).
  reflexivity.
Defined.

Lemma sorted_app_cross {A} (R : A -> A -> Prop) (xs ys : list A) :
  StronglySorted R (xs ++ ys) ->
  forall x y, In x xs -> In y ys -> R x y.
Proof.
  induction xs as [|a xs IH]; intros Hs x y Hx Hy; [contradiction|].
  cbn [app] in Hs. inversion Hs as [|? ? Hs' Hall]; subst.
  destruct Hx as [<-|Hx].
  - rewrite Forall_forall in Hall. apply Hall. apply in_or_app. now right.
  - now apply IH.
Qed.

(** X4. When the clustering answers, the extractor returns
    min(6, number of centers, number of non-empty clusters) samples, and they
    are the most confident ones: the samples of the loop it leaves out have
    no higher confidence than any sample it returns. *)
Theorem top_colors_are_the_most_confident (E : Env) (image : Image)
    (cluster_centers : list (Q * Q * Q)) (labels : list nat)
    (Hk : sklearn_kmeans E 8 42 10 (List.concat image)
          = Ok (cluster_centers, labels)) :
  List.length (_extract_colors E image)
  = Nat.min 6 (Nat.min (List.length cluster_centers)
                 (List.length (np_unique_counts labels)))
  /\ exists left_out,
      Permutation (_extract_colors E image ++ left_out)
        (color_samples cluster_centers labels)
      /\ forall c d,
           In c (_extract_colors E image) -> In d left_out ->
           confidence d <= confidence c.
Proof.
  unfold _extract_colors. rewrite Hk. cbn [bind try_except].
  set (sorted := sort_by_confidence_desc (color_samples cluster_centers labels)).
  split.
  - rewrite length_firstn. f_equal. unfold sorted.
    rewrite (Permutation_length (sort_by_confidence_desc_perm _)).
    rewrite color_samples_eq, length_map, length_combine, length_map.
    unfold color_percentages. now rewrite !length_map.
  - exists (skipn 6 sorted). split.
    + rewrite firstn_skipn. apply sort_by_confidence_desc_perm.
    + intros c d Hc Hd.
      apply (sorted_app_cross conf_ge (firstn 6 sorted) (skipn 6 sorted));
        [|exact Hc|exact Hd].
      rewrite firstn_skipn. apply sort_by_confidence_desc_sorted.
Qed.

Lemma top_colors_are_the_most_confident_witness :
  List.length (_extract_colors palette_env palette_image)
  = Nat.min 6 (Nat.min (List.length palette_centers)
                 (List.length (np_unique_counts palette_labels)))
  /\ exists left_out,
      Permutation (_extract_colors palette_env palette_image ++ left_out)
        (color_samples palette_centers palette_labels)
      /\ forall c d,
           In c (_extract_colors palette_env palette_image) -> In d left_out ->
           confidence d <= confidence c.
Proof.
  apply (top_colors_are_the_most_confident palette_env palette_image).
  reflexivity.
Defined.

(** ** Sorting again what is sorted *)

Lemma insert_desc_last (x : ColorInfo) (pre : list ColorInfo) :
  (forall y, In y pre -> confidence x <= confidence y) ->
  insert_desc x pre = (pre ++ [x])%list.
Proof.
  induction pre as [|y pre IH]; intros H; [reflexivity|].
  cbn [insert_desc app].
  assert (Hy : Qle_bool (confidence x) (confidence y) = true).
  { apply Qle_bool_iff. apply H. now left. }
  rewrite Hy, IH; [reflexivity|]. intros z Hz. apply H. now right.
Qed.

Lemma sort_sorted_from (xs pre : list ColorInfo) :
  StronglySorted conf_ge (pre ++ xs) ->
  fold_left (fun acc x => insert_desc x acc) xs pre = (pre ++ xs)%list.
Proof.
  revert pre. induction xs as [|x xs IH]; intros pre Hs; cbn [fold_left].
  - now rewrite app_nil_r.
  - rewrite insert_desc_last.
    + rewrite IH; rewrite <- app_assoc; [reflexivity|exact Hs].
    + intros y Hy.
      apply (sorted_app_cross conf_ge pre (x :: xs) Hs y x Hy).
      now left.
Qed.

Lemma sort_by_confidence_desc_sorted_id (xs : list ColorInfo) :
  StronglySorted conf_ge xs -> sort_by_confidence_desc xs = xs.
Proof.
  intros Hs. unfold sort_by_confidence_desc. now rewrite sort_sorted_from.
Qed.

(** ** The colors section of the prompt *)

Lemma _determine_color_usage_labels (center : RGB) (p : Q) :
  In (_determine_color_usage center p)
    ["Background"; "Text"; "Primary/Accent"; "Border/Divider"; "UI Element"].
Proof.
  destruct center as [[r g] b]. unfold _determine_color_usage.
  repeat match goal with
         | |- context [if ?c then _ else _] => destruct c
         end; cbn [In]; auto 6.
Qed.

Lemma extracted_color_usage (E : Env) (image : Image) (c : ColorInfo) :
  In c (_extract_colors E image) ->
  In (usage_context c)
    ["Background"; "Text"; "Primary/Accent"; "Border/Divider"; "UI Element"].
Proof.
  intros Hin. apply in_extract_colors in Hin.
  destruct Hin as [cs [ls [_ Hin]]].
  rewrite color_samples_eq in Hin. apply in_map_iff in Hin.
  destruct Hin as [[[[r g] b] p] [<- _]].
  cbn [make_color fst snd usage_context].
  apply _determine_color_usage_labels.
Qed.

(** X5. In the colors section of the prompt, built from the colors the
    extractor returned: sorting them again leaves their order as it is; a
    color is listed under backgrounds, text, borders exactly when its usage
    is Background, Text, Border/Divider; a Primary/Accent color is listed
    twice, under primary colors and under accents; and a UI Element color is
    listed in no group at all. *)
Theorem prompt_color_groups (E : Env) (image : Image) (c : ColorInfo)
    (Hc : In c (_extract_colors E image)) :
  let g := color_groups (_extract_colors E image) in
  sorted_colors g = _extract_colors E image
  /\ (In c (group_background g) <-> usage_context c = "Background")
  /\ (In c (group_text g) <-> usage_context c = "Text")
  /\ (In c (group_border g) <-> usage_context c = "Border/Divider")
  /\ (In c (group_primary g) <-> usage_context c = "Primary/Accent")
  /\ (In c (group_accent g) <-> usage_context c = "Primary/Accent")
  /\ (usage_context c = "UI Element" ->
      ~ In c (group_background g ++ group_text g ++ group_border g
              ++ group_primary g ++ group_accent g)%list).
Proof.
  cbv zeta. unfold color_groups.
  cbn [sorted_colors group_background group_text group_border group_primary
       group_accent].
  rewrite (sort_by_confidence_desc_sorted_id _ (_extract_colors_sorted E image)).
  split; [reflexivity|].
  pose proof (extracted_color_usage E image c Hc) as Hu.
  rewrite !in_app_iff, !filter_In. unfold usage_mentions.
  cbn [In] in Hu.
  destruct Hu as [Hu|[Hu|[Hu|[Hu|[Hu|[]]]]]]; rewrite <- Hu;
    (do 5 (split;
           [split;
            [intros [_ Hm]; first [reflexivity|vm_compute in Hm; discriminate]
            |intros He;
             first [split; [exact Hc|vm_compute; reflexivity]|discriminate]]
           |]));
    intros He; try discriminate;
    intros Hin;
    repeat match goal with
           | Hx : _ \/ _ |- _ => destruct Hx as [Hx|Hx]
           end;
    destruct Hin as [_ Hm]; vm_compute in Hm; discriminate.
Qed.

Lemma prompt_color_groups_witness :
  let g := color_groups (_extract_colors palette_env palette_image) in
  sorted_colors g = _extract_colors palette_env palette_image
  /\ (In palette_second (group_background g)
      <-> usage_context palette_second = "Background")
  /\ (In palette_second (group_text g) <-> usage_context palette_second = "Text")
  /\ (In palette_second (group_border g)
      <-> usage_context palette_second = "Border/Divider")
  /\ (In palette_second (group_primary g)
      <-> usage_context palette_second = "Primary/Accent")
  /\ (In palette_second (group_accent g)
      <-> usage_context palette_second = "Primary/Accent")
  /\ (usage_context palette_second = "UI Element" ->
      ~ In palette_second
          (group_background g ++ group_text g ++ group_border g
           ++ group_primary g ++ group_accent g)%list).
Proof.
  apply (prompt_color_groups palette_env palette_image palette_second).
  vm_compute. right. left. reflexivity.
Defined.

Lemma filter_head_in {A} (f : A -> bool) (xs : list A) (x : A) (rest : list A) :
  filter f xs = x :: rest -> In x xs.
Proof.
  intros H. assert (Hin : In x (filter f xs)) by (rewrite H; now left).
  apply filter_In in Hin. tauto.
Qed.

(** X6. On a non-empty color list the quick-reference variables of the
    colors section are always defined: the background variable is the hex
    code of one of the colors, the text variable is one of them or black,
    and the accent variable is one of them or, only when there is a single
    color, the fixed blue. *)
Theorem color_quick_reference_defined (colors : list ColorInfo)
    (Hne : colors <> []) :
  exists bg txt acc,
    color_quick_reference colors = Some (bg, txt, acc)
    /\ In bg (map hex_code colors)
    /\ (In txt (map hex_code colors) \/ txt = "#000000")
    /\ (In acc (map hex_code colors)
        \/ (acc = "#0066cc" /\ List.length colors = 1%nat)).
Proof.
  unfold color_quick_reference.
  destruct colors as [|c0 colors0] eqn:Hcolors; [congruence|].
  rewrite <- Hcolors in *. cbn [list_truthy negb].
  replace (list_truthy colors) with true by (rewrite Hcolors; reflexivity).
  cbn [negb]. unfold color_groups.
  cbn [sorted_colors group_background group_text group_accent group_primary].
  set (sorted := sort_by_confidence_desc colors).
  assert (Hperm : Permutation sorted colors)
    by apply sort_by_confidence_desc_perm.
  assert (Hhex : forall x, In x sorted -> In (hex_code x) (map hex_code colors)).
  { intros x Hx. apply in_map. exact (Permutation_in _ Hperm Hx). }
  do 3 eexists. split; [reflexivity|].
  split; [|split].
  - destruct (filter (usage_mentions "background") sorted) as [|b bs] eqn:Hb.
    + destruct sorted as [|s0 ss] eqn:Hs.
      * apply Permutation_nil in Hperm. congruence.
      * apply Hhex. now left.
    + apply Hhex. exact (filter_head_in _ _ _ _ Hb).
  - destruct (filter (usage_mentions "text") sorted) as [|t ts] eqn:Ht.
    + now right.
    + left. apply Hhex. exact (filter_head_in _ _ _ _ Ht).
  - destruct (filter _ sorted) as [|a1 as1] eqn:Ha.
    + destruct (filter (usage_mentions "primary") sorted) as [|p1 ps] eqn:Hp.
      * destruct sorted as [|s0 [|s1 ss]] eqn:Hs.
        -- apply Permutation_nil in Hperm. congruence.
        -- right. split; [reflexivity|].
           now rewrite <- (Permutation_length Hperm).
        -- left. apply Hhex. right. now left.
      * left. apply Hhex. exact (filter_head_in _ _ _ _ Hp).
    + left. apply Hhex. exact (filter_head_in _ _ _ _ Ha).
Qed.

Lemma color_quick_reference_defined_witness :
  exists bg txt acc,
    color_quick_reference (_extract_colors palette_env palette_image)
    = Some (bg, txt, acc)
    /\ In bg (map hex_code (_extract_colors palette_env palette_image))
    /\ (In txt (map hex_code (_extract_colors palette_env palette_image))
        \/ txt = "#000000")
    /\ (In acc (map hex_code (_extract_colors palette_env palette_image))
        \/ (acc = "#0066cc"
            /\ List.length (_extract_colors palette_env palette_image) = 1%nat)).
Proof.
  apply (color_quick_reference_defined
           (_extract_colors palette_env palette_image)).
  vm_compute. discriminate.
Defined.

Example palette_quick_reference :
  color_quick_reference (_extract_colors palette_env palette_image)
  = Some ("#fafafa", "#141e28", "#141e28").
Proof. vm_compute. reflexivity. Qed.

(** ** The typography extractor: size classes by box height *)

(** X7. The font size is never below 12, and the class of a token follows
    from the height of its box alone: heading from 32 pixels on, subheading
    from 24 to 31, body up to 23 (negative heights included). *)
Theorem text_class_by_height (h : Z) :
  (12 <= estimate_font_size h)%Z
  /\ (classify_text (estimate_font_size h) = ("heading", "bold")
      <-> (32 <= h)%Z)
  /\ (classify_text (estimate_font_size h) = ("subheading", "semi-bold")
      <-> (24 <= h <= 31)%Z)
  /\ (classify_text (estimate_font_size h) = ("body", "normal")
      <-> (h <= 23)%Z).
Proof.
  rewrite estimate_font_size_eq. unfold classify_text.
  set (size := Z.max 12 (8 * h ÷ 10)).
  assert (Hsize : (12 <= size)%Z) by (unfold size; lia).
  assert (H24 : (24 < size <-> 32 <= h)%Z).
  { unfold size. Z.to_euclidean_division_equations. lia. }
  assert (H18 : (18 < size <-> 24 <= h)%Z).
  { unfold size. Z.to_euclidean_division_equations. lia. }
  split; [exact Hsize|].
  destruct (24 <? size)%Z eqn:Ha; [apply Z.ltb_lt in Ha|apply Z.ltb_ge in Ha].
  - repeat split; intros; try reflexivity; try discriminate; lia.
  - destruct (18 <? size)%Z eqn:Hb; [apply Z.ltb_lt in Hb|apply Z.ltb_ge in Hb];
      repeat split; intros; try reflexivity; try discriminate; lia.
Qed.

(** ** Sampled colors *)

Lemma py_int_div (a b : Z) :
  (0 < b)%Z -> py_int (inject_Z a / inject_Z b) = (a ÷ b)%Z.
Proof.
  intros Hb. destruct b as [|p|p]; try lia.
  unfold py_int, Qdiv, Qinv, Qmult, inject_Z. cbn [Qnum Qden].
  now rewrite Z.mul_1_r, Pos.mul_1_l.
Qed.

Lemma channel_sum_range (channel : RGB -> Z) (px : list RGB) (acc : Z) :
  (forall p, In p px -> is_channel (channel p)) ->
  (acc <= fold_left Z.add (map channel px) acc
          <= acc + 255 * Z.of_nat (List.length px))%Z.
Proof.
  revert acc. induction px as [|p px IH]; intros acc H;
    cbn [map fold_left List.length].
  - lia.
  - destruct (H p (or_introl eq_refl)) as [H0 H255].
    specialize (IH (acc + channel p)%Z (fun q Hq => H q (or_intror Hq))).
    lia.
Qed.

Lemma channel_mean_is_channel (channel : RGB -> Z) (px : list RGB) :
  px <> [] ->
  (forall p, In p px -> is_channel (channel p)) ->
  is_channel (py_int (channel_mean channel px)).
Proof.
  intros Hne H. unfold channel_mean.
  assert (Hlen : (0 < Z.of_nat (List.length px))%Z)
    by (destruct px; [congruence|cbn [List.length]; lia]).
  rewrite py_int_div by exact Hlen.
  pose proof (channel_sum_range channel px 0 H) as Hs.
  unfold is_channel. Z.to_euclidean_division_equations. nia.
Qed.

Lemma mean_color_hex_well_formed (px : list RGB) :
  px <> [] -> Forall pixel_8bit px ->
  exists hex, mean_color_hex px = Ok hex /\ well_formed_hex hex.
Proof.
  intros Hne H8. rewrite Forall_forall in H8.
  assert (Hrun : mean_color_hex px
                 = Ok (format_hex
                         (py_int (channel_mean (fun p => fst (fst p)) px))
                         (py_int (channel_mean (fun p => snd (fst p)) px))
                         (py_int (channel_mean (fun p => snd p) px))))
    by (destruct px; [congruence|reflexivity]).
  eexists. split; [exact Hrun|].
  do 3 eexists. split; [|split; [|split; [|reflexivity]]];
    apply channel_mean_is_channel; try exact Hne;
    intros q Hq; apply H8 in Hq; unfold pixel_8bit in Hq; tauto.
Qed.

Lemma in_slice {A} (lo hi : Z) (xs : list A) (x : A) :
  In x (slice lo hi xs) -> In x xs.
Proof.
  unfold slice. intros H. apply in_firstn in H.
  rewrite <- (firstn_skipn (Z.to_nat (slice_bound lo (Z.of_nat (List.length xs)))) xs).
  apply in_or_app. now right.
Qed.

Lemma region_pixels_8bit (image : Image) (x y w h : Z) :
  image_8bit image -> Forall pixel_8bit (region_pixels image x y w h).
Proof.
  unfold image_8bit. rewrite !Forall_forall. intros H8 p Hp.
  unfold region_pixels in Hp. apply in_concat in Hp.
  destruct Hp as [cols [Hcols Hp]]. apply in_map_iff in Hcols.
  destruct Hcols as [row [<- Hrow]]. apply in_slice in Hrow, Hp.
  specialize (H8 row Hrow). rewrite Forall_forall in H8. now apply H8.
Qed.

Lemma black_is_well_formed : well_formed_hex "#000000".
Proof.
  exists 0%Z, 0%Z, 0%Z. unfold is_channel. repeat split; try lia.
Qed.

(** X8. On an image with eight-bit channels the colors sampled from a box
    are well-formed hex codes: the text color of a token always is, being
    black whenever the box does not lie inside the image, and so is the
    background color of an element whenever its box covers a pixel. *)
Theorem sampled_colors_are_hex_codes (image : Image) (x y w h : Z)
    (H8 : image_8bit image) :
  (exists hex, sample_text_color image x y w h = Ok hex /\ well_formed_hex hex)
  /\ (~ (0 <= x /\ 0 <= y /\ x + w <= snd (shape image)
         /\ y + h <= fst (shape image))%Z ->
      sample_text_color image x y w h = Ok "#000000")
  /\ (region_pixels image x y w h <> [] ->
      exists hex, mean_color_hex (region_pixels image x y w h) = Ok hex
                  /\ well_formed_hex hex).
Proof.
  assert (Hregion : region_pixels image x y w h <> [] ->
            exists hex, mean_color_hex (region_pixels image x y w h) = Ok hex
                        /\ well_formed_hex hex).
  { intros Hne. apply mean_color_hex_well_formed; [exact Hne|].
    now apply region_pixels_8bit. }
  split; [|split; [|exact Hregion]].
  - unfold sample_text_color.
    destruct ((0 <=? x)%Z && (0 <=? y)%Z && (x + w <=? snd (shape image))%Z
              && (y + h <=? fst (shape image))%Z);
      [|exists "#000000"; split; [reflexivity|apply black_is_well_formed]].
    cbv zeta. destruct (region_pixels image x y w h) as [|p px] eqn:Hr.
    + exists "#000000". split; [reflexivity|apply black_is_well_formed].
    + apply Hregion. discriminate.
  - intros Hout. unfold sample_text_color.
    destruct ((0 <=? x)%Z && (0 <=? y)%Z && (x + w <=? snd (shape image))%Z
              && (y + h <=? fst (shape image))%Z) eqn:Hin; [|reflexivity].
    exfalso. apply Hout.
    rewrite !andb_true_iff, !Z.leb_le in Hin. tauto.
Qed.

Lemma flat_image_8bit (rows cols : nat) (c : RGB) :
  pixel_8bit c -> image_8bit (flat_image rows cols c).
Proof.
  intros Hc. unfold image_8bit, flat_image. rewrite Forall_forall.
  intros row Hrow. apply repeat_spec in Hrow. subst row.
  rewrite Forall_forall. intros p Hp. apply repeat_spec in Hp. now subst p.
Qed.

Lemma sampled_colors_are_hex_codes_witness :
  (exists hex, sample_text_color ocr_image 2 3 20 31 = Ok hex
               /\ well_formed_hex hex)
  /\ (~ (0 <= 2 /\ 0 <= 3 /\ 2 + 20 <= snd (shape ocr_image)
         /\ 3 + 31 <= fst (shape ocr_image))%Z ->
      sample_text_color ocr_image 2 3 20 31 = Ok "#000000")
  /\ (region_pixels ocr_image 2 3 20 31 <> [] ->
      exists hex, mean_color_hex (region_pixels ocr_image 2 3 20 31) = Ok hex
                  /\ well_formed_hex hex).
Proof.
  apply (sampled_colors_are_hex_codes ocr_image 2 3 20 31).
  apply flat_image_8bit. unfold pixel_8bit, is_channel. cbn. lia.
Defined.

(** ** The typography section of the prompt *)

Lemma classify_text_classes (size : Z) :
  In (fst (classify_text size)) ["heading"; "subheading"; "body"].
Proof.
  unfold classify_text. destruct (24 <? size)%Z; [cbn; auto|].
  destruct (18 <? size)%Z; cbn; auto.
Qed.

Lemma typography_step_classes (image : Image) (data : OcrData)
    (entry : nat * string) (acc acc' : list Typography) :
  extractor_text_classes acc ->
  typography_step image data entry acc = Ok acc' ->
  extractor_text_classes acc'.
Proof.
  intros Hacc. unfold typography_step. destruct entry as [i text].
  destruct (str_truthy (strip text)); [|intros H; inversion H; subst; exact Hacc].
  destruct (getitem (ocr_height data) i) as [h|]; cbn [bind]; [|discriminate].
  pose proof (classify_text_classes (estimate_font_size h)) as Hclass.
  destruct (classify_text (estimate_font_size h)) as [kind weight].
  destruct (getitem (ocr_left data) i) as [x|]; cbn [bind]; [|discriminate].
  destruct (getitem (ocr_top data) i) as [y|]; cbn [bind]; [|discriminate].
  destruct (getitem (ocr_width data) i) as [w|]; cbn [bind]; [|discriminate].
  destruct (sample_text_color image x y w h) as [hex|]; cbn [bind];
    [|discriminate].
  intros H. inversion H; subst. unfold py_append, extractor_text_classes.
  apply Forall_app. split; [exact Hacc|]. constructor; [exact Hclass|constructor].
Qed.

Lemma _analyze_typography_classes (E : Env) (image : Image) :
  extractor_text_classes (_analyze_typography E image).
Proof.
  unfold _analyze_typography.
  destruct (tesseract_image_to_data E image) as [data|e];
    cbn [bind try_except]; [|constructor].
  destruct (for_each (enumerate (ocr_text data)) [] (typography_step image data))
    as [ts|e] eqn:Hrun; cbn [bind try_except]; [|constructor].
  assert (Hts : extractor_text_classes ts).
  { eapply (for_each_invariant extractor_text_classes); [|constructor|exact Hrun].
    intros x s s'. apply typography_step_classes. }
  unfold extractor_text_classes in *. rewrite Forall_forall in *.
  intros t Ht. apply Hts. now apply (in_firstn 10 ts).
Qed.

Lemma filter_none {A} (f : A -> bool) (xs : list A) :
  (forall x, In x xs -> f x = false) -> filter f xs = [].
Proof.
  induction xs as [|x xs IH]; intros H; [reflexivity|].
  cbn [filter]. rewrite (H x (or_introl eq_refl)).
  apply IH. intros y Hy. apply H. now right.
Qed.

(** X9. In the typography section of the prompt, built from the records the
    extractor returned, a subheading is listed twice: the main headings are
    the records that are headings or subheadings (the word heading occurs in
    subheading), the subheadings are listed again on their own, the body
    text is the body records, and the groups for buttons, links and labels
    stay empty. *)
Theorem prompt_typography_groups (E : Env) (image : Image) (t : Typography)
    (Ht : In t (_analyze_typography E image)) :
  let g := typography_groups (_analyze_typography E image) in
  (In t (group_headings g)
   <-> typo_element_type t = "heading" \/ typo_element_type t = "subheading")
  /\ (In t (group_subheadings g) <-> typo_element_type t = "subheading")
  /\ (In t (group_body_text g) <-> typo_element_type t = "body")
  /\ group_buttons g = [] /\ group_links g = [] /\ group_labels g = [].
Proof.
  cbv zeta. unfold typography_groups.
  cbn [group_headings group_subheadings group_body_text group_buttons
       group_links group_labels].
  pose proof (_analyze_typography_classes E image) as Hall.
  unfold extractor_text_classes in Hall. rewrite Forall_forall in Hall.
  assert (Hempty : forall f : Typography -> bool,
             (forall x, In (typo_element_type x) ["heading"; "subheading"; "body"]
                        -> f x = false) ->
             filter f (_analyze_typography E image) = []).
  { intros f Hf. apply filter_none. intros x Hx. apply Hf. now apply Hall. }
  pose proof (Hall t Ht) as Hclass. cbn [In] in Hclass.
  rewrite !filter_In. unfold type_mentions.
  split; [|split; [|split; [|split; [|split]]]].
  - destruct Hclass as [Hc|[Hc|[Hc|[]]]]; rewrite <- Hc; split.
    + auto.
    + intros _. split; [exact Ht|reflexivity].
    + auto.
    + intros _. split; [exact Ht|reflexivity].
    + intros [_ Hm]. vm_compute in Hm. discriminate.
    + intros [H|H]; discriminate.
  - destruct Hclass as [Hc|[Hc|[Hc|[]]]]; rewrite <- Hc; split;
      try (intros [_ Hm]; vm_compute in Hm; discriminate);
      try discriminate; try reflexivity.
    intros _. split; [exact Ht|reflexivity].
  - destruct Hclass as [Hc|[Hc|[Hc|[]]]]; rewrite <- Hc; split;
      try (intros [_ Hm]; vm_compute in Hm; discriminate);
      try discriminate; try reflexivity.
    intros _. split; [exact Ht|reflexivity].
  - apply Hempty. intros x Hx. unfold type_mentions. cbn [In] in Hx.
    destruct Hx as [Hx|[Hx|[Hx|[]]]]; rewrite <- Hx; reflexivity.
  - apply Hempty. intros x Hx. unfold type_mentions. cbn [In] in Hx.
    destruct Hx as [Hx|[Hx|[Hx|[]]]]; rewrite <- Hx; reflexivity.
  - apply Hempty. intros x Hx. unfold type_mentions. cbn [In] in Hx.
    destruct Hx as [Hx|[Hx|[Hx|[]]]]; rewrite <- Hx; reflexivity.
Qed.

Lemma prompt_typography_groups_witness :
  exists t,
    nth_error (_analyze_typography ocr_env ocr_image) 0 = Some t
    /\ typo_element_type t = "subheading"
    /\ let g := typography_groups (_analyze_typography ocr_env ocr_image) in
       (In t (group_headings g)
        <-> typo_element_type t = "heading" \/ typo_element_type t = "subheading")
       /\ (In t (group_subheadings g) <-> typo_element_type t = "subheading")
       /\ (In t (group_body_text g) <-> typo_element_type t = "body")
       /\ group_buttons g = [] /\ group_links g = [] /\ group_labels g = [].
Proof.
  eexists. split; [vm_compute; reflexivity|]. split; [reflexivity|].
  apply (prompt_typography_groups ocr_env ocr_image).
  vm_compute. left. reflexivity.
Defined.

(** ** The interactive element detector: kinds, small images *)

Lemma classify_element_kinds (aspect_ratio : Q) (h : Z) :
  In (classify_element aspect_ratio h) [BUTTON; INPUT; CONTAINER].
Proof.
  unfold classify_element.
  repeat match goal with
         | |- context [if ?c then _ else _] => destruct c
         end; cbn; auto.
Qed.

Lemma element_step_kinds (image : Image) (width height : Z) (contour : Contour)
    (acc acc' : list InteractiveElement) :
  detector_kinds acc ->
  element_step image width height contour acc = Ok acc' ->
  detector_kinds acc'.
Proof.
  intros Hacc. unfold element_step.
  destruct (area_in_range width height (contourArea contour));
    [|intros H; inversion H; subst; exact Hacc].
  destruct (boundingRect contour) as [[[x y] w] h].
  destruct (py_truediv w h) as [aspect|]; cbn [bind]; [|discriminate].
  destruct (mean_color_hex (region_pixels image x y w h)) as [hex|];
    cbn [bind]; [|discriminate].
  intros H. inversion H; subst. unfold py_append, detector_kinds.
  apply Forall_app. split; [exact Hacc|].
  constructor; [apply classify_element_kinds|constructor].
Qed.

Lemma _detect_interactive_elements_kinds (E : Env) (image : Image) :
  detector_kinds (_detect_interactive_elements E image).
Proof.
  unfold _detect_interactive_elements. destruct (shape image) as [h w].
  destruct (cv2_threshold_contours E image) as [contours|e];
    cbn [bind try_except]; [|constructor].
  destruct (for_each contours [] (element_step image w h)) as [es|e] eqn:Hrun;
    cbn [bind try_except]; [|constructor].
  assert (Hes : detector_kinds es).
  { eapply (for_each_invariant detector_kinds); [|constructor|exact Hrun].
    intros x s s'. apply element_step_kinds. }
  unfold detector_kinds in *. rewrite Forall_forall in *.
  intros e He. apply Hes. now apply (in_firstn 15 es).
Qed.

Lemma element_in_self (e : InteractiveElement) (pool : list InteractiveElement) :
  In e pool -> element_in e pool = true.
Proof.
  intros Hin. unfold element_in. apply existsb_exists. exists e.
  split; [exact Hin|]. destruct (InteractiveElement_eq_dec e e); congruence.
Qed.

Lemma filter_length_partition3 {A} (f g h : A -> bool) (xs : list A) :
  (forall x, In x xs ->
     (f x = true /\ g x = false /\ h x = false)
     \/ (f x = false /\ g x = true /\ h x = false)
     \/ (f x = false /\ g x = false /\ h x = true)) ->
  (List.length (filter f xs) + List.length (filter g xs)
   + List.length (filter h xs) = List.length xs)%nat.
Proof.
  induction xs as [|x xs IH]; intros H; [reflexivity|].
  cbn [filter]. specialize (IH (fun y Hy => H y (or_intror Hy))).
  destruct (H x (or_introl eq_refl)) as [[-> [-> ->]]|[[-> [-> ->]]|[-> [-> ->]]]];
    cbn [List.length]; lia.
Qed.

(** X10. In the components section of the prompt, built from the elements
    the detector returned, every element falls in exactly one of the groups
    buttons, form elements and containers; the groups for navigation and
    images and the group of other elements stay empty. *)
Theorem prompt_component_groups (E : Env) (image : Image) :
  let elements := _detect_interactive_elements E image in
  let g := component_groups elements in
  (List.length (group_button_elements g) + List.length (group_forms g)
   + List.length (group_containers g) = List.length elements)%nat
  /\ group_button_elements g
     = filter (fun e => match element_type e with BUTTON => true | _ => false end)
         elements
  /\ group_forms g
     = filter (fun e => match element_type e with INPUT => true | _ => false end)
         elements
  /\ group_containers g
     = filter (fun e => match element_type e with CONTAINER => true | _ => false end)
         elements
  /\ group_navigation g = [] /\ group_images g = [] /\ group_other g = [].
Proof.
  cbv zeta. unfold component_groups.
  cbn [group_button_elements group_forms group_containers group_navigation
       group_images group_other].
  set (elements := _detect_interactive_elements E image).
  pose proof (_detect_interactive_elements_kinds E image) as Hall.
  fold elements in Hall. unfold detector_kinds in Hall.
  rewrite Forall_forall in Hall.
  assert (Hkind : forall e, In e elements ->
            element_type e = BUTTON \/ element_type e = INPUT
            \/ element_type e = CONTAINER).
  { intros e He. specialize (Hall e He). cbn [In] in Hall.
    destruct Hall as [H|[H|[H|[]]]]; auto. }
  split; [|split; [|split; [|split; [|split; [|split]]]]].
  - apply filter_length_partition3. intros e He. unfold has_kind.
    destruct (Hkind e He) as [H|[H|H]]; rewrite H; cbn; auto.
  - apply filter_ext_in. intros e He. unfold has_kind.
    destruct (Hkind e He) as [H|[H|H]]; rewrite H; reflexivity.
  - apply filter_ext_in. intros e He. unfold has_kind.
    destruct (Hkind e He) as [H|[H|H]]; rewrite H; reflexivity.
  - apply filter_ext_in. intros e He. unfold has_kind.
    destruct (Hkind e He) as [H|[H|H]]; rewrite H; reflexivity.
  - apply filter_none. intros e He. unfold has_kind.
    destruct (Hkind e He) as [H|[H|H]]; rewrite H; reflexivity.
  - apply filter_none. intros e He. unfold has_kind.
    destruct (Hkind e He) as [H|[H|H]]; rewrite H; reflexivity.
  - apply filter_none. intros e He. apply negb_false_iff.
    apply element_in_self. rewrite !in_app_iff, !filter_In. unfold has_kind.
    destruct (Hkind e He) as [H|[H|H]]; rewrite H; cbn; auto 10.
Qed.

Lemma for_each_skip {A S} (body : A -> S -> result S) (xs : list A) (s : S) :
  (forall x, In x xs -> body x s = Ok s) -> for_each xs s body = Ok s.
Proof.
  induction xs as [|x xs IH]; intros H; [reflexivity|].
  cbn [for_each]. rewrite (H x (or_introl eq_refl)). cbn [bind].
  apply IH. intros y Hy. apply H. now right.
Qed.

(** X11. An image of at most 5000 pixels never yields an interactive
    element: no contour area can lie above 500 and below a tenth of the
    image area. *)
Theorem small_image_has_no_elements (E : Env) (image : Image)
    (Hsmall : (snd (shape image) * fst (shape image) <= 5000)%Z) :
  _detect_interactive_elements E image = [].
Proof.
  unfold _detect_interactive_elements.
  destruct (shape image) as [height width]. cbn [fst snd] in Hsmall.
  destruct (cv2_threshold_contours E image) as [contours|e];
    cbn [bind try_except]; [|reflexivity].
  rewrite for_each_skip; [reflexivity|].
  intros c _. unfold element_step.
  replace (area_in_range width height (contourArea c)) with false;
    [reflexivity|].
  symmetry. apply not_true_is_false. intros Hin.
  apply area_in_range_iff in Hin. destruct Hin as [H500 Hten].
  assert (Hq : inject_Z (width * height) <= 5000).
  { change 5000 with (inject_Z 5000). now rewrite <- Zle_Qle. }
  lra.
Qed.

Lemma small_image_has_no_elements_witness :
  _detect_interactive_elements dashboard_env ocr_image = [].
Proof.
  apply (small_image_has_no_elements dashboard_env ocr_image).
  vm_compute. discriminate.
Defined.

(** ** The asset cataloger *)

Lemma is_image_candidate_iff (c : Contour) :
  is_image_candidate c = true <-> image_candidate c.
Proof.
  unfold is_image_candidate, image_candidate.
  destruct (boundingRect c) as [[[x y] w] h].
  rewrite !andb_true_iff, Qlt_bool_iff, !Qle_bool_iff, !Z.ltb_lt. tauto.
Qed.

Lemma asset_loop (contours : list Contour) :
  Forall rect_has_height contours ->
  forall acc, exists images,
    for_each contours acc asset_step = Ok (acc ++ images)%list
    /\ Forall2 asset_of_contour (filter is_image_candidate contours) images.
Proof.
  induction 1 as [|c contours Hc Hall IH]; intros acc.
  - exists []. rewrite app_nil_r. split; [reflexivity|constructor].
  - cbn [for_each filter]. unfold asset_step at 1, is_image_candidate at 1.
    unfold rect_has_height in Hc.
    destruct (boundingRect c) as [[[x y] w] h] eqn:Hrect. cbn [snd] in Hc.
    destruct (Qlt_bool 2000 (contourArea c)) eqn:Harea; cbn [andb].
    + unfold py_truediv. apply Z.eqb_neq in Hc. rewrite Hc. cbn [bind].
      destruct (Qle_bool (1 # 2) (inject_Z w / inject_Z h)
                && Qle_bool (inject_Z w / inject_Z h) 3
                && (50 <? w)%Z && (50 <? h)%Z) eqn:Hshape.
      * match goal with
        | |- context [py_append acc ?a] => set (asset := a)
        end.
        destruct (IH (py_append acc asset)) as [images [Hrun Hrel]].
        exists (asset :: images). cbn [bind]. split.
        -- rewrite Hrun. unfold py_append. now rewrite <- app_assoc.
        -- constructor; [|exact Hrel].
           unfold asset_of_contour. rewrite Hrect. subst asset.
           repeat split.
      * cbn [bind]. apply IH.
    + cbn [bind]. apply IH.
Qed.

Lemma icon_assets_spec (cs : list (Q * Q * Q)) :
  Forall2 asset_of_circle cs (map icon_asset cs).
Proof.
  induction cs as [|[[cx cy] cr] cs IH]; cbn [map]; constructor; [|exact IH].
  unfold asset_of_circle, icon_asset.
  cbn [asset_type asset_dimensions asset_position].
  rewrite (Z.mul_comm (round_half_even cr) 2). repeat split.
Qed.

Lemma icon_fold_eq (cs : list (Q * Q * Q)) :
  fold_left (fun assets c => py_append assets (icon_asset c)) cs []
  = map icon_asset cs.
Proof.
  assert (G : forall init,
             fold_left (fun assets c => py_append assets (icon_asset c)) cs init
             = (init ++ map icon_asset cs)%list).
  { induction cs as [|c cs IH]; intros init; cbn [fold_left map].
    - now rewrite app_nil_r.
    - rewrite IH. unfold py_append. now rewrite <- app_assoc. }
  apply G.
Qed.

Lemma catalog_prefix (E : Env) (image : Image)
    (circles : option (list (Q * Q * Q))) :
  cv2_hough_circles E image = Ok circles ->
  _catalog_assets E image = []
  \/ exists images,
       _catalog_assets E image
       = firstn 10 (map icon_asset (circles_found circles) ++ images)%list.
Proof.
  intros Hcircles. unfold _catalog_assets. rewrite Hcircles.
  cbn [bind]. destruct (cv2_edge_contours E image) as [contours|e];
    cbn [bind try_except]; [|now left].
  set (icons := match circles with
                | Some cs =>
                    fold_left (fun assets c => py_append assets (icon_asset c))
                      cs []
                | None => []
                end).
  assert (Hicons : icons = map icon_asset (circles_found circles)).
  { unfold icons. destruct circles as [cs|]; [apply icon_fold_eq|reflexivity]. }
  destruct (for_each contours icons asset_step) as [assets|e] eqn:Hrun;
    cbn [bind try_except]; [|now left].
  right.
  assert (Hpre : exists images, assets = (icons ++ images)%list).
  { eapply (for_each_invariant
              (fun s => exists images, s = (icons ++ images)%list));
      [|exists []; now rewrite app_nil_r|exact Hrun].
    intros c s s' [images ->] Hstep. unfold asset_step in Hstep.
    destruct (Qlt_bool 2000 (contourArea c));
      [|inversion Hstep; subst; now exists images].
    destruct (boundingRect c) as [[[x y] w] h].
    destruct (py_truediv w h) as [aspect|]; cbn [bind] in Hstep;
      [|discriminate].
    destruct (Qle_bool (1 # 2) aspect && Qle_bool aspect 3
              && (50 <? w)%Z && (50 <? h)%Z);
      inversion Hstep; subst; [|now exists images].
    unfold py_append. rewrite <- app_assoc. eexists. reflexivity. }
  destruct Hpre as [images ->]. exists images. now rewrite Hicons.
Qed.

(** X12. When the circle and contour searches answer and every bounding
    rectangle has a non-zero height, the catalog is the first 10 entries of
    the icons followed by the images: one icon per circle, the square
    enclosing the rounded circle, in detection order; then one image per
    contour of area above 2000 whose rectangle has aspect ratio between 0.5
    and 3 and both sides above 50, in contour order. *)
Theorem asset_catalog_spec (E : Env) (image : Image)
    (circles : option (list (Q * Q * Q))) (contours : list Contour)
    (Hcircles : cv2_hough_circles E image = Ok circles)
    (Hcontours : cv2_edge_contours E image = Ok contours)
    (Hrects : Forall rect_has_height contours) :
  exists icons images,
    Forall2 asset_of_circle (circles_found circles) icons
    /\ Forall2 asset_of_contour (filter is_image_candidate contours) images
    /\ _catalog_assets E image = firstn 10 (icons ++ images)%list
    /\ (forall c, is_image_candidate c = true <-> image_candidate c).
Proof.
  set (icons := map icon_asset (circles_found circles)).
  destruct (asset_loop contours Hrects icons) as [images [Hrun Hrel]].
  exists icons, images.
  split; [apply icon_assets_spec|]. split; [exact Hrel|].
  split; [|apply is_image_candidate_iff].
  unfold _catalog_assets. rewrite Hcircles, Hcontours. cbn [bind].
  replace (match circles with
           | Some cs =>
               fold_left (fun assets c => py_append assets (icon_asset c)) cs []
           | None => []
           end) with icons
    by (unfold icons; destruct circles; [now rewrite icon_fold_eq|reflexivity]).
  rewrite Hrun. reflexivity.
Qed.

Lemma asset_catalog_spec_witness :
  exists icons images,
    Forall2 asset_of_circle
      (circles_found (Some [(50 + (1 # 2), 60 + (2 # 5), 12 + (1 # 2))])) icons
    /\ Forall2 asset_of_contour (filter is_image_candidate dashboard_edges) images
    /\ _catalog_assets dashboard_env dashboard_image
       = firstn 10 (icons ++ images)%list
    /\ (forall c, is_image_candidate c = true <-> image_candidate c).
Proof.
  apply (asset_catalog_spec dashboard_env dashboard_image).
  - reflexivity.
  - reflexivity.
  - repeat constructor; vm_compute; discriminate.
Defined.

(** X13. When the circle search finds 10 circles or more, the catalog holds
    icons only: the images found afterwards never make it into the 10
    entries. *)
Theorem ten_circles_crowd_out_images (E : Env) (image : Image)
    (circles : list (Q * Q * Q))
    (Hcircles : cv2_hough_circles E image = Ok (Some circles))
    (Hmany : (10 <= List.length circles)%nat) :
  Forall (fun a => asset_type a = "icon") (_catalog_assets E image)
  /\ (_catalog_assets E image = []
      \/ _catalog_assets E image = map icon_asset (firstn 10 circles)).
Proof.
  destruct (catalog_prefix E image (Some circles) Hcircles)
    as [Hnil|[images Heq]].
  - rewrite Hnil. split; [constructor|now left].
  - cbn [circles_found] in Heq.
    assert (Hcut : _catalog_assets E image = map icon_asset (firstn 10 circles)).
    { rewrite Heq, firstn_app, length_map.
      replace (10 - List.length circles)%nat with 0%nat by lia.
      change (firstn 0 images) with (@nil Asset).
      rewrite app_nil_r. apply firstn_map. }
    split; [|now right].
    rewrite Hcut, Forall_forall. intros a Ha. apply in_map_iff in Ha.
    destruct Ha as [[[cx cy] cr] [<- _]]. reflexivity.
Qed.

Lemma ten_circles_crowd_out_images_witness :
  Forall (fun a => asset_type a = "icon") (_catalog_assets icons_env dashboard_image)
  /\ (_catalog_assets icons_env dashboard_image = []
      \/ _catalog_assets icons_env dashboard_image
         = map icon_asset (firstn 10 eleven_circles)).
Proof.
  apply (ten_circles_crowd_out_images icons_env dashboard_image eleven_circles).
  - reflexivity.
  - vm_compute. lia.
Defined.

Example eleven_circles_ten_icons :
  List.length (_catalog_assets icons_env dashboard_image) = 10%nat
  /\ List.length (filter is_image_candidate dashboard_edges) = 2%nat.
Proof. vm_compute. split; reflexivity. Qed.

(** ** The component labeler *)

Lemma parse_int_str_of_Z (n : Z) : parse_int (str_of_Z n) = Some n.
Proof.
  unfold parse_int, str_of_Z. rewrite NilZero.isi.
  - cbn [option_map]. now rewrite DecimalZ.of_to.
  - destruct n; cbn; try discriminate.
    intros H. inversion H. now apply (DecimalPos.Unsigned.to_uint_nonnil p).
  - destruct n; cbn; try discriminate.
    intros H. inversion H. now apply (DecimalPos.Unsigned.to_uint_nonnil p).
Qed.

Lemma str_of_Z_inj (n m : Z) : str_of_Z n = str_of_Z m -> n = m.
Proof.
  intros H. apply (f_equal parse_int) in H.
  rewrite !parse_int_str_of_Z in H. now inversion H.
Qed.

Lemma label_key_inj (i j : nat) : label_key i = label_key j -> i = j.
Proof.
  unfold label_key, str_of_nat. cbn [append]. intros H.
  inversion H as [H']. apply str_of_Z_inj in H'. lia.
Qed.

Lemma dict_set_fresh {V} (d : list (string * V)) (k : string) (v : V) :
  ~ In k (map fst d) -> dict_set d k v = (d ++ [(k, v)])%list.
Proof.
  induction d as [|[k' v'] d IH]; intros Hfresh; [reflexivity|].
  cbn [dict_set app]. cbn [map fst In] in Hfresh.
  destruct (String.eqb_spec k' k) as [->|Hne]; [tauto|].
  rewrite IH by tauto. reflexivity.
Qed.

Lemma enumerate_from_app {A} (i : nat) (xs ys : list A) :
  enumerate_from i (xs ++ ys)
  = (enumerate_from i xs ++ enumerate_from (i + List.length xs) ys)%list.
Proof.
  revert i. induction xs as [|x xs IH]; intros i; cbn [app enumerate_from List.length].
  - now rewrite Nat.add_0_r.
  - rewrite IH. now rewrite Nat.add_succ_r.
Qed.

Lemma enumerate_from_indices {A} (i : nat) (xs : list A) :
  map fst (enumerate_from i xs) = seq i (List.length xs).
Proof.
  revert i. induction xs as [|x xs IH]; intros i; cbn; [reflexivity|].
  now rewrite IH.
Qed.

Lemma expected_labels_keys (elements upto : list InteractiveElement) :
  map fst (expected_labels elements upto)
  = map label_key (seq 0 (List.length upto)).
Proof.
  unfold expected_labels, enumerate. rewrite map_map. cbn [fst].
  rewrite <- (enumerate_from_indices 0 upto), map_map. reflexivity.
Qed.

Lemma count_buttons_snoc (pre : list InteractiveElement) (e : InteractiveElement) :
  count_buttons (pre ++ [e])
  = (count_buttons pre
     + match element_type e with BUTTON => 1 | _ => 0 end)%Z.
Proof.
  unfold count_buttons. rewrite filter_app, length_app. cbn [filter].
  destruct (element_type e); cbn [List.length]; lia.
Qed.

Lemma count_inputs_snoc (pre : list InteractiveElement) (e : InteractiveElement) :
  count_inputs (pre ++ [e])
  = (count_inputs pre
     + match element_type e with INPUT => 1 | _ => 0 end)%Z.
Proof.
  unfold count_inputs. rewrite filter_app, length_app. cbn [filter].
  destruct (element_type e); cbn [List.length]; lia.
Qed.

Lemma firstn_succ_snoc {A} (pre : list A) (e : A) (rest : list A) :
  firstn (S (List.length pre)) (pre ++ e :: rest) = (pre ++ [e])%list.
Proof.
  induction pre as [|x pre IH]; cbn [List.length app]; [reflexivity|].
  rewrite firstn_cons. f_equal. exact IH.
Qed.

Lemma expected_labels_snoc (elements pre : list InteractiveElement)
    (e : InteractiveElement) :
  expected_labels elements (pre ++ [e])
  = (expected_labels elements pre
     ++ [(label_key (List.length pre),
          expected_label elements (List.length pre) e)])%list.
Proof.
  unfold expected_labels, enumerate.
  rewrite enumerate_from_app, map_app. reflexivity.
Qed.

Lemma label_fold (elements rest : list InteractiveElement) :
  forall pre,
    elements = (pre ++ rest)%list ->
    fold_left label_step (enumerate_from (List.length pre) rest)
      (expected_labels elements pre, count_buttons pre, count_inputs pre)
    = (expected_labels elements elements, count_buttons elements,
       count_inputs elements).
Proof.
  induction rest as [|e rest IH]; intros pre Hsplit.
  - rewrite app_nil_r in Hsplit. subst pre. reflexivity.
  - cbn [enumerate_from fold_left].
    assert (Hfresh : ~ In (label_key (List.length pre))
                       (map fst (expected_labels elements pre))).
    { rewrite expected_labels_keys. intros Hin. apply in_map_iff in Hin.
      destruct Hin as [j [Hj Hin]]. apply label_key_inj in Hj.
      apply in_seq in Hin. lia. }
    assert (Hnext : label_step
                      (expected_labels elements pre, count_buttons pre,
                       count_inputs pre) (List.length pre, e)
                    = (expected_labels elements (pre ++ [e]),
                       count_buttons (pre ++ [e]), count_inputs (pre ++ [e]))).
    { assert (Hfirst : firstn (S (List.length pre)) elements = (pre ++ [e])%list)
        by (rewrite Hsplit; apply firstn_succ_snoc).
      unfold label_step. fold (label_key (List.length pre)).
      rewrite expected_labels_snoc, count_buttons_snoc, count_inputs_snoc.
      unfold expected_label. rewrite Hfirst.
      rewrite count_buttons_snoc, count_inputs_snoc.
      destruct (element_type e); rewrite dict_set_fresh by exact Hfresh;
        rewrite ?Z.add_0_r; reflexivity. }
    rewrite Hnext.
    replace (S (List.length pre)) with (List.length (pre ++ [e]))
      by (rewrite length_app; cbn [List.length]; lia).
    apply IH. rewrite Hsplit, <- app_assoc. reflexivity.
Qed.

(** X14. The labeler gives every element exactly one label, under the keys
    element_0, element_1, ... in element order: the k-th button is "Button
    k", the k-th input is "Input Field k", and an element of any other kind
    at position i is "Container i+1", numbered by its position and not among
    the containers. No two keys coincide. *)
Theorem component_labels_spec (E : Env) (elements : list InteractiveElement) :
  _label_components E elements = expected_labels elements elements
  /\ map fst (_label_components E elements)
     = map label_key (seq 0 (List.length elements))
  /\ NoDup (map fst (_label_components E elements))
  /\ List.length (_label_components E elements) = List.length elements.
Proof.
  assert (Heq : _label_components E elements = expected_labels elements elements).
  { unfold _label_components, enumerate. cbn [try_except].
    change (@nil (string * string)) with (expected_labels elements []).
    change 0%Z with (count_buttons []) at 1.
    change 0%Z with (count_inputs []) at 1.
    change 0%nat with (@List.length InteractiveElement []).
    rewrite (label_fold elements elements [] eq_refl). reflexivity. }
  rewrite Heq, expected_labels_keys.
  split; [reflexivity|]. split; [reflexivity|]. split.
  - apply Finite.Injective_map_NoDup; [|apply seq_NoDup].
    intros i j. apply label_key_inj.
  - unfold expected_labels, enumerate. rewrite length_map.
    rewrite <- (length_map fst), enumerate_from_indices. apply length_seq.
Qed.

Example dashboard_labels :
  _label_components dashboard_env
    (_detect_interactive_elements dashboard_env dashboard_image)
  = [("element_0", "Button 1"); ("element_1", "Input Field 1");
     ("element_2", "Container 3"); ("element_3", "Button 2")].
Proof. vm_compute. reflexivity. Qed.

(** ** The style guide *)

Lemma slice_nonneg {A} (lo hi : nat) (xs : list A) :
  (lo <= hi)%nat ->
  slice (Z.of_nat lo) (Z.of_nat hi) xs = firstn (hi - lo) (skipn lo xs).
Proof.
  intros Hle. unfold slice, slice_bound.
  assert (Hlo : (Z.of_nat lo <? 0)%Z = false) by (apply Z.ltb_ge; lia).
  assert (Hhi : (Z.of_nat hi <? 0)%Z = false) by (apply Z.ltb_ge; lia).
  rewrite Hlo, Hhi.
  set (len := List.length xs).
  assert (Hlo' : Z.to_nat (Z.min (Z.of_nat lo) (Z.of_nat len)) = Nat.min lo len)
    by lia.
  assert (Hhi' : Z.to_nat (Z.min (Z.of_nat hi) (Z.of_nat len)
                           - Z.min (Z.of_nat lo) (Z.of_nat len))
                 = (Nat.min hi len - Nat.min lo len)%nat) by lia.
  rewrite Hlo', Hhi'.
  destruct (Nat.le_gt_cases len lo) as [Hshort|Hlong].
  - rewrite (skipn_all2 xs) by (fold len; lia).
    rewrite (skipn_all2 xs) by (fold len; lia).
    now rewrite !firstn_nil.
  - rewrite (Nat.min_l lo len) by lia.
    destruct (Nat.le_gt_cases hi len) as [Hfit|Hover].
    + now rewrite (Nat.min_l hi len) by lia.
    + rewrite (Nat.min_r hi len) by lia.
      rewrite !firstn_all2; try reflexivity; rewrite length_skipn; fold len; lia.
Qed.

Lemma filter_sorted_prefix (t : Q) (colors : list ColorInfo) :
  StronglySorted conf_ge colors ->
  exists k,
    filter (fun c => Qlt_bool t (confidence c)) colors = firstn k colors
    /\ (forall c, In c (firstn k colors) -> t < confidence c)
    /\ (forall c, In c (skipn k colors) -> confidence c <= t).
Proof.
  induction 1 as [|x colors Hs IH Hall].
  - exists 0%nat. repeat split; intros c [].
  - cbn [filter]. destruct (Qlt_bool t (confidence x)) eqn:Hx.
    + destruct IH as [k [Hf [Hin Hout]]]. exists (S k).
      cbn [firstn skipn]. rewrite Hf. split; [reflexivity|].
      split; [|exact Hout].
      intros c [<-|Hc]; [now apply Qlt_bool_iff|now apply Hin].
    + apply Qlt_bool_false_iff in Hx. apply Qnot_lt_le in Hx.
      assert (Hlow : forall c, In c colors -> confidence c <= t).
      { intros c Hc. rewrite Forall_forall in Hall.
        apply Qle_trans with (confidence x); [now apply Hall|exact Hx]. }
      exists 0%nat. cbn [firstn skipn]. split.
      * apply filter_none. intros c Hc. apply Qlt_bool_false_iff.
        apply Qle_not_lt. now apply Hlow.
      * split; [intros c []|]. intros c [<-|Hc]; [exact Hx|now apply Hlow].
Qed.

(** X15. Synthesised from the colors the extractor returned, the style guide
    takes as primary colors the hex codes of the longest run of leading
    colors, at most 3, whose confidence exceeds 0.1, and as secondary colors
    the hex codes of the fourth to sixth color; the primary and secondary
    tokens are the first of each list, or the fixed blue and grey when the
    list is empty. *)
Theorem style_guide_colors (E : Env) (image : Image) (typography : list Typography) :
  let colors := _extract_colors E image in
  let guide := _synthesize_style_guide E colors typography in
  (exists k,
      (k <= 3)%nat
      /\ primary_colors guide = map hex_code (firstn k colors)
      /\ (forall c, In c (firstn k colors) -> (1 # 10) < confidence c)
      /\ (forall c, In c (skipn k (firstn 3 colors)) -> confidence c <= (1 # 10)))
  /\ secondary_colors guide = map hex_code (skipn 3 colors)
  /\ design_tokens guide
     = [("primary", hd "#2196f3" (primary_colors guide));
        ("secondary", hd "#757575" (secondary_colors guide));
        ("base_font_size", "16px"); ("line_height", "1.5")]
  /\ ((List.length colors <= 3)%nat ->
      In ("secondary", "#757575") (design_tokens guide)).
Proof.
  cbv zeta. unfold _synthesize_style_guide. cbn [try_except].
  cbn [primary_colors secondary_colors design_tokens].
  set (colors := _extract_colors E image).
  change 0%Z with (Z.of_nat 0). change 3%Z with (Z.of_nat 3).
  change 6%Z with (Z.of_nat 6).
  rewrite !slice_nonneg by lia.
  change (3 - 0)%nat with 3%nat. change (skipn 0 colors) with colors.
  assert (Hsec : firstn 3 (skipn 3 colors) = skipn 3 colors).
  { apply firstn_all2. rewrite length_skipn.
    pose proof (_extract_colors_length E image). fold colors in H. lia. }
  change (6 - 3)%nat with 3%nat. rewrite Hsec.
  split; [|split; [reflexivity|split; [reflexivity|]]].
  - destruct (filter_sorted_prefix (1 # 10) (firstn 3 colors)) as [k [Hf [Hin Hout]]].
    { apply firstn_sorted. apply _extract_colors_sorted. }
    exists (Nat.min k 3).
    assert (Hk : firstn k (firstn 3 colors) = firstn (Nat.min k 3) colors)
      by apply firstn_firstn.
    split; [lia|]. rewrite Hf, Hk in *. split; [reflexivity|].
    split; [exact Hin|].
    intros c Hc. apply Hout.
    destruct (Nat.le_gt_cases k 3) as [Hle|Hgt].
    + now rewrite Nat.min_l in Hc by lia.
    + rewrite Nat.min_r in Hc by lia.
      rewrite skipn_all2 in Hc by (rewrite length_firstn; lia). contradiction.
  - intros Hshort. rewrite skipn_all2 by exact Hshort. cbn. auto.
Qed.

Example dashboard_style_guide :
  let guide :=
    _synthesize_style_guide dashboard_env
      (_extract_colors dashboard_env dashboard_image)
      (_analyze_typography dashboard_env dashboard_image) in
  primary_colors guide = ["#fafafa"; "#141e28"]
  /\ secondary_colors guide = ["#787d82"; "#5ab4f0"; "#0a0a0a"]
  /\ font_stack guide = ["System font (estimated)"].
Proof. vm_compute. repeat split. Qed.

(** X16. The font stack of the style guide built from the records the
    typography extractor returned is empty when there are no records and
    otherwise holds exactly the one system font, whatever order the process
    iterates its string sets in. *)
Theorem style_guide_font_stack (E E' : Env) (image : Image)
    (colors : list ColorInfo) :
  font_stack (_synthesize_style_guide E' colors (_analyze_typography E image))
  = match _analyze_typography E image with
    | [] => []
    | _ => ["System font (estimated)"]
    end.
Proof.
  unfold _synthesize_style_guide. cbn [try_except font_stack].
  rewrite py_list_of_set_system_font by apply _analyze_typography_system_font.
  destruct (_analyze_typography E image); reflexivity.
Qed.

(** ** The confidence score: tighter bounds *)

Lemma _calculate_confidence_between
    (layout : LayoutStructure) (colors : list ColorInfo)
    (typography : list Typography) (elements : list InteractiveElement) :
  (forall c, In c colors -> 0 <= confidence c /\ confidence c <= 1) ->
  (2 # 5) <= _calculate_confidence layout colors typography elements
  /\ _calculate_confidence layout colors typography elements <= (9 # 10).
Proof.
  intros Hcolors. rewrite _calculate_confidence_eq, layout_kind_always_truthy.
  assert (Havg : colors <> [] ->
            0 <= py_sum (map confidence colors) / py_len (map confidence colors)
            /\ py_sum (map confidence colors) / py_len (map confidence colors)
               <= 1).
  { intros Hne. apply mean_range.
    - destruct colors; [congruence|discriminate].
    - intros x Hx. apply in_map_iff in Hx. destruct Hx as [c [<- Hc]]. auto. }
  unfold collected_factors.
  destruct colors as [|c cs]; cbn [map].
  - destruct (list_truthy typography), (list_truthy elements);
      vm_compute; split; discriminate.
  - specialize (Havg ltac:(discriminate)). cbn [map] in Havg.
    set (avg := py_sum (confidence c :: map confidence cs)
                / py_len (confidence c :: map confidence cs)) in *.
    destruct Havg as [H0 H1].
    destruct (list_truthy typography), (list_truthy elements);
      cbn [app]; unfold py_mean, py_sum, py_len;
      cbn [fold_left List.length Z.of_nat Pos.of_succ_nat Pos.succ inject_Z];
      try change (inject_Z 2) with (2 # 1); try change (inject_Z 3) with (3 # 1);
      try change (inject_Z 4) with (4 # 1); split.
    all: try (apply Qle_shift_div_l; [reflexivity|lra]).
    all: try (apply Qle_shift_div_r; [reflexivity|lra]).
Qed.

Lemma round_half_even_between (a b : Z) (y : Q) :
  inject_Z a <= y -> y <= inject_Z b -> (a <= round_half_even y <= b)%Z.
Proof.
  intros Ha Hb. unfold round_half_even.
  pose proof (Qfloor_le y) as Hfl.
  assert (Hna : (a <= Qfloor y)%Z).
  { rewrite <- (Qfloor_Z a). now apply Qfloor_resp_le. }
  assert (Hnb : (Qfloor y <= b)%Z).
  { rewrite <- (Qfloor_Z b). now apply Qfloor_resp_le. }
  destruct (Qlt_bool (y - inject_Z (Qfloor y)) (1 # 2)) eqn:Hlow; [lia|].
  apply Qlt_bool_false_iff in Hlow. apply Qnot_lt_le in Hlow.
  assert (Hlt : (Qfloor y < b)%Z).
  { destruct (Z.lt_ge_cases (Qfloor y) b) as [Hc|Hc]; [exact Hc|].
    exfalso. rewrite Zle_Qle in Hc. lra. }
  destruct (Qlt_bool (1 # 2) (y - inject_Z (Qfloor y))); [lia|].
  destruct (Z.even (Qfloor y)); lia.
Qed.

(** X17. The confidence score of a completed analysis lies between 0.4 and
    0.9: the layout factor 0.8 is always among the averaged factors and the
    color factor cannot exceed 1. *)
Theorem confidence_score_between (E : Env) (data : list Byte.byte)
    (filename : string) (resp : AnalysisResponse)
    (Hrun : analyze_image E data filename = Ok resp) :
  (2 # 5) <= confidence_score resp /\ confidence_score resp <= (9 # 10).
Proof.
  destruct (_load_image E data) as [image|] eqn:Hload.
  2:{ rewrite (analyze_image_undecoded E data filename Hload) in Hrun.
      discriminate. }
  destruct (analyze_image_decoded E data filename image Hload)
    as [resp' [Hrun' [Hfields _]]].
  rewrite Hrun in Hrun'. inversion Hrun'; subst resp'. clear Hrun'.
  destruct Hfields as [_ [_ [_ [_ [_ [_ [_ [_ [_ [_ Hs]]]]]]]]]].
  rewrite Hs.
  destruct (_calculate_confidence_between
              (_analyze_layout E image) (_extract_colors E image)
              (_analyze_typography E image)
              (_detect_interactive_elements E image)
              (_extract_colors_confidence_range E image)) as [Hlo Hhi].
  set (score := _calculate_confidence _ _ _ _) in *.
  unfold py_round2.
  destruct (round_half_even_between 40 90 (score * 100)) as [H40 H90].
  - change (inject_Z 40) with 40. lra.
  - change (inject_Z 90) with 90. lra.
  - unfold Qle. cbn [Qnum Qden]. split; lia.
Qed.

Lemma confidence_score_between_witness :
  exists resp,
    analyze_image degraded_env png_bytes "shot.png" = Ok resp
    /\ confidence_score resp = 80 # 100
    /\ (2 # 5) <= confidence_score resp /\ confidence_score resp <= (9 # 10).
Proof.
  eexists. split; [vm_compute; reflexivity|]. split; [reflexivity|].
  apply (confidence_score_between degraded_env png_bytes "shot.png").
  vm_compute. reflexivity.
Defined.

(** ** The request handler *)

Lemma prefix_append (p s : string) : String.prefix p (p ++ s) = true.
Proof.
  induction p as [|a p IH]; cbn [append String.prefix].
  - now destruct s.
  - destruct (ascii_dec a a); [exact IH|congruence].
Qed.

Lemma prefix_nonempty (ct : string) :
  String.prefix "image/" ct = true -> str_truthy ct = true.
Proof.
  destruct ct; [discriminate|reflexivity].
Qed.

(** X18. The analyze handler answers with the analysis exactly when the
    upload declares an image content type, can be read, and its bytes
    decode; every other request is rejected with status 500 and a detail
    that starts with "Error analyzing image: ". In particular the status 400
    the handler raises for a wrong content type never reaches the client: it
    is caught and reported as a 500 that quotes it. *)
Theorem analyze_endpoint_outcomes (http_str : Z -> string -> string) (E : Env)
    (file : UploadFile) :
  match analyze_endpoint http_str E file with
  | Responded body =>
      declares_image file
      /\ exists content,
           upload_read file = Ok content
           /\ analyze_image E content (upload_filename file) = Ok body
  | Rejected status_code detail =>
      status_code = 500%Z
      /\ String.prefix "Error analyzing image: " detail = true
      /\ (~ declares_image file ->
          detail
          = "Error analyzing image: "
            ++ http_str 400%Z
                 "Invalid file type. Please upload an image file (PNG, JPG, SVG).")
      /\ (declares_image file ->
          forall content,
            upload_read file = Ok content ->
            _load_image E content = None
            /\ detail = "Error analyzing image: Could not load image")
  end.
Proof.
  unfold analyze_endpoint, analyze_endpoint_body.
  destruct (upload_content_type file) as [ct|] eqn:Hct.
  - destruct (String.prefix "image/" ct) eqn:Hpre.
    + rewrite (prefix_nonempty ct Hpre). cbn [negb orb].
      assert (Hdecl : declares_image file) by (exists ct; auto).
      destruct (upload_read file) as [content|e] eqn:Hread.
      * destruct (analyze_image E content (upload_filename file))
          as [body|e] eqn:Hrun.
        -- split; [exact Hdecl|]. exists content. auto.
        -- split; [reflexivity|]. split; [apply prefix_append|].
           split; [intros Hn; contradiction|].
           intros _ content' Hc. inversion Hc; subst content'.
           destruct (_load_image E content) as [image|] eqn:Hload.
           ++ destruct (analyze_image_decoded E content (upload_filename file)
                          image Hload) as [resp [Hok _]].
              rewrite Hok in Hrun. discriminate.
           ++ rewrite (analyze_image_undecoded E content (upload_filename file)
                         Hload) in Hrun.
              inversion Hrun. split; reflexivity.
      * split; [reflexivity|]. split; [apply prefix_append|].
        split; [intros Hn; contradiction|]. intros _ content Hc. discriminate.
    + rewrite orb_true_r.
      split; [reflexivity|]. split; [apply prefix_append|]. split; [reflexivity|].
      intros [ct' [Hct' Hpre']]. rewrite Hct in Hct'. inversion Hct'.
      congruence.
  - split; [reflexivity|]. split; [apply prefix_append|]. split; [reflexivity|].
    intros [ct' [Hct' _]]. rewrite Hct in Hct'. discriminate.
Qed.

Example endpoint_outcomes :
  (exists body, analyze_endpoint starlette_str dashboard_env png_upload
                = Responded body)
  /\ analyze_endpoint starlette_str dashboard_env text_upload
     = Rejected 500%Z
         ("Error analyzing image: 400: Invalid file type. "
          ++ "Please upload an image file (PNG, JPG, SVG).")
  /\ analyze_endpoint starlette_str dashboard_env noise_upload
     = Rejected 500%Z "Error analyzing image: Could not load image".
Proof.
  split; [eexists; vm_compute; reflexivity|]. split; vm_compute; reflexivity.
Qed.

(** ** Records are well formed whatever the libraries answer *)

Lemma rstrip_head (c : ascii) (s : string) :
  is_space c = false -> exists rest, rstrip (String c s) = String c rest.
Proof.
  intros Hc. cbn [rstrip]. destruct (rstrip s); [|eexists; reflexivity].
  rewrite Hc. eexists. reflexivity.
Qed.

Lemma strip_head (s : string) :
  str_truthy (strip s) = true ->
  exists c rest, strip s = String c rest /\ is_space c = false.
Proof.
  unfold strip. intros Hne.
  destruct (lstrip s) as [|c u] eqn:Hl; [discriminate|].
  pose proof (lstrip_head s c u Hl) as Hc.
  destruct (rstrip_head c u Hc) as [rest Hr].
  exists c, rest. rewrite Hr. auto.
Qed.

Lemma for_each_forall {A B} (P : B -> Prop) (body : A -> list B -> result (list B))
    (xs : list A) :
  (forall x s s', Forall P s -> body x s = Ok s' -> Forall P s') ->
  forall s', for_each xs [] body = Ok s' -> Forall P s'.
Proof.
  intros Hbody s' Hrun.
  eapply (for_each_invariant (Forall P)); [exact Hbody|constructor|exact Hrun].
Qed.

Lemma sample_text_color_well_formed (image : Image) (x y w h : Z) :
  image_8bit image ->
  exists hex, sample_text_color image x y w h = Ok hex /\ well_formed_hex hex.
Proof.
  intros H8. unfold sample_text_color.
  destruct ((0 <=? x)%Z && (0 <=? y)%Z && (x + w <=? snd (shape image))%Z
            && (y + h <=? fst (shape image))%Z);
    [|exists "#000000"; split; [reflexivity|apply black_is_well_formed]].
  cbv zeta. destruct (region_pixels image x y w h) as [|p px] eqn:Hr.
  - exists "#000000". split; [reflexivity|apply black_is_well_formed].
  - rewrite <- Hr. apply mean_color_hex_well_formed; [rewrite Hr; discriminate|].
    now apply region_pixels_8bit.
Qed.

Lemma estimate_font_size_min (h : Z) : (12 <= estimate_font_size h)%Z.
Proof. unfold estimate_font_size. lia. Qed.

Lemma typography_step_ok (image : Image) (data : OcrData)
    (entry : nat * string) (acc acc' : list Typography) :
  image_8bit image ->
  Forall typography_record_ok acc ->
  typography_step image data entry acc = Ok acc' ->
  Forall typography_record_ok acc'.
Proof.
  intros H8 Hacc. unfold typography_step. destruct entry as [i text].
  destruct (str_truthy (strip text)) eqn:Hkeep;
    [|intros H; inversion H; subst; exact Hacc].
  destruct (getitem (ocr_height data) i) as [h|]; cbn [bind]; [|discriminate].
  destruct (classify_text (estimate_font_size h)) as [kind weight] eqn:Hclass.
  destruct (getitem (ocr_left data) i) as [x|]; cbn [bind]; [|discriminate].
  destruct (getitem (ocr_top data) i) as [y|]; cbn [bind]; [|discriminate].
  destruct (getitem (ocr_width data) i) as [w|]; cbn [bind]; [|discriminate].
  destruct (sample_text_color_well_formed image x y w h H8)
    as [hex [Hhex Hwf]].
  remember (str_take 100 (strip text)) as content eqn:Hcontent.
  rewrite Hhex. cbn [bind]. intros H. injection H as <-. unfold py_append.
  apply Forall_app. split; [exact Hacc|]. constructor; [|constructor].
  unfold typography_record_ok.
  cbn [font_family typo_alignment letter_spacing font_size typo_element_type
       font_weight text_content color].
  split; [reflexivity|]. split; [reflexivity|]. split; [reflexivity|].
  split.
  { exists (estimate_font_size h). split; [|split; [reflexivity|now rewrite Hclass]].
    apply estimate_font_size_min. }
  split.
  { destruct (strip_head text Hkeep) as [c [rest [Heq Hc]]].
    exists c, (str_take 99 rest). rewrite Hcontent, Heq.
    split; [reflexivity|exact Hc]. }
  split; [rewrite Hcontent; apply str_take_length|exact Hwf].
Qed.

(** X19. On an image with eight-bit channels every typography record is
    well formed, whatever OCR answers, parallel lists or not: the system
    font, left alignment, a font size of at least 12 written with its unit
    and the class and weight that go with it, a text of at most 100
    characters that is not empty and does not start with whitespace, and a
    well-formed hex color. *)
Theorem typography_records_well_formed (E : Env) (image : Image)
    (H8 : image_8bit image) :
  Forall typography_record_ok (_analyze_typography E image).
Proof.
  unfold _analyze_typography.
  destruct (tesseract_image_to_data E image) as [data|e];
    cbn [bind try_except]; [|constructor].
  destruct (for_each (enumerate (ocr_text data)) [] (typography_step image data))
    as [ts|e] eqn:Hrun; cbn [bind try_except]; [|constructor].
  assert (Hts : Forall typography_record_ok ts).
  { eapply for_each_forall; [|exact Hrun].
    intros x s s'. now apply typography_step_ok. }
  rewrite Forall_forall in *. intros t Ht. apply Hts.
  now apply (in_firstn 10 ts).
Qed.

Lemma typography_records_well_formed_witness :
  Forall typography_record_ok (_analyze_typography ocr_env ocr_image)
  /\ List.length (_analyze_typography ocr_env ocr_image) = 3%nat.
Proof.
  split; [|vm_compute; reflexivity].
  apply (typography_records_well_formed ocr_env ocr_image).
  apply flat_image_8bit. unfold pixel_8bit, is_channel. cbn. lia.
Defined.

Lemma element_step_ok (image : Image) (width height : Z) (contour : Contour)
    (acc acc' : list InteractiveElement) :
  image_8bit image ->
  Forall element_record_ok acc ->
  element_step image width height contour acc = Ok acc' ->
  Forall element_record_ok acc'.
Proof.
  intros H8 Hacc. unfold element_step.
  destruct (area_in_range width height (contourArea contour));
    [|intros H; inversion H; subst; exact Hacc].
  destruct (boundingRect contour) as [[[x y] w] h].
  destruct (py_truediv w h) as [aspect|]; cbn [bind]; [|discriminate].
  destruct (region_pixels image x y w h) as [|p px] eqn:Hr;
    [cbn [mean_color_hex bind]; discriminate|].
  destruct (mean_color_hex_well_formed (p :: px)) as [hex [Hhex Hwf]];
    [discriminate|rewrite <- Hr; now apply region_pixels_8bit|].
  rewrite Hhex. cbn [bind]. intros H. inversion H; subst. unfold py_append.
  apply Forall_app. split; [exact Hacc|]. constructor; [|constructor].
  unfold element_record_ok.
  cbn [element_type position dimensions styling states elem_text_content map fst].
  split; [apply classify_element_kinds|].
  split; [reflexivity|]. split; [reflexivity|].
  split; [exists hex; split; [exact Hwf|reflexivity]|]. split; reflexivity.
Qed.

(** X20. On an image with eight-bit channels every interactive element
    record is well formed: a button, an input or a container (none of the
    other nine kinds), a position with x and y, dimensions with width and
    height, a well-formed hex background color beside the fixed radius and
    padding, no states and no text. *)
Theorem element_records_well_formed (E : Env) (image : Image)
    (H8 : image_8bit image) :
  Forall element_record_ok (_detect_interactive_elements E image).
Proof.
  unfold _detect_interactive_elements. destruct (shape image) as [h w].
  destruct (cv2_threshold_contours E image) as [contours|e];
    cbn [bind try_except]; [|constructor].
  destruct (for_each contours [] (element_step image w h)) as [es|e] eqn:Hrun;
    cbn [bind try_except]; [|constructor].
  assert (Hes : Forall element_record_ok es).
  { eapply for_each_forall; [|exact Hrun].
    intros x s s'. now apply element_step_ok. }
  rewrite Forall_forall in *. intros e He. apply Hes.
  now apply (in_firstn 15 es).
Qed.

Lemma element_records_well_formed_witness :
  Forall element_record_ok (_detect_interactive_elements widget_env widget_image)
  /\ List.length (_detect_interactive_elements widget_env widget_image) = 3%nat.
Proof.
  split; [|vm_compute; reflexivity].
  apply (element_records_well_formed widget_env widget_image).
  apply flat_image_8bit. unfold pixel_8bit, is_channel. cbn. lia.
Defined.
